(** * Codebase Copilot: file discovery, relevance scoring and context assembly

    A shallow embedding of the TypeScript classes [CodebaseAnalyzer]
    (codebaseAnalyzer.ts) and [ChatProvider] (chatProvider.ts), and the
    properties of the context engine proved about it.

    Conventions of the embedding.
    - A JavaScript string is a [string]: a sequence of code units.  The
      development covers ASCII text: [toLowerCase] maps the letters A-Z, and
      white space is the code units 9-13 and 32.
    - A JavaScript number that the code uses as an integer (a size, a score,
      a configured limit) is a [Z]; a length or an index is a [nat].
    - An operation that may raise returns a [result]; [try ... catch] is a
      match on it.
    - Three libraries the code calls are not part of the repository and are
      the fields of the class [Platform]: Node's [path.extname], the pattern
      language of [RegExp] outside the fragment modelled here, and the matcher
      of the npm package [ignore]. *)

From Stdlib Require Import String Ascii List ZArith Lia Bool Arith.
From Stdlib Require Import Sorting.Sorted Sorting.Permutation.
From Stdlib Require Import Numbers.DecimalString.
Import ListNotations.

Local Open Scope string_scope.
Local Open Scope Z_scope.

(** ** Exceptions *)

Inductive exn : Type :=
| SyntaxError (message : string)
| RangeError (message : string)
| HostError (message : string).

Inductive result (A : Type) : Type :=
| Returns (a : A)
| Throws (e : exn).

Arguments Returns {A} a.
Arguments Throws {A} e.

Definition bind {A B : Type} (c : result A) (k : A -> result B) : result B :=
  match c with
  | Returns a => k a
  | Throws e => Throws e
  end.

Notation "x <- c ;; k" := (bind c (fun x => k))
  (at level 61, c at next level, right associativity).

(** [for (const x of xs) { acc = body(acc, x) }] where the body may raise: the
    first exception leaves the loop. *)
Fixpoint forEachM {A Acc : Type} (body : Acc -> A -> result Acc) (xs : list A)
    (acc : Acc) : result Acc :=
  match xs with
  | [] => Returns acc
  | x :: rest => acc' <- body acc x ;; forEachM body rest acc'
  end.

(** [xs.map(f)] where [f] may raise. *)
Fixpoint mapM {A B : Type} (f : A -> result B) (xs : list A) : result (list B) :=
  match xs with
  | [] => Returns []
  | x :: rest => y <- f x ;; ys <- mapM f rest ;; Returns (y :: ys)
  end.

(** ** The string operations of JavaScript that the code uses *)

Module JS.

Definition is_upper (c : ascii) : bool :=
  let n := nat_of_ascii c in ((65 <=? n) && (n <=? 90))%nat.

Definition lower_char (c : ascii) : ascii :=
  if is_upper c then ascii_of_nat (nat_of_ascii c + 32) else c.

(** [s.toLowerCase()] *)
Fixpoint toLowerCase (s : string) : string :=
  match s with
  | EmptyString => EmptyString
  | String c rest => String (lower_char c) (toLowerCase rest)
  end.

(** The class [\s], also the characters [trim] removes. *)
Definition is_space (c : ascii) : bool :=
  let n := nat_of_ascii c in (((9 <=? n) && (n <=? 13)) || (n =? 32))%nat.

(** [s.startsWith(p)] *)
Fixpoint startsWith (s p : string) : bool :=
  match p, s with
  | EmptyString, _ => true
  | String _ _, EmptyString => false
  | String b p', String a s' => Ascii.eqb a b && startsWith s' p'
  end.

(** [s.includes(sub)] *)
Fixpoint includes (s sub : string) : bool :=
  startsWith s sub ||
  match s with
  | EmptyString => false
  | String _ rest => includes rest sub
  end.

(** [s.split(/\s+/)]: the pieces between maximal runs of white space; a
    run at either end leaves an empty piece there, and the empty string
    splits into one empty piece.  [cur] is the piece being read and
    [in_sep] says that the last character read was white space. *)
Fixpoint split_ws_from (s cur : string) (in_sep : bool) : list string :=
  match s with
  | EmptyString => [cur]
  | String c rest =>
      if is_space c
      then if in_sep then split_ws_from rest "" true
           else cur :: split_ws_from rest "" true
      else split_ws_from rest (cur ++ String c "") false
  end.

Definition split_ws (s : string) : list string := split_ws_from s "" false.

(** [s.substring(n)] *)
Fixpoint substring_from (n : nat) (s : string) : string :=
  match n, s with
  | O, _ => s
  | S _, EmptyString => EmptyString
  | S n', String _ rest => substring_from n' rest
  end.

(** [s.substring(0, n)] *)
Fixpoint substring_to (n : nat) (s : string) : string :=
  match n, s with
  | O, _ => EmptyString
  | S _, EmptyString => EmptyString
  | S n', String c rest => String c (substring_to n' rest)
  end.

Fixpoint trimStart (s : string) : string :=
  match s with
  | EmptyString => EmptyString
  | String c rest => if is_space c then trimStart rest else s
  end.

Fixpoint trimEnd (s : string) : string :=
  match s with
  | EmptyString => EmptyString
  | String c rest =>
      match trimEnd rest with
      | EmptyString => if is_space c then EmptyString else String c EmptyString
      | t => String c t
      end
  end.

(** [s.trim()] *)
Definition trim (s : string) : string := trimEnd (trimStart s).

(** The decimal numeral a template literal prints for a length or index. *)
Definition decimal (n : nat) : string := NilZero.string_of_uint (Nat.to_uint n).

(** [xs.slice(0, n)] for an integer [n]: a negative [n] counts from the
    end of the array. *)
Definition slice0 {A : Type} (xs : list A) (n : Z) : list A :=
  if n <? 0
  then firstn (Z.to_nat (Z.max (Z.of_nat (List.length xs) + n) 0)) xs
  else firstn (Z.to_nat n) xs.

(** [xs.find(p)] *)
Definition find {A : Type} (p : A -> bool) (xs : list A) : option A := List.find p xs.

End JS.

(** ** Regular expressions

    [new RegExp(word, 'gi')] reads [word] as a pattern.  The fragment
    modelled here is the patterns written with ordinary characters, the dot
    and the quantifiers [*], [+] and [?]:
    - a pattern of ordinary characters and dots is compiled to its atoms;
    - a quantifier with nothing to repeat (at the start of the pattern, or
      after a quantifier that is already complete) is a [SyntaxError];
    - every other pattern (one with a well-placed quantifier, or with one of
      the characters [\ ^ $ ( ) [ ] { } |]) is handed to the engine of the
      platform. *)

Module RegExp.

Definition mem_char (c : ascii) (set : string) : bool :=
  existsb (Ascii.eqb c) (list_ascii_of_string set).

Definition is_quantifier (c : ascii) : bool := mem_char c "*+?".

(** Syntax characters outside the modelled fragment; 92 is the backslash. *)
Definition is_delegated_char (c : ascii) : bool :=
  mem_char c "^$()[]{}|" || (nat_of_ascii c =? 92)%nat.

Definition is_syntax_char (c : ascii) : bool :=
  is_quantifier c || is_delegated_char c || Ascii.eqb c ".".

Inductive atom : Type :=
| Lit (c : ascii)
| AnyChar.

Definition atom_of_char (c : ascii) : atom :=
  if Ascii.eqb c "." then AnyChar else Lit c.

Inductive parsed : Type :=
| Atoms (atoms : list atom)
| NothingToRepeat
| Delegated.

(** What was read last, for the placement of quantifiers. *)
Inductive position : Type :=
| AtStart
| AfterAtom
| AfterQuantifier
| AfterLazyMark.

(** [quantified] records that a well-placed quantifier was seen. *)
Fixpoint scan (p : string) (pos : position) (quantified : bool) : parsed :=
  match p with
  | EmptyString => if quantified then Delegated else Atoms []
  | String c rest =>
      if is_quantifier c then
        match pos with
        | AfterAtom => scan rest AfterQuantifier true
        | AfterQuantifier =>
            if Ascii.eqb c "?" then scan rest AfterLazyMark true else NothingToRepeat
        | AtStart | AfterLazyMark => NothingToRepeat
        end
      else
        match scan rest AfterAtom quantified with
        | Atoms atoms => Atoms (atom_of_char c :: atoms)
        | other => other
        end
  end.

Definition parse (p : string) : parsed :=
  if existsb is_delegated_char (list_ascii_of_string p) then Delegated
  else scan p AtStart false.

(** Case folding of the flag [i]. *)
Definition canonicalize (c : ascii) : ascii := JS.lower_char c.

Definition is_line_terminator (c : ascii) : bool :=
  let n := nat_of_ascii c in ((n =? 10) || (n =? 13))%nat.

Definition atom_matches (a : atom) (c : ascii) : bool :=
  match a with
  | Lit x => Ascii.eqb (canonicalize x) (canonicalize c)
  | AnyChar => negb (is_line_terminator c)
  end.

(** The atoms match a prefix of [s]. *)
Fixpoint match_here (atoms : list atom) (s : string) : bool :=
  match atoms, s with
  | [], _ => true
  | _ :: _, EmptyString => false
  | a :: atoms', String c rest => atom_matches a c && match_here atoms' rest
  end.

(** The number of matches the flag [g] finds, scanning from the left: after
    a match the scan resumes behind it (one character further when the
    match is empty).  [skip] counts the characters of the last match still
    to be passed. *)
Fixpoint count_from (atoms : list atom) (s : string) (skip : nat) : nat :=
  match s with
  | EmptyString =>
      match skip with
      | O => if match_here atoms s then 1%nat else 0%nat
      | S _ => 0%nat
      end
  | String _ rest =>
      match skip with
      | S k => count_from atoms rest k
      | O =>
          if match_here atoms s
          then S (count_from atoms rest (List.length atoms - 1))
          else count_from atoms rest 0
      end
  end.

(** A compiled expression: the atoms of the fragment, or what the engine of
    the platform made of the pattern, as the function that counts its
    matches in a string. *)
Inductive regexp : Type :=
| Compiled (atoms : list atom)
| HostCompiled (count : string -> nat).

(** [(s.match(re) || []).length] for [re] with the flag [g]. *)
Definition match_count (re : regexp) (s : string) : nat :=
  match re with
  | Compiled atoms => count_from atoms s 0
  | HostCompiled count => count s
  end.

End RegExp.

(** ** The libraries the code calls *)

Class Platform : Type := {
  (** [path.extname] *)
  path_extname : string -> string;
  (** [new RegExp(p, 'gi')] for a pattern outside the modelled fragment:
      [None] when the pattern is refused, else the function counting the
      matches. *)
  host_RegExp : string -> option (string -> nat);
  (** [ignore().add(rules).ignores(path)]; the package raises on a path it
      does not accept as relative. *)
  ignore_ignores : list string -> string -> result bool
}.

(** ** codebaseAnalyzer.ts *)

Record CodeFile : Type := {
  path : string;
  content : string;
  size : Z
}.

Section Analyzer.

Context {platform : Platform}.

(** [new RegExp(word, 'gi')] *)
Definition RegExp_new (word : string) : result RegExp.regexp :=
  match RegExp.parse word with
  | RegExp.Atoms atoms => Returns (RegExp.Compiled atoms)
  | RegExp.NothingToRepeat =>
      Throws (SyntaxError "Invalid regular expression: Nothing to repeat")
  | RegExp.Delegated =>
      match host_RegExp word with
      | Some count => Returns (RegExp.HostCompiled count)
      | None => Throws (SyntaxError "Invalid regular expression")
      end
  end.

(** [query.toLowerCase().split(/\s+/).filter(word => word.length > 2)] *)
Definition queryWords (query : string) : list string :=
  filter (fun word => (2 <? String.length word)%nat) (JS.split_ws (JS.toLowerCase query)).

Definition calculateRelevanceScore (file : CodeFile) (query : string) : result Z :=
  let queryWords := queryWords query in
  let score := 0 in
  (* Score based on filename (higher weight) *)
  let score :=
    fold_left (fun score word =>
                 if JS.includes (JS.toLowerCase (path file)) word
                 then score + 10 else score)
              queryWords score in
  (* Score based on file extension relevance *)
  let fileExt := JS.toLowerCase (path_extname (path file)) in
  let score :=
    fold_left (fun score word =>
                 if JS.includes word (JS.substring_from 1 fileExt)
                 then score + 5 else score)
              queryWords score in
  (* Score based on content (simple keyword matching) *)
  let content := JS.toLowerCase (content file) in
  score <- forEachM (fun score word =>
                       re <- RegExp_new word ;;
                       let matches := Z.of_nat (RegExp.match_count re content) in
                       Returns (score + Z.min matches 5))
                    queryWords score ;;
  (* Bonus for smaller files (easier to process) *)
  let score :=
    if size file <? 1000 then score + 2
    else if size file <? 5000 then score + 1
    else score in
  Returns score.

End Analyzer.

(** *** The file system

    What the calls of [fs] find below the workspace root, at the time of a
    discovery pass.  A directory lists its entries in the order of
    [readdirSync].  The tree is finite: a cycle of symbolic links is outside
    the model. *)

#[local] Set Warnings "-register-all".

Inductive fsnode : Type :=
| File (text : string)                    (* [readFileSync] returns [text] *)
| UnreadableFile                          (* [readFileSync] raises *)
| Dir (items : list (string * fsnode))    (* [readdirSync] returns the names *)
| UnreadableDir                           (* a directory, [readdirSync] raises *)
| NoStat.                                 (* [statSync] raises *)

Record CodebaseAnalyzer : Type := {
  workspaceRoot : string;
  (** The patterns given to [ignoreFilter.add], in order; the text of
      [.gitignore] is one entry, which the package splits into lines. *)
  ignoreFilter : list string
}.

(** [{...file, score: ...}] *)
Record ScoredFile : Type := {
  file : CodeFile;
  score : Z
}.

Definition default_ignores : list string :=
  [ "node_modules/**"; ".git/**"; "dist/**"; "build/**"; "out/**"; "target/**";
    ".vscode/**"; "*.log"; ".env*"; "*.min.js"; "*.min.css"; "package-lock.json";
    "yarn.lock"; ".DS_Store"; "Thumbs.db" ].

Definition codeExtensions : list string :=
  [ ".js"; ".ts"; ".jsx"; ".tsx";
    ".py"; ".java"; ".cpp"; ".c"; ".h";
    ".cs"; ".go"; ".rs"; ".php"; ".rb";
    ".swift"; ".kt"; ".scala"; ".clj";
    ".html"; ".css"; ".scss"; ".sass";
    ".json"; ".xml"; ".yaml"; ".yml";
    ".md"; ".txt"; ".sh"; ".bat" ].

(** [path.relative(this.workspaceRoot, path.join(dir, item))], for a directory
    [dir] given by its own path relative to the root (empty for the root). *)
Definition relative_join (dir item : string) : string :=
  match dir with
  | EmptyString => item
  | _ => dir ++ "/" ++ item
  end.

(** What [existsSync] and [readFileSync] find at [<root>/.gitignore]: [None]
    when nothing exists there, else the outcome of reading it. *)
Definition read_gitignore (fs_root : option fsnode) : option (result string) :=
  match fs_root with
  | Some (Dir items) =>
      match List.find (fun entry => String.eqb (fst entry) ".gitignore") items with
      | Some (_, File text) => Some (Returns text)
      | Some (_, NoStat) => None
      | Some (_, _) => Some (Throws (HostError "readFileSync"))
      | None => None
      end
  | _ => None
  end.

(** The rule set after [setupIgnoreFilter]: the defaults, then the project's
    ignore file when it exists and can be read. *)
Definition setupIgnoreFilter (fs_root : option fsnode) : list string :=
  let ignoreFilter := default_ignores in
  match read_gitignore fs_root with
  | Some (Returns gitignoreContent) => (ignoreFilter ++ [gitignoreContent])%list
  | Some (Throws _) => ignoreFilter          (* catch: warn *)
  | None => ignoreFilter
  end.

(** The constructor; [root] is the path of the first workspace folder, empty
    when none is open. *)
Definition new_CodebaseAnalyzer (root : string) (fs_root : option fsnode)
  : CodebaseAnalyzer :=
  {| workspaceRoot := root; ignoreFilter := setupIgnoreFilter fs_root |}.

Section Discovery.

Context {platform : Platform}.
Variable this : CodebaseAnalyzer.

(** The loop [for (const item of items)] of [searchFiles], inside its [try]:
    an exception of [ignores] or of [statSync] leaves the loop with the
    files pushed so far; [searchFiles] is the function for the recursive
    call.  [files] is the array the closure pushes to. *)
Definition searchItems
    (searchFiles : string -> fsnode -> list CodeFile -> list CodeFile)
    (dir : string)
  : list (string * fsnode) -> list CodeFile -> list CodeFile :=
  fix loop (items : list (string * fsnode)) (files : list CodeFile) : list CodeFile :=
    match items with
    | [] => files
    | (item, node) :: rest =>
        let relativePath := relative_join dir item in
        match ignore_ignores (ignoreFilter this) relativePath with
        | Throws _ => files
        | Returns true => loop rest files
        | Returns false =>
            match node with
            | NoStat => files
            | Dir _ | UnreadableDir =>
                loop rest (searchFiles relativePath node files)
            | File text =>
                if existsb (String.eqb (JS.toLowerCase (path_extname item))) codeExtensions
                then
                  (* Limit file size to avoid overwhelming the API *)
                  if Z.of_nat (String.length text) <? 50000
                  then loop rest (files ++ [ {| path := relativePath;
                                                content := text;
                                                size := Z.of_nat (String.length text) |} ])%list
                  else loop rest files
                else loop rest files
            | UnreadableFile => loop rest files   (* inner catch, or not a code file *)
            end
        end
    end.

(** [searchFiles(dir)]: [readdirSync] raises on anything but a readable
    directory, which the [catch] turns into a warning. *)
Fixpoint searchFiles (dir : string) (node : fsnode) (files : list CodeFile)
  {struct node} : list CodeFile :=
  match node with
  | Dir items => searchItems searchFiles dir items files
  | _ => files
  end.

(** [fs_root] is what the file system holds at [workspaceRoot], [None] when
    [existsSync] is false. *)
Definition getAllCodeFiles (fs_root : option fsnode) : list CodeFile :=
  let files := [] in
  if negb (String.eqb (workspaceRoot this) "")
  then match fs_root with
       | Some node => searchFiles "" node files
       | None => files
       end
  else files.

(** The comparator [(a, b) => b.score - a.score]. *)
Definition compareFn (a b : ScoredFile) : Z := score b - score a.

(** [Array.prototype.sort] is stable: an element moves behind another only
    when the comparator puts it strictly after.  Insertion from the right
    end of the array is one stable sort; a stable sort's result is unique. *)
Fixpoint sort_insert (x : ScoredFile) (sorted : list ScoredFile) : list ScoredFile :=
  match sorted with
  | [] => [x]
  | y :: rest => if 0 <? compareFn x y then y :: sort_insert x rest else x :: sorted
  end.

Definition sort (xs : list ScoredFile) : list ScoredFile :=
  fold_right sort_insert [] xs.

Definition scoreFile (query : string) (file : CodeFile) : result ScoredFile :=
  score <- calculateRelevanceScore file query ;;
  Returns {| file := file; score := score |}.

Definition getRelevantFiles (fs_root : option fsnode) (query : string) (maxFiles : Z)
  : list ScoredFile :=
  let files := [] in
  if String.eqb (workspaceRoot this) "" then files
  else
    let allFiles := getAllCodeFiles fs_root in
    if (List.length allFiles =? 0)%nat then files
    else
      (* Simple relevance scoring based on filename and content *)
      match mapM (scoreFile query) allFiles with
      | Returns scoredFiles => JS.slice0 (sort scoredFiles) maxFiles
      | Throws _ => files        (* catch: 'Error getting relevant files' *)
      end.

End Discovery.

(** ** chatProvider.ts *)

Definition nl : string := String (ascii_of_nat 10) EmptyString.

Inductive ContextMode : Type := current | selected | auto | whole.

Record ContextSelection : Type := {
  mode : ContextMode;
  selectedFiles : list string
}.

(** The active editor, as far as the code reads it. *)
Record TextEditor : Type := {
  document_getText : string;        (* [document.getText()] *)
  document_basename : string;       (* [path.basename(document.fileName)] *)
  document_relativePath : string    (* [vscode.workspace.asRelativePath(document.uri)] *)
}.

(** The editor host at the time of a call.  Reading the active editor is a
    call of the editor API and may raise. *)
Record VSCode : Type := {
  window_activeTextEditor : result (option TextEditor);
  (** [getConfiguration('codebaseCopilot').get('maxContextFiles')] *)
  config_maxContextFiles : option Z;
  (** what the file system holds at the workspace root *)
  fs_root : option fsnode
}.

Record ChatProvider : Type := {
  codebaseAnalyzer : CodebaseAnalyzer;
  availableFiles : list ScoredFile;
  contextSelection : ContextSelection
}.

(** A string in a condition: the empty string counts as false. *)
Definition truthy (s : option string) : bool :=
  match s with
  | Some (String _ _) => true
  | _ => false
  end.

(** [xs.forEach((x, index) => ...)] with the variable the callback updates. *)
Fixpoint forEachIndexed {A Acc : Type} (body : Acc -> A -> nat -> Acc) (xs : list A)
    (index : nat) (acc : Acc) : Acc :=
  match xs with
  | [] => acc
  | x :: rest => forEachIndexed body rest (S index) (body acc x index)
  end.

Definition truncation_marker : string := nl ++ "... (truncated)".

(** [content.length > limit ? content.substring(0, limit) + '\n... (truncated)' : content] *)
Definition truncatedContent (limit : nat) (content : string) : string :=
  if (limit <? String.length content)%nat
  then JS.substring_to limit content ++ truncation_marker
  else content.

Definition currentFileIndicators : list string :=
  [ "what does this do"; "explain this"; "how does this work"; "what is this";
    "improve this"; "fix this"; "debug this"; "this function"; "this class";
    "this code" ].

Definition isQueryAboutCurrentFile (query currentFileName : string) : bool :=
  let lowerQuery := JS.toLowerCase query in
  let lowerFileName := JS.toLowerCase currentFileName in
  if JS.includes lowerQuery lowerFileName
     || JS.includes lowerQuery "this file"
     || JS.includes lowerQuery "current file"
  then true
  else existsb (fun indicator => JS.includes lowerQuery indicator) currentFileIndicators.

Definition no_context_notice : string :=
  "No specific code context found. Please provide general programming assistance.".

Definition error_notice : string :=
  "Error accessing codebase context. Providing general assistance.".

Definition no_selection_notice : string :=
  "No files selected. Please select files using the file selector.".

Section Provider.

Context {platform : Platform}.
Variable this : ChatProvider.
Variable vscode : VSCode.

Definition getCurrentFileContent : result (option string) :=
  activeEditor <- window_activeTextEditor vscode ;;
  Returns (option_map document_getText activeEditor).

Definition getCurrentFileName : result (option string) :=
  activeEditor <- window_activeTextEditor vscode ;;
  Returns (option_map document_basename activeEditor).

(** [activeEditor ? vscode.workspace.asRelativePath(...) : currentFileName] *)
Definition relativePathOf (currentFileName : string) : result string :=
  activeEditor <- window_activeTextEditor vscode ;;
  Returns (match activeEditor with
           | Some editor => document_relativePath editor
           | None => currentFileName
           end).

(** The provider after [refreshAvailableFiles]. *)
Definition refreshAvailableFiles : ChatProvider :=
  {| codebaseAnalyzer := codebaseAnalyzer this;
     availableFiles := getRelevantFiles (codebaseAnalyzer this) (fs_root vscode) "" 50;
     contextSelection := contextSelection this |}.

Definition buildCurrentFileContext : result string :=
  currentFile <- getCurrentFileContent ;;
  currentFileName <- getCurrentFileName ;;
  match currentFile, currentFileName with
  | Some (String _ _ as currentFile), Some (String _ _ as currentFileName) =>
      relativePath <- relativePathOf currentFileName ;;
      Returns ("Current file: " ++ relativePath ++ nl ++ nl ++ "Content:" ++ nl ++ currentFile)
  | _, _ => Returns "No current file is open."
  end.

Definition buildSelectedFilesContext : string :=
  let selectedFiles := selectedFiles (contextSelection this) in
  if (List.length selectedFiles =? 0)%nat then no_selection_notice
  else
    let context :=
      "Selected files (" ++ JS.decimal (List.length selectedFiles) ++ "):" ++ nl ++ nl in
    fold_left
      (fun context filePath =>
         match JS.find (fun f => String.eqb (path (file f)) filePath) (availableFiles this) with
         | Some f =>
             (context ++ ("--- File: " ++ path (file f) ++ " ---" ++ nl))
               ++ (content (file f) ++ nl ++ nl)
         | None => context
         end)
      selectedFiles context.

(** The body of the callback of [relevantFiles.forEach] in [buildAutoContext]. *)
Definition appendRelevantFile (currentFileName : option string)
    (context : string) (f : ScoredFile) (index : nat) : string :=
  (* Don't duplicate the current file *)
  if truthy currentFileName
     && JS.includes (path (file f)) (match currentFileName with Some n => n | None => "" end)
  then context
  else
    (context ++ ("--- File " ++ JS.decimal (index + 1) ++ ": " ++ path (file f) ++ " ---" ++ nl))
      ++ (truncatedContent 2000 (content (file f)) ++ nl ++ nl).

(** The first part of [buildAutoContext], up to its early [return]: [inl]
    is the value returned early, [inr] the context built so far. *)
Definition activeFilePart (query : string) (currentFile currentFileName : option string)
  : result (string + string) :=
  let context := "" in
  match currentFile, currentFileName with
  | Some (String _ _ as currentFile), Some (String _ _ as currentFileName) =>
      relativePath <- relativePathOf currentFileName ;;
      let context :=
        context ++ ("Currently viewing file: " ++ relativePath ++ nl
                    ++ "Content:" ++ nl ++ currentFile ++ nl ++ nl) in
      (* Check if the query is specifically about the current file *)
      let isCurrentFileQuery := isQueryAboutCurrentFile query currentFileName in
      if isCurrentFileQuery
      then Returns (inl (context ++ ("User is asking about the current file ("
                                     ++ relativePath ++ "). Focus primarily on this file.")))
      else Returns (inr context)
  | _, _ => Returns (inr context)
  end.

Definition buildAutoContext (query : string) : result string :=
  let maxFiles :=
    match config_maxContextFiles vscode with
    | Some n => if n =? 0 then 3 else n       (* [config.get(...) || 3] *)
    | None => 3
    end in
  (* Always prioritize the current file if available *)
  currentFile <- getCurrentFileContent ;;
  currentFileName <- getCurrentFileName ;;
  part <- activeFilePart query currentFile currentFileName ;;
  match part with
  | inl returned => Returns returned
  | inr context =>
      (* For broader queries, include relevant files from codebase *)
      let relevantFiles :=
        getRelevantFiles (codebaseAnalyzer this) (fs_root vscode) query (Z.min maxFiles 2) in
      if (0 <? List.length relevantFiles)%nat
      then
        let context := context ++ ("Additional relevant files:" ++ nl ++ nl) in
        Returns (forEachIndexed (appendRelevantFile currentFileName) relevantFiles 0%nat context)
      else Returns context
  end.

(** The body of the callback of [allFiles.forEach] in [buildWholeCodebaseContext]. *)
Definition appendWholeFile (context : string) (f : ScoredFile) (index : nat) : string :=
  (context ++ ("--- File " ++ JS.decimal (index + 1) ++ ": " ++ path (file f) ++ " ---" ++ nl))
    ++ (truncatedContent 1500 (content (file f)) ++ nl ++ nl).

Definition buildWholeCodebaseContext : string :=
  let allFiles := getRelevantFiles (codebaseAnalyzer this) (fs_root vscode) "" 20 in
  let context :=
    "Entire codebase (" ++ JS.decimal (List.length allFiles) ++ " files):" ++ nl ++ nl in
  forEachIndexed appendWholeFile allFiles 0%nat context.

(** The [switch] of [buildContextFromSelection]. *)
Definition buildContextForMode (query : string) : result string :=
  match mode (contextSelection this) with
  | current => buildCurrentFileContext
  | selected => Returns buildSelectedFilesContext
  | auto => buildAutoContext query
  | whole => Returns buildWholeCodebaseContext
  end.

Definition buildContextFromSelection (query : string) : string :=
  match
    context <- buildContextForMode query ;;
    if String.eqb (JS.trim context) ""
    then Returns no_context_notice
    else Returns context
  with
  | Returns context => context
  | Throws _ => error_notice              (* catch: 'Error building context' *)
  end.

End Provider.

(** ** A platform for the examples *)

Module Posix.

(** The scan of Node's [path.posix.extname], from the last character to the
    first. *)
Record state : Type := {
  startDot : Z;
  startPart : Z;
  end_ : Z;
  matchedSlash : bool;
  preDotState : Z;
  stopped : bool
}.

Definition step (st : state) (ic : Z * ascii) : state :=
  let (i, code) := ic in
  if stopped st then st
  else if Ascii.eqb code "/" then
    if negb (matchedSlash st)
    then {| startDot := startDot st; startPart := i + 1; end_ := end_ st;
            matchedSlash := matchedSlash st; preDotState := preDotState st;
            stopped := true |}
    else st
  else
    let st :=
      if end_ st =? -1
      then {| startDot := startDot st; startPart := startPart st; end_ := i + 1;
              matchedSlash := false; preDotState := preDotState st;
              stopped := false |}
      else st in
    if Ascii.eqb code "." then
      if startDot st =? -1
      then {| startDot := i; startPart := startPart st; end_ := end_ st;
              matchedSlash := matchedSlash st; preDotState := preDotState st;
              stopped := false |}
      else {| startDot := startDot st; startPart := startPart st; end_ := end_ st;
              matchedSlash := matchedSlash st; preDotState := 1;
              stopped := false |}
    else if negb (startDot st =? -1)
    then {| startDot := startDot st; startPart := startPart st; end_ := end_ st;
            matchedSlash := matchedSlash st; preDotState := -1;
            stopped := false |}
    else st.

Definition indexed (s : string) : list (Z * ascii) :=
  let chars := list_ascii_of_string s in
  combine (map Z.of_nat (seq 0 (List.length chars))) chars.

Definition extname (p : string) : string :=
  let st := fold_left step (rev (indexed p))
              {| startDot := -1; startPart := 0; end_ := -1;
                 matchedSlash := true; preDotState := 0; stopped := false |} in
  if (startDot st =? -1) || (end_ st =? -1) || (preDotState st =? 0)
     || ((preDotState st =? 1) && (startDot st =? end_ st - 1)
         && (startDot st =? startPart st + 1))
  then ""
  else JS.substring_to (Z.to_nat (end_ st - startDot st))
                       (JS.substring_from (Z.to_nat (startDot st)) p).

(** A matcher that excludes exactly the paths listed as rules, and raises
    on the empty path as the package does.  It stands in for the glob
    engine in the examples. *)
Definition listed_ignores (rules : list string) (p : string) : result bool :=
  match p with
  | EmptyString => Throws (RangeError "path must not be empty")
  | _ => Returns (existsb (String.eqb p) rules)
  end.

(** The examples use no pattern outside the modelled fragment; this
    instance refuses them. *)
Definition platform : Platform :=
  {| path_extname := extname;
     host_RegExp := fun _ => None;
     ignore_ignores := listed_ignores |}.

End Posix.

(** ** The relevance score as the specification words it *)

Module Spec.

(** [p] is a prefix of [s], letters compared without their case. *)
Fixpoint startsWith_ci (s p : string) : bool :=
  match p, s with
  | EmptyString, _ => true
  | String _ _, EmptyString => false
  | String b p', String a s' =>
      Ascii.eqb (JS.lower_char b) (JS.lower_char a) && startsWith_ci s' p'
  end.

(** The occurrences of a token in a text, counted from the left, each one
    starting behind the one before; [skip] characters are passed first. *)
Fixpoint occurrences_from (token s : string) (skip : nat) : nat :=
  match s with
  | EmptyString => 0%nat
  | String _ rest =>
      match skip with
      | S k => occurrences_from token rest k
      | O =>
          if startsWith_ci s token
          then S (occurrences_from token rest (String.length token - 1))
          else occurrences_from token rest 0
      end
  end.

(** The number of case-insensitive occurrences of [token] in [s]. *)
Definition occurrences (token s : string) : nat := occurrences_from token s 0.

(** The query lowercased, split on white space, tokens of length at most 2
    discarded. *)
Definition tokens (query : string) : list string :=
  filter (fun t => negb (String.length t <=? 2)%nat) (JS.split_ws (JS.toLowerCase query)).

Definition size_bonus (size : Z) : Z :=
  if size <? 1000 then 2 else if size <? 5000 then 1 else 0.

Definition sum (xs : list Z) : Z := fold_right Z.add 0 xs.

(** What one token adds, for a file whose extension without its dot is [ext]. *)
Definition token_score (ext : string) (f : CodeFile) (token : string) : Z :=
  (if JS.includes (JS.toLowerCase (path f)) token then 10 else 0)
  + (if JS.includes token ext then 5 else 0)
  + Z.min (Z.of_nat (occurrences token (content f))) 5.

Section Score.

Context {platform : Platform}.

(** The extension as the file has it. *)
Definition claimed_score (f : CodeFile) (query : string) : Z :=
  sum (map (token_score (JS.substring_from 1 (path_extname (path f))) f) (tokens query))
  + size_bonus (size f).

(** The extension lowercased. *)
Definition lowercased_score (f : CodeFile) (query : string) : Z :=
  sum (map (token_score (JS.substring_from 1 (JS.toLowerCase (path_extname (path f)))) f)
           (tokens query))
  + size_bonus (size f).

End Score.

(** A word without any character that a regular expression reads as syntax. *)
Definition plain_word (w : string) : bool :=
  forallb (fun c => negb (RegExp.is_syntax_char c)) (list_ascii_of_string w).

End Spec.

(** ** What the file system holds

    [file_in dir node p text]: below the directory [node], whose path relative
    to the workspace root is [dir], the file system holds a readable file of
    relative path [p] and content [text]. *)

Inductive file_in : string -> fsnode -> string -> string -> Prop :=
| file_here (dir : string) (items : list (string * fsnode)) (item text : string) :
    In (item, File text) items ->
    file_in dir (Dir items) (relative_join dir item) text
| file_below (dir : string) (items : list (string * fsnode)) (item : string)
    (node : fsnode) (p text : string) :
    In (item, node) items ->
    file_in (relative_join dir item) node p text ->
    file_in dir (Dir items) p text.

(** The invariant of a discovered file, for the rule set [rules]. *)
Definition well_discovered {platform : Platform} (rules : list string) (f : CodeFile) : Prop :=
  size f = Z.of_nat (String.length (content f))
  /\ size f < 50000
  /\ ignore_ignores rules (path f) = Returns false.

(** ** Order of the scored files *)

(** [a] may stand before [b]: the scores do not increase. *)
Definition by_score (a b : ScoredFile) : Prop := score b <= score a.

Definition has_score (k : Z) (sf : ScoredFile) : bool := score sf =? k.

(** ** Shapes of the assembled context *)

Definition concat_strings (parts : list string) : string :=
  fold_right String.append EmptyString parts.

(** The entries of an array with their positions, from [index] on. *)
Fixpoint indexed_from {A : Type} (index : nat) (xs : list A) : list (nat * A) :=
  match xs with
  | [] => []
  | x :: rest => (index, x) :: indexed_from (S index) rest
  end.

(** The block of one file: a header with the position counted from 1, the
    content cut at [limit] characters, an empty line. *)
Definition file_block (limit : nat) (entry : nat * ScoredFile) : string :=
  "--- File " ++ JS.decimal (fst entry + 1) ++ ": " ++ path (file (snd entry)) ++ " ---" ++ nl
  ++ truncatedContent limit (content (file (snd entry))) ++ nl ++ nl.

(** The block of a selected path: the header line and the whole content of
    the first available file that has this path, and nothing when no
    available file has it. *)
Fixpoint selected_block (available : list ScoredFile) (filePath : string) : string :=
  match available with
  | [] => EmptyString
  | f :: rest =>
      if String.eqb (path (file f)) filePath
      then "--- File: " ++ path (file f) ++ " ---" ++ nl ++ content (file f) ++ nl ++ nl
      else selected_block rest filePath
  end.

(** The active file counts for the automatic mode when its text and its name
    are not empty. *)
Definition shown_editor (activeEditor : option TextEditor) : option TextEditor :=
  match activeEditor with
  | Some editor =>
      if truthy (Some (document_getText editor)) && truthy (Some (document_basename editor))
      then Some editor else None
  | None => None
  end.

Definition active_file_block (editor : TextEditor) : string :=
  "Currently viewing file: " ++ document_relativePath editor ++ nl
  ++ "Content:" ++ nl ++ document_getText editor ++ nl ++ nl.

Definition focus_instruction (editor : TextEditor) : string :=
  "User is asking about the current file (" ++ document_relativePath editor
  ++ "). Focus primarily on this file.".

(** The candidate is the active file again: its path contains the name. *)
Definition duplicates_active (activeEditor : option TextEditor) (f : ScoredFile) : bool :=
  match activeEditor with
  | Some editor =>
      truthy (Some (document_basename editor))
      && JS.includes (path (file f)) (document_basename editor)
  | None => false
  end.

(** The limit that the automatic mode passes to [getRelevantFiles]. *)
Definition auto_limit (configured : option Z) : Z :=
  Z.min (match configured with
         | Some n => if n =? 0 then 3 else n
         | None => 3
         end) 2.

Definition selection_header (n : nat) : string :=
  "Selected files (" ++ JS.decimal n ++ "):" ++ nl ++ nl.

(** What a call of [searchFiles] on [node], of relative path [dir], may add
    to the array of files. *)
Definition adds {platform : Platform} (rules : list string) (dir : string) (node : fsnode)
    (added : list CodeFile) : Prop :=
  Forall (fun f => well_discovered rules f /\ file_in dir node (path f) (content f)) added.

(** What the automatic mode adds behind the block of the active file: a
    heading when [getRelevantFiles] returned any file, then the block of each
    returned file that is not the active file again, under the position it
    has among the returned files. *)
Definition appended_files (activeEditor : option TextEditor) (relevantFiles : list ScoredFile)
  : list (nat * ScoredFile) :=
  filter (fun entry => negb (duplicates_active activeEditor (snd entry)))
         (indexed_from 0 relevantFiles).

Definition additional_heading (relevantFiles : list ScoredFile) : string :=
  match relevantFiles with
  | [] => EmptyString
  | _ :: _ => "Additional relevant files:" ++ nl ++ nl
  end.

(** ** Data of the examples *)

Module Examples.

Definition main_java : CodeFile :=
  {| path := "Main.JAVA"; content := ""; size := 0 |}.

Definition notes_md : CodeFile :=
  {| path := "notes.md"; content := "abcabc"; size := 6 |}.

Definition vector_cpp : CodeFile :=
  {| path := "src/vector.cpp"; content := "int main() { return 0; }"; size := 24 |}.

(** A project: an ignore file that lists [secret.txt], that file, a source
    directory and a readme. *)
Definition project : option fsnode :=
  Some (Dir [ (".gitignore", File "secret.txt");
              ("secret.txt", File "token");
              ("src", Dir [ ("main.ts", File "let x = 1;");
                            ("lib.ts", File "function f() {}") ]);
              ("README.md", File "# Hi") ]).

Definition analyzer : CodebaseAnalyzer := new_CodebaseAnalyzer "/work" project.

Definition main_ts : CodeFile :=
  {| path := "src/main.ts"; content := "let x = 1;"; size := 10 |}.

Definition provider (m : ContextMode) (selection : list string) : ChatProvider :=
  {| codebaseAnalyzer := analyzer;
     availableFiles := [];
     contextSelection := {| mode := m; selectedFiles := selection |} |}.

(** No editor is open. *)
Definition no_editor (configured : option Z) : VSCode :=
  {| window_activeTextEditor := Returns None;
     config_maxContextFiles := configured;
     fs_root := project |}.

(** The provider after [refreshAvailableFiles], with two selected paths that
    no file of the project has. *)
Definition stale_provider : ChatProvider :=
  @refreshAvailableFiles Posix.platform
    (provider selected ["gone.ts"; "old.md"]) (no_editor None).

(** The provider after [refreshAvailableFiles], with a selected path of the
    project and one that no file of the project has. *)
Definition mixed_provider : ChatProvider :=
  @refreshAvailableFiles Posix.platform
    (provider selected ["src/main.ts"; "gone.ts"]) (no_editor None).

(** The editor API raises. *)
Definition failing_host : VSCode :=
  {| window_activeTextEditor := Throws (HostError "activeTextEditor");
     config_maxContextFiles := Some 5;
     fs_root := project |}.

Definition editing (editor : TextEditor) : VSCode :=
  {| window_activeTextEditor := Returns (Some editor);
     config_maxContextFiles := Some 5;
     fs_root := project |}.

Definition main_editor : TextEditor :=
  {| document_getText := "let x = 1;";
     document_basename := "main.ts";
     document_relativePath := "src/main.ts" |}.

(** A new file without any text yet. *)
Definition empty_editor : TextEditor :=
  {| document_getText := "";
     document_basename := "draft.ts";
     document_relativePath := "src/draft.ts" |}.

End Examples.

(** ** More notions of the discovery pass *)

(** The test of [searchFiles] on the name of a file. *)
Definition allowed_extension {platform : Platform} (item : string) : bool :=
  existsb (String.eqb (JS.toLowerCase (path_extname item))) codeExtensions.


(** [visible rules dir node p text]: below the directory [node] of relative
    path [dir] there is a readable file of relative path [p] and content
    [text], with an extension of the list and less than 50000 characters, and
    the filter excludes neither the file nor a directory on the way to it. *)
Inductive visible {platform : Platform} (rules : list string)
  : string -> fsnode -> string -> string -> Prop :=
| visible_here (dir : string) (items : list (string * fsnode)) (item text : string) :
    In (item, File text) items ->
    ignore_ignores rules (relative_join dir item) = Returns false ->
    allowed_extension item = true ->
    Z.of_nat (String.length text) < 50000 ->
    visible rules dir (Dir items) (relative_join dir item) text
| visible_below (dir : string) (items : list (string * fsnode)) (item : string)
    (node : fsnode) (p text : string) :
    In (item, node) items ->
    ignore_ignores rules (relative_join dir item) = Returns false ->
    visible rules (relative_join dir item) node p text ->
    visible rules dir (Dir items) p text.

(** No loop of the walk below [node] is left by an exception: the filter
    accepts every path it is asked about, and [statSync] succeeds on every
    entry that is not excluded. *)
Definition undisturbed_items {platform : Platform} (rules : list string)
    (undisturbed : string -> fsnode -> bool) (dir : string)
  : list (string * fsnode) -> bool :=
  fix all (items : list (string * fsnode)) : bool :=
    match items with
    | [] => true
    | (item, node) :: rest =>
        match ignore_ignores rules (relative_join dir item) with
        | Throws _ => false
        | Returns true => all rest
        | Returns false =>
            match node with
            | NoStat => false
            | _ => undisturbed (relative_join dir item) node && all rest
            end
        end
    end.

Fixpoint undisturbed {platform : Platform} (rules : list string) (dir : string)
    (node : fsnode) {struct node} : bool :=
  match node with
  | Dir items => undisturbed_items rules (undisturbed rules) dir items
  | _ => true
  end.

(** ** geminiClient.ts

    The SDK of the model service is not part of the repository: the client
    reaches it through [getGenerativeModel], and a model through
    [generateContent] and the text of its response.  Each of these calls may
    raise. *)

Module Gemini.

(** A value that was thrown: an [Error] with its message, or anything else. *)
Inductive thrown : Type :=
| Error (message : string)
| NotAnError.

Inductive outcome (A : Type) : Type :=
| Done (a : A)
| Raised (t : thrown).

Arguments Done {A} a.
Arguments Raised {A} t.

(** [(await result.response).text()] *)
Record Response : Type := {
  response_text : outcome string
}.

Record Model : Type := {
  model_name : string;
  generateContent : string -> outcome Response
}.

Record SDK : Type := {
  (** [new GoogleGenerativeAI(apiKey).getGenerativeModel({ model: name })] *)
  getGenerativeModel : string -> string -> outcome Model
}.

Record GeminiClient : Type := {
  genAI : option string;       (* the key the SDK object was made with *)
  model : option Model
}.

Definition not_configured : string :=
  "Gemini API key not configured. Please set it in VS Code settings.".

(** [!apiKey || apiKey.trim() === ''] *)
Definition blank_key (apiKey : option string) : bool :=
  match apiKey with
  | Some key => String.eqb key "" || String.eqb (JS.trim key) ""
  | None => true
  end.

(** [initializeClient]: the client after the call, and whether the call
    raised.  The assignment of [genAI] stays when a later step raises. *)
Definition initializeClient (sdk : SDK) (apiKey : option string) (this : GeminiClient)
  : GeminiClient * outcome unit :=
  match apiKey with
  | Some key =>
      if blank_key apiKey then (this, Raised (Error not_configured))
      else
        let this := {| genAI := Some key; model := model this |} in
        let chosen :=
          match getGenerativeModel sdk key "gemini-1.5-flash" with
          | Done m => Done m
          | Raised _ =>
              match getGenerativeModel sdk key "gemini-1.5-pro" with
              | Done m => Done m
              | Raised _ =>
                  match getGenerativeModel sdk key "gemini-pro" with
                  | Done m => Done m
                  | Raised _ => getGenerativeModel sdk key "models/gemini-1.5-flash"
                  end
              end
          end in
        match chosen with
        | Done m => ({| genAI := Some key; model := Some m |}, Done tt)
        | Raised t => (this, Raised t)        (* catch: log, throw error *)
        end
  | None => (this, Raised (Error not_configured))
  end.

(** The constructor: the two fields are [null], then [initializeClient]; an
    exception of it leaves the constructor, and no client is made. *)
Definition new_GeminiClient (sdk : SDK) (apiKey : option string) : outcome GeminiClient :=
  let this := {| genAI := None; model := None |} in
  match initializeClient sdk apiKey this with
  | (this, Done _) => Done this
  | (_, Raised t) => Raised t
  end.

Definition codeKeywords : list string :=
  [ "generate"; "create"; "write"; "add"; "modify"; "update"; "change";
    "implement"; "build"; "make"; "show me code"; "give me code";
    "how to add"; "how to implement"; "code for"; "function for";
    "script for"; "example of"; "sample code" ].

Definition isCodeGenerationRequest (message : string) : bool :=
  let lowerMessage := JS.toLowerCase message in
  existsb (fun keyword => JS.includes lowerMessage keyword) codeKeywords.

Definition fence : string := "```".

(** [codeContext] is an optional parameter. *)
Definition buildSimplePrompt (message : string) (codeContext : option string) : string :=
  (* Detect if user is asking for code generation/modification *)
  let isCodeRequest := isCodeGenerationRequest message in
  match codeContext with
  | Some (String _ _ as codeContext) =>
      if negb (String.eqb (JS.trim codeContext) "") then
        let prompt := "You are a helpful coding assistant. " in
        let prompt :=
          if isCodeRequest
          then prompt ++ "When asked to generate, modify, or add code, provide complete, working code examples. "
          else prompt in
        let prompt :=
          prompt ++ ("Analyze the code and answer the question." ++ nl ++ nl
                     ++ "Code Context:" ++ nl ++ fence ++ nl ++ codeContext ++ nl
                     ++ fence ++ nl ++ nl ++ "Question: " ++ message) in
        if isCodeRequest
        then prompt ++ (nl ++ nl ++ "Please provide complete, working code that implements the requested changes. Include the full modified file or function, not just snippets.")
        else prompt
      else
        let prompt := "You are a helpful coding assistant. " in
        let prompt :=
          if isCodeRequest
          then prompt ++ "Provide complete, working code examples when requested. "
          else prompt in
        prompt ++ ("Answer this question: " ++ message)
  | _ =>
      let prompt := "You are a helpful coding assistant. " in
      let prompt :=
        if isCodeRequest
        then prompt ++ "Provide complete, working code examples when requested. "
        else prompt in
      prompt ++ ("Answer this question: " ++ message)
  end.

(** The message of the error that the [catch] of [chat] throws. *)
Definition chat_error_message (t : thrown) : string :=
  match t with
  | Error message =>
      if JS.includes message "API key"
      then "Invalid API key. Please check your Gemini API key in settings."
      else if JS.includes message "quota"
      then "API quota exceeded. Please check your Gemini API usage."
      else if JS.includes message "not found" || JS.includes message "404"
      then "Model not found. This might be an API version issue. Try updating the extension or check your API access."
      else if JS.includes message "models/"
      then "Model access issue. Make sure your API key has access to Gemini models."
      else "Gemini API error: " ++ message
  | NotAnError => "Failed to get response from Gemini API"
  end.

(** The body of the [try] of [chat]. *)
Definition chat_attempt (sdk : SDK) (apiKey : option string) (this : GeminiClient)
    (message : string) (codeContext : option string) : GeminiClient * outcome string :=
  let (this, initialized) :=
    match model this with
    | None => initializeClient sdk apiKey this
    | Some _ => (this, Done tt)
    end in
  match initialized with
  | Raised t => (this, Raised t)
  | Done _ =>
      (* Simple, efficient prompt - no formatting instructions *)
      let prompt := buildSimplePrompt message codeContext in
      match model this with
      | None =>
          (this, Raised (Error "Cannot read properties of null (reading 'generateContent')"))
      | Some m =>
          match generateContent m prompt with
          | Raised t => (this, Raised t)
          | Done response =>
              match response_text response with
              | Raised t => (this, Raised t)
              | Done text =>
                  if String.eqb text "" || String.eqb (JS.trim text) ""
                  then (this, Raised (Error "Empty response from Gemini API"))
                  else (this, Done text)
              end
          end
      end
  end.

Definition chat (sdk : SDK) (apiKey : option string) (this : GeminiClient)
    (message : string) (codeContext : option string) : GeminiClient * outcome string :=
  match chat_attempt sdk apiKey this message codeContext with
  | (this, Done text) => (this, Done text)
  | (this, Raised t) => (this, Raised (Error (chat_error_message t)))
  end.

Definition testModels : list string :=
  [ "gemini-1.5-flash"; "gemini-1.5-pro"; "gemini-pro"; "models/gemini-1.5-flash" ].

Definition testPrompt : string := "Respond with just 'OK' to test the connection.".

(** The loop of [testConnection] over the names that are left. *)
Fixpoint testConnection_from (sdk : SDK) (this : GeminiClient) (names : list string)
  : GeminiClient * bool :=
  match names with
  | [] => (this, false)
  | modelName :: rest =>
      match genAI this with
      | None => testConnection_from sdk this rest        (* [testModel] is undefined *)
      | Some key =>
          match getGenerativeModel sdk key modelName with
          | Raised _ => testConnection_from sdk this rest
          | Done testModel =>
              match generateContent testModel testPrompt with
              | Raised _ => testConnection_from sdk this rest
              | Done _ => ({| genAI := genAI this; model := Some testModel |}, true)
              end
          end
      end
  end.

Definition testConnection (sdk : SDK) (this : GeminiClient) : GeminiClient * bool :=
  testConnection_from sdk this testModels.

End Gemini.

(** ** chatProvider.ts: the chat session

    The provider with the parts of its state that the context builders do
    not touch: the transcript, the client of the model service, whether the
    webview is resolved, and the messages posted to the webview so far.  The
    welcome message, the connection test and [clearChat] of the provider are
    not modelled. *)

Record ChatMessage : Type := {
  message_id : string;
  message_text : string;
  message_isUser : bool;
  message_timestamp : nat
}.

(** The messages that the provider posts to the webview, by their [type]. *)
Module ToWebview.

Inductive message : Type :=
| welcomeMessage (text : string)
| userMessage (text : string)
| thinking (text : string)
| aiResponse (text : string)
| error (text : string)
| connectionTest (success : bool) (text : string)
| clearChat
| updateFileList (files : list (string * Z))
| updateContextInfo (info : string).

End ToWebview.

(** The messages that the script of the webview posts to the provider. *)
Module FromWebview.

Inductive message : Type :=
| sendMessage (text : string)
| clearChat
| testConnection
| refreshContext
| updateContextMode (m : ContextMode)
| updateSelectedFiles (selectedFiles : list string)
| requestFileList.

End FromWebview.

Module Chat.

Record Session : Type := {
  provider : ChatProvider;
  view : bool;                              (* [this._view] is set *)
  chatHistory : list ChatMessage;
  geminiClient : Gemini.GeminiClient;
  posted : list ToWebview.message
}.

Definition post (s : Session) (m : ToWebview.message) : Session :=
  {| provider := provider s; view := view s; chatHistory := chatHistory s;
     geminiClient := geminiClient s; posted := (posted s ++ [m])%list |}.

Definition push_history (s : Session) (m : ChatMessage) : Session :=
  {| provider := provider s; view := view s; chatHistory := (chatHistory s ++ [m])%list;
     geminiClient := geminiClient s; posted := posted s |}.

Definition with_client (s : Session) (c : Gemini.GeminiClient) : Session :=
  {| provider := provider s; view := view s; chatHistory := chatHistory s;
     geminiClient := c; posted := posted s |}.

Definition with_provider (s : Session) (p : ChatProvider) : Session :=
  {| provider := p; view := view s; chatHistory := chatHistory s;
     geminiClient := geminiClient s; posted := posted s |}.

(** The message of a caught value: [error instanceof Error ? error.message :
    'An unexpected error occurred.'] *)
Definition exn_message (e : exn) : string :=
  match e with
  | SyntaxError message | RangeError message | HostError message => message
  end.

Definition thrown_message (t : Gemini.thrown) : string :=
  match t with
  | Gemini.Error message => message
  | Gemini.NotAnError => "An unexpected error occurred."
  end.

(** The two readings of the clock for an entry of the transcript:
    [Date.now()] for its id, then [new Date()] for its timestamp. *)
Record Reading : Type := {
  Date_now : nat;
  new_Date : nat
}.

Section SessionOperations.

Context {platform : Platform}.
Variable vscode : VSCode.

Definition getThinkingMessage (this : ChatProvider) : result string :=
  currentFileName <- getCurrentFileName vscode ;;
  Returns match mode (contextSelection this) with
          | current =>
              match currentFileName with
              | Some (String _ _ as currentFileName) =>
                  "Analyzing " ++ currentFileName ++ "..."
              | _ => "No current file to analyze..."
              end
          | selected =>
              "Analyzing " ++ JS.decimal (List.length (selectedFiles (contextSelection this)))
              ++ " selected files..."
          | auto => "Auto-detecting and analyzing relevant files..."
          | whole => "Analyzing entire codebase..."
          end.

(** The text that [updateContextInfo] posts. *)
Definition contextInfo (this : ChatProvider) : result string :=
  currentFileName <- getCurrentFileName vscode ;;
  Returns match mode (contextSelection this) with
          | current =>
              match currentFileName with
              | Some (String _ _ as currentFileName) => "Using: " ++ currentFileName
              | _ => "Using: Current file (none open)"
              end
          | selected =>
              if (0 <? List.length (selectedFiles (contextSelection this)))%nat
              then "Using: "
                   ++ JS.decimal (List.length (selectedFiles (contextSelection this)))
                   ++ " selected files"
              else "Using: No files selected"
          | auto => "Using: Auto-detect relevant files"
          | whole => "Using: Entire codebase"
          end.

(** [updateContextInfo] has no [try]: an exception leaves it. *)
Definition updateContextInfo (s : Session) : result Session :=
  if negb (view s) then Returns s
  else
    info <- contextInfo (provider s) ;;
    Returns (post s (ToWebview.updateContextInfo info)).

(** The cases [updateContextMode] and [updateSelectedFiles] of the message
    handler. *)
Definition onUpdateContextMode (s : Session) (m : ContextMode) : result Session :=
  updateContextInfo
    (with_provider s
       {| codebaseAnalyzer := codebaseAnalyzer (provider s);
          availableFiles := availableFiles (provider s);
          contextSelection := {| mode := m;
                                 selectedFiles := selectedFiles (contextSelection (provider s)) |} |}).

Definition onUpdateSelectedFiles (s : Session) (files : list string) : result Session :=
  updateContextInfo
    (with_provider s
       {| codebaseAnalyzer := codebaseAnalyzer (provider s);
          availableFiles := availableFiles (provider s);
          contextSelection := {| mode := mode (contextSelection (provider s));
                                 selectedFiles := files |} |}).

(** [refreshAvailableFiles] with the message it posts; [getRelevantFiles]
    does not raise. *)
Definition refreshAvailableFiles (s : Session) : Session :=
  let s := with_provider s (refreshAvailableFiles (provider s) vscode) in
  if view s
  then post s (ToWebview.updateFileList (map (fun f => (path (file f), size (file f)))
                                   (availableFiles (provider s))))
  else s.

Variable sdk : Gemini.SDK.
(** [getConfiguration('codebaseCopilot').get('geminiApiKey')] *)
Variable apiKey : option string.

(** [handleChatMessage]; [now_user] and [now_ai] are the readings of the
    clock for the two entries of the transcript. *)
Definition handleChatMessage (now_user now_ai : Reading) (s : Session) (message : string)
  : Session :=
  if negb (view s) then s
  else
    (* Add user message to history *)
    let userEntry :=
      {| message_id := JS.decimal (Date_now now_user); message_text := message;
         message_isUser := true; message_timestamp := new_Date now_user |} in
    let s := push_history s userEntry in
    (* Show user message in UI *)
    let s := post s (ToWebview.userMessage message) in
    (* Show thinking state with context info *)
    match getThinkingMessage (provider s) with
    | Throws e => post s (ToWebview.error (exn_message e))
    | Returns thinkingMessage =>
        let s := post s (ToWebview.thinking thinkingMessage) in
        (* Get context for the AI based on selection *)
        let context := buildContextFromSelection (provider s) vscode message in
        (* Get AI response *)
        let (client, answered) :=
          Gemini.chat sdk apiKey (geminiClient s) message (Some context) in
        let s := with_client s client in
        match answered with
        | Gemini.Raised t => post s (ToWebview.error (thrown_message t))
        | Gemini.Done response =>
            (* Add AI response to history *)
            let aiEntry :=
              {| message_id := JS.decimal (Date_now now_ai) ++ "_ai"; message_text := response;
                 message_isUser := false; message_timestamp := new_Date now_ai |} in
            let s := push_history s aiEntry in
            (* Send response back to webview *)
            post s (ToWebview.aiResponse response)
        end
    end.

End SessionOperations.

End Chat.

(** ** The script of the webview

    The variables of the script, the send button and the input field, and the
    messages the script posts to the provider.  The elements of the chat
    container are not modelled. *)

Module Webview.

Record State : Type := {
  isWaitingForResponse : bool;
  currentMode : ContextMode;
  selectedFiles : list string;
  availableFiles : list (string * Z);
  sendButton_disabled : bool;
  sendButton_textContent : string;
  messageInput_value : string;
  outbox : list FromWebview.message
}.

Definition initial : State :=
  {| isWaitingForResponse := false; currentMode := auto; selectedFiles := [];
     availableFiles := []; sendButton_disabled := false;
     sendButton_textContent := "Send"; messageInput_value := "";
     outbox := [FromWebview.requestFileList] |}.

Definition toggle (selectedFiles : list string) (filePath : string) : list string :=
  if existsb (String.eqb filePath) selectedFiles
  then filter (fun f => negb (String.eqb f filePath)) selectedFiles
  else (selectedFiles ++ [filePath])%list.

Definition toggleFileSelection (w : State) (filePath : string) : State :=
  let selectedFiles := toggle (selectedFiles w) filePath in
  {| isWaitingForResponse := isWaitingForResponse w; currentMode := currentMode w;
     selectedFiles := selectedFiles; availableFiles := availableFiles w;
     sendButton_disabled := sendButton_disabled w;
     sendButton_textContent := sendButton_textContent w;
     messageInput_value := messageInput_value w;
     outbox := (outbox w ++ [FromWebview.updateSelectedFiles selectedFiles])%list |}.

Definition setContextMode (w : State) (m : ContextMode) : State :=
  let requests :=
    match m with
    | selected => [FromWebview.requestFileList]
    | _ => []
    end in
  {| isWaitingForResponse := isWaitingForResponse w; currentMode := m;
     selectedFiles := selectedFiles w; availableFiles := availableFiles w;
     sendButton_disabled := sendButton_disabled w;
     sendButton_textContent := sendButton_textContent w;
     messageInput_value := messageInput_value w;
     outbox := (outbox w ++ requests ++ [FromWebview.updateContextMode m])%list |}.

(** [formatFileSize]: [Math.round(bytes / 1024)] of an integer is the
    quotient of [bytes + 512] by 1024, the division by a power of two being
    exact. *)
Definition decimalN (n : N) : string := NilZero.string_of_uint (N.to_uint n).

Definition formatFileSize (bytes : N) : string :=
  if (bytes <? 1024)%N then decimalN bytes ++ "B"
  else if (bytes <? 1024 * 1024)%N then decimalN ((bytes + 512) / 1024) ++ "KB"
  else decimalN ((bytes + 524288) / (1024 * 1024)) ++ "MB".

Definition typeInput (w : State) (value : string) : State :=
  {| isWaitingForResponse := isWaitingForResponse w; currentMode := currentMode w;
     selectedFiles := selectedFiles w; availableFiles := availableFiles w;
     sendButton_disabled := sendButton_disabled w;
     sendButton_textContent := sendButton_textContent w;
     messageInput_value := value;
     outbox := outbox w |}.

(** [sendMessage()], the handler of the button and of the Enter key. *)
Definition sendMessage (w : State) : State :=
  let message := JS.trim (messageInput_value w) in
  if negb (String.eqb message "") && negb (isWaitingForResponse w)
  then {| isWaitingForResponse := true; currentMode := currentMode w;
          selectedFiles := selectedFiles w; availableFiles := availableFiles w;
          sendButton_disabled := true; sendButton_textContent := "Sending...";
          messageInput_value := "";
          outbox := (outbox w ++ [FromWebview.sendMessage message])%list |}
  else w.

Definition resetSendButton (w : State) : State :=
  {| isWaitingForResponse := false; currentMode := currentMode w;
     selectedFiles := selectedFiles w; availableFiles := availableFiles w;
     sendButton_disabled := false; sendButton_textContent := "Send";
     messageInput_value := messageInput_value w;
     outbox := outbox w |}.

(** The listener of the messages from the provider, on the modelled state. *)
Definition onMessage (w : State) (m : ToWebview.message) : State :=
  match m with
  | ToWebview.welcomeMessage _ | ToWebview.userMessage _ | ToWebview.thinking _
  | ToWebview.connectionTest _ _ | ToWebview.updateContextInfo _ => w
  | ToWebview.aiResponse _ | ToWebview.error _ | ToWebview.clearChat => resetSendButton w
  | ToWebview.updateFileList files =>
      {| isWaitingForResponse := isWaitingForResponse w; currentMode := currentMode w;
         selectedFiles := selectedFiles w; availableFiles := files;
         sendButton_disabled := sendButton_disabled w;
         sendButton_textContent := sendButton_textContent w;
         messageInput_value := messageInput_value w;
         outbox := outbox w |}
  end.

End Webview.

(** ** Notions for the client of the model service *)

(** The first of [names] for which the SDK returns a model. *)
Fixpoint first_accepted (sdk : Gemini.SDK) (key : string) (names : list string)
  : option Gemini.Model :=
  match names with
  | [] => None
  | name :: rest =>
      match Gemini.getGenerativeModel sdk key name with
      | Gemini.Done m => Some m
      | Gemini.Raised _ => first_accepted sdk key rest
      end
  end.

(** [name] gives a model that answers the test prompt. *)
Definition works (sdk : Gemini.SDK) (key name : string) (m : Gemini.Model) : Prop :=
  Gemini.getGenerativeModel sdk key name = Gemini.Done m
  /\ exists response, Gemini.generateContent m Gemini.testPrompt = Gemini.Done response.

Definition worksb (sdk : Gemini.SDK) (key name : string) : bool :=
  match Gemini.getGenerativeModel sdk key name with
  | Gemini.Done m =>
      match Gemini.generateContent m Gemini.testPrompt with
      | Gemini.Done _ => true
      | Gemini.Raised _ => false
      end
  | Gemini.Raised _ => false
  end.

(** The clients that the program can hold: one that the constructor
    returned, after any calls of [chat] and [testConnection] on it.  The
    service and the configured key may differ from call to call. *)
Inductive constructed : Gemini.GeminiClient -> Prop :=
| constructed_new (sdk : Gemini.SDK) (apiKey : option string) (this : Gemini.GeminiClient) :
    Gemini.new_GeminiClient sdk apiKey = Gemini.Done this ->
    constructed this
| constructed_chat (sdk : Gemini.SDK) (apiKey : option string) (this : Gemini.GeminiClient)
    (message : string) (codeContext : option string) :
    constructed this ->
    constructed (fst (Gemini.chat sdk apiKey this message codeContext))
| constructed_testConnection (sdk : Gemini.SDK) (this : Gemini.GeminiClient) :
    constructed this ->
    constructed (fst (Gemini.testConnection sdk this)).

(** The part of the prompt that holds the context and the question. *)
Definition context_section (codeContext message : string) : string :=
  "Code Context:" ++ nl ++ Gemini.fence ++ nl ++ codeContext ++ nl ++ Gemini.fence
  ++ nl ++ nl ++ "Question: " ++ message.

(** The messages of the errors that [chat] throws, but for the one that
    quotes its cause. *)
Definition chat_error_messages : list string :=
  [ "Invalid API key. Please check your Gemini API key in settings.";
    "API quota exceeded. Please check your Gemini API usage.";
    "Model not found. This might be an API version issue. Try updating the extension or check your API access.";
    "Model access issue. Make sure your API key has access to Gemini models.";
    "Failed to get response from Gemini API" ].

(** ** Data of the further examples *)

Module MoreExamples.

(** A directory with a link that cannot be resolved between two files. *)
Definition with_dangling_link : list (string * fsnode) :=
  [ ("a.ts", File "let a;"); ("dangling", NoStat); ("b.ts", File "let b;") ].

Definition src_items : list (string * fsnode) :=
  [ ("main.ts", File "let x = 1;"); ("lib.ts", File "function f() {}") ].

Definition project_items : list (string * fsnode) :=
  [ (".gitignore", File "secret.txt");
    ("secret.txt", File "token");
    ("src", Dir src_items);
    ("README.md", File "# Hi") ].

Definition parser_ts : CodeFile :=
  {| path := "config/parser.ts"; content := "json json json"; size := 14 |}.

(** A service that knows the second model name only; its model answers
    every prompt with the same sentence. *)
Definition answering_model : Gemini.Model :=
  {| Gemini.model_name := "gemini-1.5-pro";
     Gemini.generateContent :=
       fun _ => Gemini.Done {| Gemini.response_text := Gemini.Done "It sets x to 1." |} |}.

Definition sdk : Gemini.SDK :=
  {| Gemini.getGenerativeModel :=
       fun _ name =>
         if String.eqb name "gemini-1.5-pro" then Gemini.Done answering_model
         else Gemini.Raised (Gemini.Error "model not found") |}.

(** A service whose model answers every prompt with white space, and the
    client that the constructor makes with it. *)
Definition silent_model : Gemini.Model :=
  {| Gemini.model_name := "gemini-1.5-flash";
     Gemini.generateContent :=
       fun _ => Gemini.Done {| Gemini.response_text := Gemini.Done "  " |} |}.

Definition silent_sdk : Gemini.SDK :=
  {| Gemini.getGenerativeModel := fun _ _ => Gemini.Done silent_model |}.

Definition silent_client : Gemini.GeminiClient :=
  {| Gemini.genAI := Some "key"; Gemini.model := Some silent_model |}.

Definition session (m : ContextMode) (selection : list string) : Chat.Session :=
  {| Chat.provider := Examples.provider m selection;
     Chat.view := true;
     Chat.chatHistory := [];
     Chat.geminiClient := {| Gemini.genAI := None; Gemini.model := None |};
     Chat.posted := [] |}.

(** The readings of the clock when the question and the answer are
    recorded. *)
Definition asked : Chat.Reading := {| Chat.Date_now := 1; Chat.new_Date := 1 |}.
Definition answered : Chat.Reading := {| Chat.Date_now := 2; Chat.new_Date := 3 |}.

(** The webview after its start, with a question typed. *)
Definition typed : Webview.State :=
  Webview.typeInput Webview.initial "  what does main.ts do?  ".

End MoreExamples.

(** * Properties *)

(** ** Strings *)

Lemma append_assoc (a b c : string) : (a ++ b) ++ c = a ++ (b ++ c).
Proof. induction a as [|x a IH]; simpl; [reflexivity | now rewrite IH]. Qed.

Lemma append_empty_r (a : string) : a ++ "" = a.
Proof. induction a as [|x a IH]; simpl; [reflexivity | now rewrite IH]. Qed.

Lemma length_append (a b : string) :
  String.length (a ++ b) = (String.length a + String.length b)%nat.
Proof. induction a as [|x a IH]; simpl; [reflexivity | now rewrite IH]. Qed.

Lemma length_substring_to (n : nat) (s : string) :
  String.length (JS.substring_to n s) = Nat.min n (String.length s).
Proof.
  revert s; induction n as [|n IH]; intros [|c s]; simpl; try reflexivity.
  now rewrite IH.
Qed.

Lemma lower_char_idempotent (c : ascii) :
  JS.lower_char (JS.lower_char c) = JS.lower_char c.
Proof. destruct c as [[] [] [] [] [] [] [] []]; reflexivity. Qed.

(** ** Sums and loops *)

Lemma fold_left_bonus (p : string -> bool) (k : Z) (ws : list string) (s0 : Z) :
  fold_left (fun score word => if p word then score + k else score) ws s0
  = s0 + Spec.sum (map (fun word => if p word then k else 0) ws).
Proof.
  revert s0; induction ws as [|w ws IH]; intros s0; simpl.
  - lia.
  - rewrite IH. destruct (p w); lia.
Qed.

Lemma tokens_queryWords (query : string) : Spec.tokens query = queryWords query.
Proof.
  unfold Spec.tokens, queryWords. apply filter_ext. intros w.
  destruct (Nat.leb_spec (String.length w) 2), (Nat.ltb_spec 2 (String.length w));
    simpl; try reflexivity; lia.
Qed.

(** ** Plain words as patterns *)

Lemma scan_plain (w : string) (pos : RegExp.position) :
  Spec.plain_word w = true ->
  RegExp.scan w pos false = RegExp.Atoms (map RegExp.Lit (list_ascii_of_string w)).
Proof.
  revert pos; induction w as [|c w IH]; intros pos H; simpl in *.
  - reflexivity.
  - apply andb_true_iff in H as [Hc Hw].
    unfold RegExp.is_syntax_char in Hc.
    apply negb_true_iff in Hc.
    apply orb_false_iff in Hc as [Hc Hdot].
    apply orb_false_iff in Hc as [Hq _].
    rewrite Hq, (IH _ Hw). unfold RegExp.atom_of_char. now rewrite Hdot.
Qed.

Lemma parse_plain (w : string) :
  Spec.plain_word w = true ->
  RegExp.parse w = RegExp.Atoms (map RegExp.Lit (list_ascii_of_string w)).
Proof.
  intros H. unfold RegExp.parse.
  assert (E : existsb RegExp.is_delegated_char (list_ascii_of_string w) = false).
  { unfold Spec.plain_word in H. induction (list_ascii_of_string w) as [|c l IH]; simpl in *.
    - reflexivity.
    - apply andb_true_iff in H as [Hc Hl]. rewrite (IH Hl).
      unfold RegExp.is_syntax_char in Hc. apply negb_true_iff in Hc.
      apply orb_false_iff in Hc as [Hc _]. apply orb_false_iff in Hc as [_ Hd].
      now rewrite Hd. }
  rewrite E. now apply scan_plain.
Qed.

Lemma match_here_literal (token s : string) :
  RegExp.match_here (map RegExp.Lit (list_ascii_of_string token)) s
  = Spec.startsWith_ci s token.
Proof.
  revert s; induction token as [|b token IH]; intros [|a s]; simpl; try reflexivity.
  unfold RegExp.canonicalize. now rewrite IH.
Qed.

Lemma length_literal_atoms (token : string) :
  List.length (map RegExp.Lit (list_ascii_of_string token)) = String.length token.
Proof. rewrite length_map. induction token as [|c t IH]; simpl; congruence. Qed.

Lemma count_from_literal (token s : string) (skip : nat) :
  token <> "" ->
  RegExp.count_from (map RegExp.Lit (list_ascii_of_string token)) s skip
  = Spec.occurrences_from token s skip.
Proof.
  intros Hne. revert skip; induction s as [|c s IH]; intros skip.
  - destruct skip; simpl; [|reflexivity].
    destruct token; [congruence | reflexivity].
  - cbn [RegExp.count_from Spec.occurrences_from].
    destruct skip as [|k]; [|apply IH].
    rewrite match_here_literal, length_literal_atoms, !IH. reflexivity.
Qed.

Lemma startsWith_ci_lower (s token : string) :
  Spec.startsWith_ci (JS.toLowerCase s) token = Spec.startsWith_ci s token.
Proof.
  revert s; induction token as [|b token IH]; intros [|a s]; simpl; try reflexivity.
  now rewrite lower_char_idempotent, IH.
Qed.

Lemma occurrences_from_lower (token s : string) (skip : nat) :
  Spec.occurrences_from token (JS.toLowerCase s) skip
  = Spec.occurrences_from token s skip.
Proof.
  revert skip; induction s as [|c s IH]; intros skip; [reflexivity|].
  cbn [JS.toLowerCase Spec.occurrences_from].
  destruct skip as [|k]; [|apply IH].
  change (String (JS.lower_char c) (JS.toLowerCase s)) with (JS.toLowerCase (String c s)).
  now rewrite startsWith_ci_lower, !IH.
Qed.

(** ** The relevance score *)

Section ScoreProperties.

Context {platform : Platform}.

Lemma RegExp_new_plain (word : string) :
  Spec.plain_word word = true ->
  RegExp_new word
  = Returns (RegExp.Compiled (map RegExp.Lit (list_ascii_of_string word))).
Proof. intros H. unfold RegExp_new. now rewrite (parse_plain _ H). Qed.

(** The loop over the content of the file, on plain words. *)
Lemma content_loop_plain (text : string) (ws : list string) (s0 : Z) :
  Forall (fun w => Spec.plain_word w = true /\ w <> "") ws ->
  forEachM (fun score word =>
              re <- RegExp_new word ;;
              let matches := Z.of_nat (RegExp.match_count re (JS.toLowerCase text)) in
              Returns (score + Z.min matches 5))
           ws s0
  = Returns (s0 + Spec.sum (map (fun w => Z.min (Z.of_nat (Spec.occurrences w text)) 5) ws)).
Proof.
  intros H; revert s0; induction H as [|w ws [Hp Hne] _ IH]; intros s0; simpl.
  - f_equal; lia.
  - rewrite (RegExp_new_plain _ Hp). simpl.
    rewrite IH, (count_from_literal _ _ _ Hne), occurrences_from_lower.
    unfold Spec.occurrences. f_equal; lia.
Qed.

Lemma sum_token_scores (ext : string) (f : CodeFile) (ws : list string) :
  Spec.sum (map (Spec.token_score ext f) ws)
  = Spec.sum (map (fun w => if JS.includes (JS.toLowerCase (path f)) w then 10 else 0) ws)
    + Spec.sum (map (fun w => if JS.includes w ext then 5 else 0) ws)
    + Spec.sum (map (fun w => Z.min (Z.of_nat (Spec.occurrences w (content f))) 5) ws).
Proof. induction ws as [|w ws IH]; simpl; [reflexivity|]. unfold Spec.token_score at 1. lia. Qed.

Lemma queryWords_nonempty (query w : string) : In w (queryWords query) -> w <> "".
Proof.
  unfold queryWords. intros H. apply filter_In in H as [_ H].
  intros ->. discriminate H.
Qed.

(** C1, as amended: for every file and every query whose tokens hold no
    character that a regular expression reads as syntax, the score is the
    sum over the tokens (query lowercased, split on white space, tokens of
    length at most 2 discarded) of 10 when the lowercased path contains the
    token, 5 when the token contains the lowercased extension without its
    dot, and the number of case-insensitive occurrences of the token in the
    content capped at 5; plus the size bonus 2, 1 or 0. *)
Theorem calculateRelevanceScore_plain (f : CodeFile) (query : string) :
  Forall (fun w => Spec.plain_word w = true) (queryWords query) ->
  calculateRelevanceScore f query = Returns (Spec.lowercased_score f query).
Proof.
  intros Hplain. unfold calculateRelevanceScore, Spec.lowercased_score.
  rewrite tokens_queryWords, !fold_left_bonus.
  rewrite content_loop_plain.
  - simpl. f_equal. unfold Spec.size_bonus.
    rewrite sum_token_scores.
    destruct (size f <? 1000); [lia|]. destruct (size f <? 5000); lia.
  - apply Forall_forall. intros w Hw. split.
    + now apply (proj1 (Forall_forall _ _) Hplain).
    + now apply (queryWords_nonempty query).
Qed.

(** The empty query has no token: the score is the size bonus. *)
Lemma calculateRelevanceScore_empty_query (f : CodeFile) :
  calculateRelevanceScore f "" = Returns (Spec.size_bonus (size f)).
Proof.
  unfold calculateRelevanceScore, Spec.size_bonus. simpl.
  destruct (size f <? 1000); [reflexivity|]. destruct (size f <? 5000); reflexivity.
Qed.

(** The token "c++" is given to [new RegExp] as it is, and is not a
    pattern: the loop over the content raises, for every file. *)
Lemma calculateRelevanceScore_nothing_to_repeat (f : CodeFile) :
  calculateRelevanceScore f "optimize c++ code"
  = Throws (SyntaxError "Invalid regular expression: Nothing to repeat").
Proof.
  unfold calculateRelevanceScore.
  change (queryWords "optimize c++ code") with ["optimize"; "c++"; "code"].
  cbn [forEachM].
  rewrite (RegExp_new_plain "optimize") by reflexivity.
  reflexivity.
Qed.

(** C2: on every platform, [calculateRelevanceScore] raises a
    [SyntaxError] for the file [src/vector.cpp] and the query "optimize c++
    code", and the three query words are the tokens of the query. *)
Theorem calculateRelevanceScore_raises :
  queryWords "optimize c++ code" = ["optimize"; "c++"; "code"]
  /\ RegExp_new "c++"
     = Throws (SyntaxError "Invalid regular expression: Nothing to repeat")
  /\ calculateRelevanceScore Examples.vector_cpp "optimize c++ code"
     = Throws (SyntaxError "Invalid regular expression: Nothing to repeat").
Proof.
  split; [reflexivity | split; [reflexivity|]].
  apply calculateRelevanceScore_nothing_to_repeat.
Qed.

End ScoreProperties.

(** C1, a file and a query that satisfy the hypothesis of the amended claim. *)
Lemma calculateRelevanceScore_plain_witness :
  Forall (fun w => Spec.plain_word w = true)
         (queryWords "parse json config")
  /\ @calculateRelevanceScore Posix.platform
       {| path := "config/parser.ts"; content := "json json json"; size := 14 |}
       "parse json config"
     = Returns 25.
Proof.
  split.
  - repeat constructor.
  - exact (@calculateRelevanceScore_plain Posix.platform
             {| path := "config/parser.ts"; content := "json json json"; size := 14 |}
             "parse json config" ltac:(repeat constructor)).
Defined.

(** C1 as stated fails on the file [Main.JAVA] and the query [java]: the
    token does not contain the extension [JAVA] as the file has it, and the
    code, which lowercases the extension, adds 5 for it. *)
Lemma claimed_score_counterexample :
  @calculateRelevanceScore Posix.platform Examples.main_java "java" = Returns 17
  /\ @Spec.claimed_score Posix.platform Examples.main_java "java" = 12.
Proof. split; vm_compute; reflexivity. Qed.

(** ** Discovery *)

Lemma fsnode_induction (P : fsnode -> Prop) :
  (forall text, P (File text)) ->
  P UnreadableFile ->
  (forall items, Forall (fun entry => P (snd entry)) items -> P (Dir items)) ->
  P UnreadableDir ->
  P NoStat ->
  forall node, P node.
Proof.
  intros HFile HUFile HDir HUDir HNoStat.
  fix IH 1. intros [text| |items| |].
  - apply HFile.
  - exact HUFile.
  - apply HDir.
    induction items as [|[name child] items IHitems]; constructor.
    + apply IH.
    + exact IHitems.
  - exact HUDir.
  - exact HNoStat.
Qed.

Section DiscoveryProperties.

Context {platform : Platform}.
Variable this : CodebaseAnalyzer.

Lemma searchItems_adds (dir : string) (all : list (string * fsnode)) :
  Forall (fun entry =>
            forall d files, exists added,
              searchFiles this d (snd entry) files = (files ++ added)%list
              /\ adds (ignoreFilter this) d (snd entry) added) all ->
  forall items files, incl items all ->
  exists added,
    searchItems this (searchFiles this) dir items files = (files ++ added)%list
    /\ adds (ignoreFilter this) dir (Dir all) added.
Proof.
  intros Hall. induction items as [|[item node] rest IH]; intros files Hincl.
  - exists []. split; [now rewrite app_nil_r | constructor].
  - assert (Hin : In (item, node) all) by (apply Hincl; now left).
    assert (Hrest : incl rest all) by (intros e He; apply Hincl; now right).
    assert (Hstop : exists added,
               files = (files ++ added)%list /\ adds (ignoreFilter this) dir (Dir all) added).
    { exists []. split; [now rewrite app_nil_r | constructor]. }
    assert (Hdir : exists added,
               searchItems this (searchFiles this) dir rest
                 (searchFiles this (relative_join dir item) node files)
               = (files ++ added)%list /\ adds (ignoreFilter this) dir (Dir all) added).
    { destruct (proj1 (Forall_forall _ _) Hall _ Hin (relative_join dir item) files)
        as (added1 & E1 & H1). simpl in E1, H1.
      destruct (IH (files ++ added1)%list Hrest) as (added2 & E2 & H2).
      exists (added1 ++ added2)%list. split.
      - now rewrite E1, E2, app_assoc.
      - apply Forall_app. split; [|exact H2].
        eapply Forall_impl; [|exact H1]. intros f [Hf Hfile]. split; [exact Hf|].
        now apply (file_below dir all item node). }
    simpl.
    destruct (ignore_ignores (ignoreFilter this) (relative_join dir item))
      as [[|]|e] eqn:Hig; [now apply IH | | exact Hstop].
    destruct node as [text| |sub| |]; try exact Hstop; try exact Hdir;
      try (now apply IH).
    match goal with
    | |- context [if ?allowed then _ else searchItems _ _ _ rest files] =>
        destruct allowed; [|now apply IH]
    end.
    destruct (Z.ltb_spec (Z.of_nat (String.length text)) 50000) as [Hsize|_];
      [|now apply IH].
    destruct (IH (files ++ [ {| path := relative_join dir item; content := text;
                               size := Z.of_nat (String.length text) |} ])%list Hrest)
      as (added2 & E2 & H2).
    eexists (_ :: added2). split.
    + rewrite E2, <- app_assoc. reflexivity.
    + constructor; [|exact H2]. split.
      * repeat split; simpl; [exact Hsize | exact Hig].
      * simpl. now apply file_here.
Qed.

Lemma searchFiles_adds (node : fsnode) :
  forall dir files, exists added,
    searchFiles this dir node files = (files ++ added)%list /\ adds (ignoreFilter this) dir node added.
Proof.
  induction node as [text| |items IH| |] using fsnode_induction; intros dir files;
    try (exists []; split; [now rewrite app_nil_r | constructor]).
  simpl. apply (searchItems_adds dir items IH). apply incl_refl.
Qed.

End DiscoveryProperties.

(** What [setupIgnoreFilter] leaves in the filter: the built-in defaults,
    and behind them the text of the project's [.gitignore] when the file
    exists and can be read. *)
Lemma setupIgnoreFilter_rules (fs_root : option fsnode) :
  setupIgnoreFilter fs_root
  = (default_ignores
     ++ match read_gitignore fs_root with
        | Some (Returns gitignoreContent) => [gitignoreContent]
        | Some (Throws _) | None => []
        end)%list.
Proof.
  unfold setupIgnoreFilter.
  destruct (read_gitignore fs_root) as [[text|e]|];
    [reflexivity | symmetry; apply app_nil_r | symmetry; apply app_nil_r].
Qed.

Lemma find_first_named {A : Type} (name : string) (before : list (string * A))
    (entry : string * A) (behind : list (string * A)) :
  fst entry = name ->
  (forall e, In e before -> fst e <> name) ->
  List.find (fun e => String.eqb (fst e) name) (before ++ entry :: behind) = Some entry.
Proof.
  intros Hname. induction before as [|e before IH]; intros Hfirst; simpl.
  - rewrite Hname, String.eqb_refl. reflexivity.
  - destruct (String.eqb_spec (fst e) name) as [E|_].
    + now destruct (Hfirst e (or_introl eq_refl)).
    + apply IH. intros e' He'. apply Hfirst. now right.
Qed.

Lemma find_none_named {A : Type} (name : string) (items : list (string * A)) :
  (forall e, In e items -> fst e <> name) ->
  List.find (fun e => String.eqb (fst e) name) items = None.
Proof.
  induction items as [|e items IH]; intros Hnone; simpl; [reflexivity|].
  destruct (String.eqb_spec (fst e) name) as [E|_].
  - now destruct (Hnone e (or_introl eq_refl)).
  - apply IH. intros e' He'. apply Hnone. now right.
Qed.

(** A readable [.gitignore] at the root is read whole. *)
Lemma read_gitignore_readable (before : list (string * fsnode)) (text : string)
    (behind : list (string * fsnode)) :
  (forall entry, In entry before -> fst entry <> ".gitignore") ->
  read_gitignore (Some (Dir (before ++ (".gitignore", File text) :: behind)))
  = Some (Returns text).
Proof.
  intros Hfirst. unfold read_gitignore.
  now rewrite (find_first_named ".gitignore" before (".gitignore", File text) behind eq_refl Hfirst).
Qed.

Lemma read_gitignore_missing (items : list (string * fsnode)) :
  (forall entry, In entry items -> fst entry <> ".gitignore") ->
  read_gitignore (Some (Dir items)) = None.
Proof.
  intros Hnone. unfold read_gitignore.
  now rewrite (find_none_named ".gitignore" items Hnone).
Qed.

(** C6: every file of a discovery pass has [size] equal to the length of its
    content and below 50000, its content is the whole text that the file
    system holds at its path, and the ignore filter of the analyzer does not
    exclude its path.  The rules of that filter are the built-in defaults
    and, behind them, the text of the project's [.gitignore] exactly when
    that file could be read when the analyzer was made: a readable
    [.gitignore] at the root is among the rules with its whole text, and
    without one the rules are the defaults alone. *)
Theorem discovered_files_invariant {platform : Platform}
    (root : string) (fs_at_start fs : option fsnode) (f : CodeFile) :
  In f (getAllCodeFiles (new_CodebaseAnalyzer root fs_at_start) fs) ->
  size f = Z.of_nat (String.length (content f))
  /\ size f < 50000
  /\ ignore_ignores (ignoreFilter (new_CodebaseAnalyzer root fs_at_start)) (path f)
     = Returns false
  /\ (exists node, fs = Some node /\ file_in "" node (path f) (content f))
  /\ ignoreFilter (new_CodebaseAnalyzer root fs_at_start)
     = (default_ignores
        ++ match read_gitignore fs_at_start with
           | Some (Returns gitignoreContent) => [gitignoreContent]
           | Some (Throws _) | None => []
           end)%list
  /\ (forall before text behind,
        fs_at_start = Some (Dir (before ++ (".gitignore", File text) :: behind)) ->
        (forall entry, In entry before -> fst entry <> ".gitignore") ->
        read_gitignore fs_at_start = Some (Returns text))
  /\ (forall items,
        fs_at_start = Some (Dir items) ->
        (forall entry, In entry items -> fst entry <> ".gitignore") ->
        read_gitignore fs_at_start = None).
Proof.
  intros Hin. unfold getAllCodeFiles in Hin.
  destruct (negb _); [|contradiction].
  destruct fs as [node|]; [|contradiction].
  destruct (searchFiles_adds (new_CodebaseAnalyzer root fs_at_start) node "" [])
    as (added & E & Hadded).
  rewrite E in Hin. simpl in Hin.
  destruct (proj1 (Forall_forall _ _) Hadded f Hin) as [(Hsize & Hcap & Hig) Hfile].
  split; [exact Hsize|]. split; [exact Hcap|]. split; [exact Hig|].
  split; [now exists node|].
  split; [apply setupIgnoreFilter_rules|].
  split.
  - intros before text behind -> Hfirst. now apply read_gitignore_readable.
  - intros items -> Hnone. now apply read_gitignore_missing.
Qed.

(** ** The sort *)

Lemma sort_insert_permutation (x : ScoredFile) (l : list ScoredFile) :
  Permutation (sort_insert x l) (x :: l).
Proof.
  induction l as [|y l IH]; simpl.
  - apply Permutation_refl.
  - destruct (0 <? compareFn x y).
    + apply perm_trans with (y :: x :: l); [now apply perm_skip | apply perm_swap].
    + apply Permutation_refl.
Qed.

Lemma sort_permutation (l : list ScoredFile) : Permutation (sort l) l.
Proof.
  induction l as [|x l IH]; simpl; [constructor|].
  apply perm_trans with (x :: sort l);
    [apply sort_insert_permutation | now apply perm_skip].
Qed.

Lemma sort_insert_sorted (x : ScoredFile) (l : list ScoredFile) :
  StronglySorted by_score l -> StronglySorted by_score (sort_insert x l).
Proof.
  induction 1 as [|y l Hl IH Hy]; simpl.
  - repeat constructor.
  - unfold compareFn. destruct (Z.ltb_spec 0 (score y - score x)) as [Hlt|Hge].
    + constructor; [exact IH|].
      apply (Permutation_Forall (Permutation_sym (sort_insert_permutation x l))).
      constructor; [unfold by_score; lia | exact Hy].
    + constructor; [now constructor|].
      constructor; [unfold by_score; lia|].
      eapply Forall_impl; [|exact Hy]. unfold by_score. intros z Hz. lia.
Qed.

Lemma sort_sorted (l : list ScoredFile) : StronglySorted by_score (sort l).
Proof. induction l as [|x l IH]; simpl; [constructor | now apply sort_insert_sorted]. Qed.

Lemma sort_insert_stable (k : Z) (x : ScoredFile) (l : list ScoredFile) :
  filter (has_score k) (sort_insert x l) = filter (has_score k) (x :: l).
Proof.
  induction l as [|y l IH]; [reflexivity|].
  cbn [sort_insert]. unfold compareFn.
  destruct (Z.ltb_spec 0 (score y - score x)) as [Hlt|Hge]; [|reflexivity].
  cbn [filter] in *. rewrite IH. unfold has_score.
  destruct (Z.eqb_spec (score x) k), (Z.eqb_spec (score y) k); try reflexivity; lia.
Qed.

Lemma sort_stable (k : Z) (l : list ScoredFile) :
  filter (has_score k) (sort l) = filter (has_score k) l.
Proof.
  induction l as [|x l IH]; [reflexivity|].
  cbn [sort fold_right]. fold (sort l). rewrite sort_insert_stable.
  cbn [filter]. now rewrite IH.
Qed.

Lemma has_score_refl (a : ScoredFile) : has_score (score a) a = true.
Proof. apply Z.eqb_refl. Qed.

(** Two arrangements in non-increasing order that keep the files of every
    score in the same order are the same list: the result of a stable sort
    does not depend on the algorithm. *)
Lemma stable_sort_unique (l1 l2 : list ScoredFile) :
  StronglySorted by_score l1 ->
  StronglySorted by_score l2 ->
  (forall k, filter (has_score k) l1 = filter (has_score k) l2) ->
  l1 = l2.
Proof.
  intros H1; revert l2; induction H1 as [|a l1 Hl1 IH Ha]; intros l2 H2 Hk.
  - destruct l2 as [|b l2]; [reflexivity|].
    specialize (Hk (score b)). cbn [filter] in Hk.
    rewrite has_score_refl in Hk. discriminate Hk.
  - destruct H2 as [|b l2 Hl2 Hb].
    + specialize (Hk (score a)). cbn [filter] in Hk.
      rewrite has_score_refl in Hk. discriminate Hk.
    + assert (Hle1 : score a <= score b).
      { pose proof (Hk (score a)) as E.
        assert (Hin : In a (filter (has_score (score a)) (b :: l2))).
        { rewrite <- E. cbn [filter]. rewrite has_score_refl. now left. }
        apply filter_In in Hin as [[->|Hin] _]; [lia|].
        apply (proj1 (Forall_forall _ _) Hb _ Hin). }
      assert (Hle2 : score b <= score a).
      { pose proof (Hk (score b)) as E.
        assert (Hin : In b (filter (has_score (score b)) (a :: l1))).
        { rewrite E. cbn [filter]. rewrite has_score_refl. now left. }
        apply filter_In in Hin as [[->|Hin] _]; [lia|].
        apply (proj1 (Forall_forall _ _) Ha _ Hin). }
      assert (Hb' : has_score (score a) b = true) by (apply Z.eqb_eq; lia).
      assert (a = b).
      { pose proof (Hk (score a)) as E. cbn [filter] in E.
        rewrite has_score_refl, Hb' in E. now injection E. }
      subst b. f_equal. apply IH; [exact Hl2|].
      intros k. specialize (Hk k). cbn [filter] in Hk.
      destruct (has_score k a); [now injection Hk | exact Hk].
Qed.

Lemma In_firstn {A : Type} (n : nat) (l : list A) (x : A) : In x (firstn n l) -> In x l.
Proof.
  revert l; induction n as [|n IH]; intros [|y l]; simpl; try tauto.
  intros [->|H]; [now left | right; now apply IH].
Qed.

Lemma StronglySorted_firstn {A : Type} (R : A -> A -> Prop) (n : nat) (l : list A) :
  StronglySorted R l -> StronglySorted R (firstn n l).
Proof.
  intros H; revert n; induction H as [|x l Hl IH Hx]; intros [|n]; simpl;
    try constructor.
  - apply IH.
  - apply Forall_forall. intros y Hy.
    apply (proj1 (Forall_forall _ _) Hx). now apply In_firstn in Hy.
Qed.

Lemma In_slice0 {A : Type} (l : list A) (n : Z) (x : A) : In x (JS.slice0 l n) -> In x l.
Proof. unfold JS.slice0. destruct (n <? 0); apply In_firstn. Qed.

Lemma StronglySorted_slice0 {A : Type} (R : A -> A -> Prop) (l : list A) (n : Z) :
  StronglySorted R l -> StronglySorted R (JS.slice0 l n).
Proof. unfold JS.slice0. destruct (n <? 0); apply StronglySorted_firstn. Qed.

Section RelevantFiles.

Context {platform : Platform}.
Variable this : CodebaseAnalyzer.

Lemma mapM_scoreFile (query : string) (files : list CodeFile) (scored : list ScoredFile) :
  mapM (scoreFile query) files = Returns scored ->
  map file scored = files
  /\ Forall (fun sf => calculateRelevanceScore (file sf) query = Returns (score sf)) scored.
Proof.
  revert scored; induction files as [|f files IH]; intros scored; simpl.
  - intros [= <-]. split; constructor.
  - unfold scoreFile at 1.
    destruct (calculateRelevanceScore f query) as [s|e] eqn:Hs; simpl; [|discriminate].
    destruct (mapM (scoreFile query) files) as [rest|e]; simpl; [|discriminate].
    intros [= <-]. destruct (IH rest eq_refl) as [Hmap Hall].
    split; simpl; [now rewrite Hmap | now constructor].
Qed.

(** The three ways of [getRelevantFiles] to its result. *)
Lemma getRelevantFiles_cases (fs : option fsnode) (query : string) (maxFiles : Z) :
  match mapM (scoreFile query) (getAllCodeFiles this fs) with
  | Returns scored => getRelevantFiles this fs query maxFiles = JS.slice0 (sort scored) maxFiles
  | Throws _ => getRelevantFiles this fs query maxFiles = []
  end.
Proof.
  unfold getRelevantFiles, getAllCodeFiles.
  destruct (String.eqb (workspaceRoot this) ""); simpl.
  - unfold JS.slice0. now destruct (maxFiles <? 0); rewrite firstn_nil.
  - destruct fs as [node|]; simpl.
    + destruct (searchFiles this "" node []) as [|f files] eqn:E.
      * simpl. unfold JS.slice0. now destruct (maxFiles <? 0); rewrite firstn_nil.
      * cbn [List.length Nat.eqb].
        now destruct (mapM (scoreFile query) (f :: files)).
    + unfold JS.slice0. now destruct (maxFiles <? 0); rewrite firstn_nil.
Qed.

(** C7: the score of a file for a query is a value of the two alone; every
    file that [getRelevantFiles] returns carries the score that
    [calculateRelevanceScore] gives it; the result is in non-increasing
    order of score; and when scoring returns, the result is the first
    [maxFiles] entries of an arrangement of the discovered files in which
    the files of every score stand in their order of discovery. *)
Theorem getRelevantFiles_stable_order (fs : option fsnode) (query : string) (maxFiles : Z) :
  (forall f f' q q', f = f' -> q = q' ->
                     calculateRelevanceScore f q = calculateRelevanceScore f' q')
  /\ (forall sf, In sf (getRelevantFiles this fs query maxFiles) ->
                 calculateRelevanceScore (file sf) query = Returns (score sf))
  /\ StronglySorted by_score (getRelevantFiles this fs query maxFiles)
  /\ match mapM (scoreFile query) (getAllCodeFiles this fs) with
     | Returns scored =>
         map file scored = getAllCodeFiles this fs
         /\ Permutation (sort scored) scored
         /\ StronglySorted by_score (sort scored)
         /\ (forall k, filter (has_score k) (sort scored) = filter (has_score k) scored)
         /\ getRelevantFiles this fs query maxFiles = JS.slice0 (sort scored) maxFiles
     | Throws _ => getRelevantFiles this fs query maxFiles = []
     end.
Proof.
  pose proof (getRelevantFiles_cases fs query maxFiles) as Hcases.
  split; [now intros f f' q q' -> -> |].
  destruct (mapM (scoreFile query) (getAllCodeFiles this fs)) as [scored|e] eqn:Hm.
  - destruct (mapM_scoreFile _ _ _ Hm) as [Hmap Hall]. rewrite Hcases.
    split; [|split].
    + intros sf Hin. apply In_slice0 in Hin.
      apply (Permutation_in _ (sort_permutation scored)) in Hin.
      now apply (proj1 (Forall_forall _ _) Hall).
    + apply StronglySorted_slice0, sort_sorted.
    + repeat split; [exact Hmap | apply sort_permutation | apply sort_sorted |].
      intros k. apply sort_stable.
  - rewrite Hcases. split; [|split]; [intros sf [] | constructor | reflexivity].
Qed.

(** The exception of C2 does not leave [getRelevantFiles]: its [catch]
    returns no file at all. *)
Lemma getRelevantFiles_after_exception (fs : option fsnode) (maxFiles : Z) :
  getRelevantFiles this fs "optimize c++ code" maxFiles = [].
Proof.
  pose proof (getRelevantFiles_cases fs "optimize c++ code" maxFiles) as H.
  destruct (getAllCodeFiles this fs) as [|f files].
  - cbn [mapM] in H. rewrite H. unfold JS.slice0. simpl.
    now destruct (maxFiles <? 0); rewrite firstn_nil.
  - cbn [mapM] in H. unfold scoreFile at 1 in H.
    now rewrite calculateRelevanceScore_nothing_to_repeat in H.
Qed.

End RelevantFiles.

(** ** Context assembly *)

Lemma forEachIndexed_append {A : Type} (body : string -> A -> nat -> string)
    (block : nat * A -> string) (xs : list A) :
  (forall context x index, body context x index = context ++ block (index, x)) ->
  forall index context,
    forEachIndexed body xs index context
    = context ++ concat_strings (map block (indexed_from index xs)).
Proof.
  intros Hbody. induction xs as [|x xs IH]; intros index context; simpl.
  - now rewrite append_empty_r.
  - now rewrite IH, Hbody, append_assoc.
Qed.

Lemma fold_left_append {A : Type} (body : string -> A -> string) (block : A -> string)
    (xs : list A) :
  (forall context x, body context x = context ++ block x) ->
  forall context, fold_left body xs context = context ++ concat_strings (map block xs).
Proof.
  intros Hbody. induction xs as [|x xs IH]; intros context; simpl.
  - now rewrite append_empty_r.
  - now rewrite IH, Hbody, append_assoc.
Qed.

Lemma length_indexed_from {A : Type} (index : nat) (xs : list A) :
  List.length (indexed_from index xs) = List.length xs.
Proof. revert index; induction xs as [|x xs IH]; intros index; simpl; congruence. Qed.

Lemma In_indexed_from {A : Type} (index : nat) (xs : list A) (entry : nat * A) :
  In entry (indexed_from index xs) -> In (snd entry) xs.
Proof.
  revert index; induction xs as [|x xs IH]; intros index; simpl; [tauto|].
  intros [<-|H]; [now left | right; now apply (IH (S index))].
Qed.

(** Blocks that are empty leave no trace in the concatenation. *)
Lemma concat_strings_filter {A : Type} (block : A -> string) (keep : A -> bool)
    (xs : list A) :
  (forall x, keep x = false -> block x = "") ->
  concat_strings (map block xs) = concat_strings (map block (filter keep xs)).
Proof.
  intros Hskip. induction xs as [|x xs IH]; simpl; [reflexivity|].
  destruct (keep x) eqn:K; simpl; [now rewrite IH | now rewrite (Hskip x K)].
Qed.

(** What the cut leaves of a content. *)
Lemma truncatedContent_bound (limit : nat) (text : string) :
  (String.length (truncatedContent limit text)
   <= limit + String.length truncation_marker)%nat
  /\ ((String.length text <= limit)%nat /\ truncatedContent limit text = text
      \/ (limit < String.length text)%nat
         /\ truncatedContent limit text = JS.substring_to limit text ++ truncation_marker
         /\ String.length (JS.substring_to limit text) = limit).
Proof.
  unfold truncatedContent. destruct (Nat.ltb_spec limit (String.length text)) as [Hlt|Hge].
  - split.
    + rewrite length_append, length_substring_to. lia.
    + right. repeat split; [exact Hlt|]. rewrite length_substring_to. lia.
  - split; [lia | now left].
Qed.

Lemma length_slice0 {A : Type} (xs : list A) (n : Z) :
  0 <= n -> Z.of_nat (List.length (JS.slice0 xs n)) <= n.
Proof.
  intros Hn. unfold JS.slice0. destruct (Z.ltb_spec n 0) as [Hneg|_]; [lia|].
  pose proof (firstn_le_length (Z.to_nat n) xs). lia.
Qed.

Section ContextProperties.

Context {platform : Platform}.

Lemma length_getRelevantFiles (a : CodebaseAnalyzer) (fs : option fsnode)
    (query : string) (maxFiles : Z) :
  0 <= maxFiles ->
  Z.of_nat (List.length (getRelevantFiles a fs query maxFiles)) <= maxFiles.
Proof.
  intros Hn. pose proof (getRelevantFiles_cases a fs query maxFiles) as H.
  destruct (mapM (scoreFile query) (getAllCodeFiles a fs)); rewrite H.
  - now apply length_slice0.
  - simpl. lia.
Qed.

Lemma mapM_scoreFile_empty_query (files : list CodeFile) :
  mapM (scoreFile "") files
  = Returns (map (fun f => {| file := f; score := Spec.size_bonus (size f) |}) files).
Proof.
  induction files as [|f files IH]; [reflexivity|].
  cbn [mapM map]. unfold scoreFile at 1.
  now rewrite calculateRelevanceScore_empty_query, IH.
Qed.

Variable this : ChatProvider.
Variable vscode : VSCode.

(** C5: the context of the whole-codebase mode is a header and one block
    for each file that [getRelevantFiles] returns for the empty query and
    the limit 20; for the empty query the files are the discovered files
    arranged by their size bonus alone; there are at most 20 blocks; and
    the content in a block is the whole content when it has at most 1500
    characters, else its first 1500 characters and the marker. *)
Theorem buildWholeCodebaseContext_bounded :
  let discovered := getAllCodeFiles (codebaseAnalyzer this) (fs_root vscode) in
  let allFiles := getRelevantFiles (codebaseAnalyzer this) (fs_root vscode) "" 20 in
  buildWholeCodebaseContext this vscode
  = "Entire codebase (" ++ JS.decimal (List.length allFiles) ++ " files):" ++ nl ++ nl
    ++ concat_strings (map (file_block 1500) (indexed_from 0 allFiles))
  /\ allFiles
     = JS.slice0 (sort (map (fun f => {| file := f; score := Spec.size_bonus (size f) |})
                            discovered)) 20
  /\ (List.length (map (file_block 1500) (indexed_from 0 allFiles)) <= 20)%nat
  /\ (forall entry, In entry (indexed_from 0 allFiles) ->
        let text := content (file (snd entry)) in
        let shown := truncatedContent 1500 text in
        file_block 1500 entry
        = "--- File " ++ JS.decimal (fst entry + 1) ++ ": " ++ path (file (snd entry))
          ++ " ---" ++ nl ++ shown ++ nl ++ nl
        /\ (String.length shown <= 1500 + String.length truncation_marker)%nat
        /\ ((String.length text <= 1500)%nat /\ shown = text
            \/ (1500 < String.length text)%nat
               /\ shown = JS.substring_to 1500 text ++ truncation_marker
               /\ String.length (JS.substring_to 1500 text) = 1500%nat)).
Proof.
  intros discovered allFiles. repeat split.
  - unfold buildWholeCodebaseContext. fold allFiles.
    rewrite (forEachIndexed_append appendWholeFile (file_block 1500)).
    + now rewrite !append_assoc.
    + intros context f index. unfold appendWholeFile, file_block. cbn [fst snd].
      now rewrite !append_assoc.
  - unfold allFiles.
    pose proof (getRelevantFiles_cases (codebaseAnalyzer this) (fs_root vscode) "" 20) as H.
    now rewrite mapM_scoreFile_empty_query in H.
  - rewrite length_map, length_indexed_from.
    pose proof (length_getRelevantFiles (codebaseAnalyzer this) (fs_root vscode) "" 20).
    fold allFiles in H. lia.
  - apply truncatedContent_bound.
  - apply truncatedContent_bound.
Qed.

End ContextProperties.

(** ** The boundary of the assembler *)

Lemma trim_first_not_space (c : ascii) (s : string) :
  JS.is_space c = false -> JS.trim (String c s) <> "".
Proof.
  intros Hc. unfold JS.trim. simpl. rewrite Hc. simpl.
  destruct (JS.trimEnd s); [now rewrite Hc | discriminate].
Qed.

Section BoundaryProperties.

Context {platform : Platform}.
Variable this : ChatProvider.
Variable vscode : VSCode.

(** C8: [buildContextFromSelection] returns a string in every mode and for
    every input, and the string is never empty or white space only: it is
    the error notice when the assembly raised, the no-context notice when
    the assembled string is empty or white space only, and the assembled
    string otherwise. *)
Theorem buildContextFromSelection_fallbacks (query : string) :
  let returned := buildContextFromSelection this vscode query in
  JS.trim returned <> ""
  /\ match buildContextForMode this vscode query with
     | Throws _ => returned = error_notice
     | Returns assembled =>
         (JS.trim assembled = "" -> returned = no_context_notice)
         /\ (JS.trim assembled <> "" -> returned = assembled)
     end.
Proof.
  unfold buildContextFromSelection.
  destruct (buildContextForMode this vscode query) as [assembled|e]; simpl.
  - destruct (String.eqb_spec (JS.trim assembled) "") as [E|N]; simpl.
    + repeat split; [discriminate | congruence].
    + repeat split; [exact N | congruence].
  - split; [discriminate | reflexivity].
Qed.

(** The lookup of the loop, [availableFiles.find(f => f.path === filePath)],
    gives the block of the path. *)
Lemma selected_block_find (available : list ScoredFile) (filePath : string) :
  selected_block available filePath
  = match JS.find (fun f => String.eqb (path (file f)) filePath) available with
    | Some f => "--- File: " ++ path (file f) ++ " ---" ++ nl ++ content (file f) ++ nl ++ nl
    | None => ""
    end.
Proof.
  unfold JS.find. induction available as [|f rest IH]; simpl; [reflexivity|].
  destruct (String.eqb (path (file f)) filePath); [reflexivity | exact IH].
Qed.

Lemma buildSelectedFilesContext_blocks :
  buildSelectedFilesContext this
  = match selectedFiles (contextSelection this) with
    | [] => no_selection_notice
    | _ :: _ =>
        selection_header (List.length (selectedFiles (contextSelection this)))
        ++ concat_strings (map (selected_block (availableFiles this))
                               (selectedFiles (contextSelection this)))
    end.
Proof.
  unfold buildSelectedFilesContext.
  destruct (selectedFiles (contextSelection this)) as [|p sel] eqn:E; [reflexivity|].
  cbn [List.length Nat.eqb].
  rewrite (fold_left_append _ (selected_block (availableFiles this))).
  - unfold selection_header. now rewrite !append_assoc.
  - intros context filePath. rewrite selected_block_find.
    destruct (JS.find _ (availableFiles this)).
    + now rewrite !append_assoc.
    + now rewrite append_empty_r.
Qed.

Lemma selected_block_stale (filePath : string) :
  (forall f, In f (availableFiles this) -> path (file f) <> filePath) ->
  selected_block (availableFiles this) filePath = "".
Proof.
  intros Hstale. induction (availableFiles this) as [|f rest IH]; simpl; [reflexivity|].
  destruct (String.eqb_spec (path (file f)) filePath) as [E|_].
  - now destruct (Hstale f (or_introl eq_refl)).
  - apply IH. intros g Hg. apply Hstale. now right.
Qed.

(** The block of a path that an available file has is the block of the
    first such file in the list. *)
Lemma selected_block_matched (available : list ScoredFile) (filePath : string) (f : ScoredFile) :
  In f available -> path (file f) = filePath ->
  exists before first behind,
    available = (before ++ first :: behind)%list
    /\ (forall g, In g before -> path (file g) <> filePath)
    /\ path (file first) = filePath
    /\ selected_block available filePath
       = "--- File: " ++ filePath ++ " ---" ++ nl ++ content (file first) ++ nl ++ nl.
Proof.
  induction available as [|g rest IH]; intros Hin Hpath; [contradiction|].
  simpl. destruct (String.eqb_spec (path (file g)) filePath) as [E|N].
  - exists [], g, rest. split; [reflexivity|]. split; [intros ? []|].
    split; [exact E|]. now rewrite E.
  - destruct Hin as [->|Hin]; [contradiction|].
    destruct (IH Hin Hpath) as (before & first & behind & -> & Hbefore & Hfirst & Hblock).
    exists (g :: before), first, behind. split; [reflexivity|].
    split; [|split; [exact Hfirst | exact Hblock]].
    intros g' [<-|Hg']; [exact N | now apply Hbefore].
Qed.

(** C9: with no path selected the result is the no-files-selected notice,
    also at the boundary of the assembler; otherwise it is the header and
    one block for each selected path in order.  A path that no available
    file has gives no block and no error.  A path that an available file
    has gives the line [--- File: path ---] and the whole content of the
    first available file of that path, which is that file when no other
    available file has its path; so a selection of one such path gives the
    header and exactly this block. *)
Theorem buildSelectedFilesContext_skips_stale :
  buildSelectedFilesContext this
  = match selectedFiles (contextSelection this) with
    | [] => no_selection_notice
    | _ :: _ =>
        "Selected files ("
        ++ JS.decimal (List.length (selectedFiles (contextSelection this)))
        ++ "):" ++ nl ++ nl
        ++ concat_strings (map (selected_block (availableFiles this))
                               (selectedFiles (contextSelection this)))
    end
  /\ (forall filePath,
        (forall f, In f (availableFiles this) -> path (file f) <> filePath) ->
        selected_block (availableFiles this) filePath = "")
  /\ (forall filePath f,
        In f (availableFiles this) -> path (file f) = filePath ->
        exists before first behind,
          availableFiles this = (before ++ first :: behind)%list
          /\ (forall g, In g before -> path (file g) <> filePath)
          /\ path (file first) = filePath
          /\ ((forall g, In g (availableFiles this) -> path (file g) = filePath -> g = f) ->
              first = f)
          /\ selected_block (availableFiles this) filePath
             = "--- File: " ++ filePath ++ " ---" ++ nl ++ content (file first) ++ nl ++ nl
          /\ (selectedFiles (contextSelection this) = [filePath] ->
              buildSelectedFilesContext this
              = "Selected files (1):" ++ nl ++ nl
                ++ "--- File: " ++ filePath ++ " ---" ++ nl ++ content (file first)
                ++ nl ++ nl))
  /\ (forall query,
        mode (contextSelection this) = selected ->
        selectedFiles (contextSelection this) = [] ->
        buildContextFromSelection this vscode query = no_selection_notice).
Proof.
  split; [|split; [|split]].
  - rewrite buildSelectedFilesContext_blocks.
    destruct (selectedFiles (contextSelection this)); [reflexivity|].
    unfold selection_header. now rewrite !append_assoc.
  - apply selected_block_stale.
  - intros filePath f Hin Hpath.
    destruct (selected_block_matched (availableFiles this) filePath f Hin Hpath)
      as (before & first & behind & Havailable & Hbefore & Hfirst & Hblock).
    exists before, first, behind.
    split; [exact Havailable|]. split; [exact Hbefore|]. split; [exact Hfirst|].
    split; [|split; [exact Hblock|]].
    + intros Honly. apply Honly; [|exact Hfirst].
      rewrite Havailable. apply in_or_app. right. now left.
    + intros Hsel. rewrite buildSelectedFilesContext_blocks, Hsel.
      cbn [map concat_strings fold_right List.length]. rewrite Hblock.
      unfold selection_header. rewrite append_empty_r.
      vm_compute JS.decimal. now rewrite !append_assoc.
  - intros query Hmode Hsel.
    unfold buildContextFromSelection, buildContextForMode.
    rewrite Hmode, buildSelectedFilesContext_blocks, Hsel. reflexivity.
Qed.

(** C10: in the selected mode, when paths are selected and no available
    file has any of them, [buildSelectedFilesContext] returns the header
    with their number and nothing else; the header is not white space
    only, and [buildContextFromSelection] returns it as the context. *)
Theorem stale_selection_keeps_header (query : string) :
  mode (contextSelection this) = selected ->
  selectedFiles (contextSelection this) <> [] ->
  (forall filePath f,
     In filePath (selectedFiles (contextSelection this)) ->
     In f (availableFiles this) -> path (file f) <> filePath) ->
  let header :=
    "Selected files (" ++ JS.decimal (List.length (selectedFiles (contextSelection this)))
    ++ "):" ++ nl ++ nl in
  buildSelectedFilesContext this = header
  /\ JS.trim header <> ""
  /\ buildContextFromSelection this vscode query = header.
Proof.
  intros Hmode Hsel Hstale header.
  assert (Hblocks : forall sel,
             (forall p, In p sel -> In p (selectedFiles (contextSelection this))) ->
             concat_strings (map (selected_block (availableFiles this)) sel) = "").
  { induction sel as [|p sel IH]; intros Hin; [reflexivity|]. simpl.
    rewrite IH by (intros q Hq; apply Hin; now right).
    rewrite append_empty_r.
    apply selected_block_stale.
    intros f Hf. apply (Hstale p f); [apply Hin; now left | exact Hf]. }
  assert (Hbuild : buildSelectedFilesContext this = header).
  { rewrite buildSelectedFilesContext_blocks.
    rewrite (Hblocks _ (fun p Hp => Hp)), append_empty_r.
    destruct (selectedFiles (contextSelection this)); [congruence | reflexivity]. }
  assert (Htrim : JS.trim header <> "").
  { subst header. apply trim_first_not_space. reflexivity. }
  repeat split; [exact Hbuild | exact Htrim |].
  unfold buildContextFromSelection, buildContextForMode. rewrite Hmode, Hbuild.
  cbn [bind]. destruct (String.eqb_spec (JS.trim header) ""); [contradiction | reflexivity].
Qed.

End BoundaryProperties.

(** ** The automatic mode *)

Lemma isQueryAboutCurrentFile_explain_this_function (currentFileName : string) :
  isQueryAboutCurrentFile "explain this function" currentFileName = true.
Proof.
  unfold isQueryAboutCurrentFile.
  change (JS.toLowerCase "explain this function") with "explain this function".
  destruct (JS.includes "explain this function" (JS.toLowerCase currentFileName));
    reflexivity.
Qed.

Section AutoProperties.

Context {platform : Platform}.
Variable this : ChatProvider.
Variable vscode : VSCode.
Variable activeEditor : option TextEditor.
Hypothesis editor_read : window_activeTextEditor vscode = Returns activeEditor.

Lemma activeFilePart_shape (query : string) :
  activeFilePart vscode query (option_map document_getText activeEditor)
                 (option_map document_basename activeEditor)
  = Returns match shown_editor activeEditor with
            | Some editor =>
                if isQueryAboutCurrentFile query (document_basename editor)
                then inl (active_file_block editor ++ focus_instruction editor)
                else inr (active_file_block editor)
            | None => inr ""
            end.
Proof.
  unfold activeFilePart, shown_editor, relativePathOf. rewrite editor_read.
  destruct activeEditor as [[text name rel]|]; [|reflexivity].
  cbn [option_map document_getText document_basename document_relativePath truthy bind].
  destruct text as [|c text]; [reflexivity|].
  destruct name as [|d name]; [reflexivity|].
  cbn [andb]. unfold active_file_block, focus_instruction.
  cbn [document_getText document_basename document_relativePath].
  destruct (isQueryAboutCurrentFile query (String d name)); reflexivity.
Qed.

Lemma appendRelevantFile_block (context : string) (f : ScoredFile) (index : nat) :
  appendRelevantFile (option_map document_basename activeEditor) context f index
  = context ++ (if duplicates_active activeEditor f then ""
                else file_block 2000 (index, f)).
Proof.
  unfold appendRelevantFile, duplicates_active, file_block.
  destruct activeEditor as [editor|]; cbn [option_map fst snd].
  - destruct (truthy (Some (document_basename editor))
              && JS.includes (path (file f)) (document_basename editor)).
    + now rewrite append_empty_r.
    + now rewrite !append_assoc.
  - cbn [truthy andb]. now rewrite !append_assoc.
Qed.

(** The result of [buildAutoContext] when the editor can be read. *)
Lemma buildAutoContext_shape (query : string) :
  let relevantFiles :=
    getRelevantFiles (codebaseAnalyzer this) (fs_root vscode) query
                     (auto_limit (config_maxContextFiles vscode)) in
  let additional :=
    additional_heading relevantFiles
    ++ concat_strings (map (file_block 2000) (appended_files activeEditor relevantFiles)) in
  buildAutoContext this vscode query
  = Returns match shown_editor activeEditor with
            | Some editor =>
                if isQueryAboutCurrentFile query (document_basename editor)
                then active_file_block editor ++ focus_instruction editor
                else active_file_block editor ++ additional
            | None => additional
            end.
Proof.
  intros relevantFiles additional.
  unfold buildAutoContext, getCurrentFileContent, getCurrentFileName.
  rewrite editor_read. cbn [bind]. rewrite activeFilePart_shape. cbn [bind].
  fold (auto_limit (config_maxContextFiles vscode)). fold relevantFiles.
  assert (Hrest : forall context,
             (if (0 <? List.length relevantFiles)%nat
              then Returns (forEachIndexed
                              (appendRelevantFile (option_map document_basename activeEditor))
                              relevantFiles 0%nat
                              (context ++ ("Additional relevant files:" ++ nl ++ nl)))
              else Returns context)
             = Returns (context ++ additional)).
  { intros context. subst additional. unfold appended_files.
    destruct relevantFiles as [|f rest] eqn:E.
    - cbn. now rewrite append_empty_r.
    - cbn [List.length Nat.ltb Nat.leb additional_heading]. rewrite <- E.
      rewrite (forEachIndexed_append _
                 (fun entry => if duplicates_active activeEditor (snd entry) then ""
                               else file_block 2000 entry)).
      + rewrite (concat_strings_filter _
                   (fun entry => negb (duplicates_active activeEditor (snd entry)))).
        * rewrite (map_ext_in _ (file_block 2000)).
          -- now rewrite !append_assoc.
          -- intros entry Hin. apply filter_In in Hin as [_ Hkeep].
             apply negb_true_iff in Hkeep. now rewrite Hkeep.
        * intros entry Hskip. apply negb_false_iff in Hskip. now rewrite Hskip.
      + intros ctx f0 index. apply appendRelevantFile_block. }
  destruct (shown_editor activeEditor) as [editor|].
  - destruct (isQueryAboutCurrentFile query (document_basename editor)); [reflexivity|].
    apply Hrest.
  - rewrite Hrest. reflexivity.
Qed.

End AutoProperties.

(** C3, as amended: in the automatic mode, when the active file is open with
    a text and a name that are not empty and the query references it (the
    lowercased query contains the lowercased name, "this file", "current
    file" or one of the fixed phrasings), the context is the label and the
    whole text of the active file and the instruction to focus on it, and
    nothing else, whatever the workspace holds; the query "explain this
    function" is such a query. *)
Theorem buildAutoContext_focuses_on_active_file {platform : Platform}
    (this : ChatProvider) (vscode : VSCode) (editor : TextEditor) (query : string) :
  window_activeTextEditor vscode = Returns (Some editor) ->
  document_getText editor <> "" ->
  document_basename editor <> "" ->
  let lowerQuery := JS.toLowerCase query in
  let focused :=
    "Currently viewing file: " ++ document_relativePath editor ++ nl
    ++ "Content:" ++ nl ++ document_getText editor ++ nl ++ nl
    ++ "User is asking about the current file (" ++ document_relativePath editor
    ++ "). Focus primarily on this file." in
  (isQueryAboutCurrentFile query (document_basename editor) = true <->
   JS.includes lowerQuery (JS.toLowerCase (document_basename editor)) = true
   \/ JS.includes lowerQuery "this file" = true
   \/ JS.includes lowerQuery "current file" = true
   \/ Exists (fun indicator => JS.includes lowerQuery indicator = true) currentFileIndicators)
  /\ (isQueryAboutCurrentFile query (document_basename editor) = true ->
      buildAutoContext this vscode query = Returns focused)
  /\ buildAutoContext this vscode "explain this function" = Returns focused.
Proof.
  intros Hread Htext Hname lowerQuery focused.
  assert (Hshown : shown_editor (Some editor) = Some editor).
  { unfold shown_editor. destruct (document_getText editor); [congruence|].
    destruct (document_basename editor); [congruence | reflexivity]. }
  assert (Hfocus : forall q, isQueryAboutCurrentFile q (document_basename editor) = true ->
                             buildAutoContext this vscode q = Returns focused).
  { intros q Hq. rewrite (buildAutoContext_shape this vscode (Some editor) Hread q).
    rewrite Hshown, Hq. subst focused. unfold active_file_block, focus_instruction.
    now rewrite !append_assoc. }
  split; [|split].
  - unfold isQueryAboutCurrentFile. fold lowerQuery.
    destruct (JS.includes lowerQuery (JS.toLowerCase (document_basename editor)));
      [split; auto|].
    destruct (JS.includes lowerQuery "this file"); [split; auto|].
    destruct (JS.includes lowerQuery "current file"); [split; auto|].
    cbn [orb]. rewrite existsb_exists, Exists_exists. split.
    + intros H. now repeat right.
    + intros [H|[H|[H|H]]]; try discriminate H. exact H.
  - apply Hfocus.
  - apply Hfocus, isQueryAboutCurrentFile_explain_this_function.
Qed.

(** C3, an editor on [src/main.ts] and the query of the claim. *)
Lemma buildAutoContext_focuses_on_active_file_witness :
  @buildAutoContext Posix.platform (Examples.provider auto [])
     (Examples.editing Examples.main_editor) "explain this function"
  = Returns ("Currently viewing file: src/main.ts" ++ nl ++ "Content:" ++ nl
             ++ "let x = 1;" ++ nl ++ nl
             ++ "User is asking about the current file (src/main.ts). "
             ++ "Focus primarily on this file.").
Proof.
  exact (proj2 (proj2
           (@buildAutoContext_focuses_on_active_file Posix.platform
              (Examples.provider auto []) (Examples.editing Examples.main_editor)
              Examples.main_editor "explain this function" eq_refl
              ltac:(discriminate) ltac:(discriminate)))).
Defined.

(** C3 as stated fails when the active file has no text yet: the file is
    open and the query references it, and the context holds two other files
    and no label of the active file. *)
Lemma empty_active_file_counterexample :
  window_activeTextEditor (Examples.editing Examples.empty_editor)
  = Returns (Some Examples.empty_editor)
  /\ isQueryAboutCurrentFile "explain this function"
       (document_basename Examples.empty_editor) = true
  /\ @buildAutoContext Posix.platform (Examples.provider auto [])
       (Examples.editing Examples.empty_editor) "explain this function"
     = Returns ("Additional relevant files:" ++ nl ++ nl
                ++ "--- File 1: src/lib.ts ---" ++ nl ++ "function f() {}" ++ nl ++ nl
                ++ "--- File 2: src/main.ts ---" ++ nl ++ "let x = 1;" ++ nl ++ nl).
Proof. split; [|split]; vm_compute; reflexivity. Qed.

(** C4, as amended: in the automatic mode, when the editor can be read and
    the early return for a query about the active file is not taken, and the
    configured [maxContextFiles] is unset or not negative, the context is the
    block of the active file when it is shown, the heading of the additional
    files when any was returned, and the blocks of the appended files; at
    most min(m, 2) files are appended, where m is the configured number, or 3
    when that is unset or 0; no appended file has a path that contains the
    name of the active file; and the content in a block is the whole content
    when it has at most 2000 characters, else its first 2000 characters and
    the marker. *)
Theorem buildAutoContext_appends_bounded {platform : Platform}
    (this : ChatProvider) (vscode : VSCode) (activeEditor : option TextEditor)
    (query : string) :
  window_activeTextEditor vscode = Returns activeEditor ->
  (forall n, config_maxContextFiles vscode = Some n -> 0 <= n) ->
  (forall editor, shown_editor activeEditor = Some editor ->
                  isQueryAboutCurrentFile query (document_basename editor) = false) ->
  let m := match config_maxContextFiles vscode with
           | Some n => if n =? 0 then 3 else n
           | None => 3
           end in
  let relevantFiles :=
    getRelevantFiles (codebaseAnalyzer this) (fs_root vscode) query (Z.min m 2) in
  let appended := appended_files activeEditor relevantFiles in
  buildAutoContext this vscode query
  = Returns ((match shown_editor activeEditor with
              | Some editor => active_file_block editor
              | None => ""
              end)
             ++ additional_heading relevantFiles
             ++ concat_strings (map (file_block 2000) appended))
  /\ Z.of_nat (List.length appended) <= Z.min m 2
  /\ (forall entry, In entry appended ->
        In (snd entry) relevantFiles
        /\ (forall editor, activeEditor = Some editor ->
              document_basename editor <> "" ->
              JS.includes (path (file (snd entry))) (document_basename editor) = false)
        /\ let text := content (file (snd entry)) in
           let shown := truncatedContent 2000 text in
           file_block 2000 entry
           = "--- File " ++ JS.decimal (fst entry + 1) ++ ": " ++ path (file (snd entry))
             ++ " ---" ++ nl ++ shown ++ nl ++ nl
           /\ ((String.length text <= 2000)%nat /\ shown = text
               \/ (2000 < String.length text)%nat
                  /\ shown = JS.substring_to 2000 text ++ truncation_marker
                  /\ String.length (JS.substring_to 2000 text) = 2000%nat)).
Proof.
  intros Hread Hconfig Hbroad m relevantFiles appended.
  assert (Hm : 0 <= Z.min m 2).
  { subst m. destruct (config_maxContextFiles vscode) as [n|] eqn:E; [|lia].
    specialize (Hconfig n eq_refl). destruct (Z.eqb_spec n 0); lia. }
  split; [|split].
  - rewrite (buildAutoContext_shape this vscode activeEditor Hread query).
    fold m relevantFiles appended. unfold auto_limit. fold m relevantFiles appended.
    destruct (shown_editor activeEditor) as [editor|] eqn:Hshown; [|reflexivity].
    now rewrite (Hbroad editor eq_refl).
  - subst appended. unfold appended_files.
    pose proof (filter_length_le
                  (fun entry => negb (duplicates_active activeEditor (snd entry)))
                  (indexed_from 0 relevantFiles)) as Hle.
    rewrite length_indexed_from in Hle.
    pose proof (length_getRelevantFiles (codebaseAnalyzer this) (fs_root vscode)
                  query (Z.min m 2) Hm) as Hlen.
    fold relevantFiles in Hlen. lia.
  - intros entry Hin. subst appended. unfold appended_files in Hin.
    apply filter_In in Hin as [Hin Hkeep]. apply negb_true_iff in Hkeep.
    split; [now apply In_indexed_from in Hin | split].
    + intros editor -> Hname. cbn [duplicates_active] in Hkeep.
      destruct (document_basename editor) as [|c name]; [congruence|].
      exact Hkeep.
    + split; [reflexivity | apply truncatedContent_bound].
Qed.

(** C4, an editor on [src/main.ts], five files configured and a query that
    ranks the active file first: only the other file is appended. *)
Lemma buildAutoContext_appends_bounded_witness :
  @buildAutoContext Posix.platform (Examples.provider auto [])
     (Examples.editing Examples.main_editor) "main lib"
  = Returns ("Currently viewing file: src/main.ts" ++ nl ++ "Content:" ++ nl
             ++ "let x = 1;" ++ nl ++ nl
             ++ "Additional relevant files:" ++ nl ++ nl
             ++ "--- File 2: src/lib.ts ---" ++ nl ++ "function f() {}" ++ nl ++ nl).
Proof.
  refine (proj1
            (@buildAutoContext_appends_bounded Posix.platform
               (Examples.provider auto []) (Examples.editing Examples.main_editor)
               (Some Examples.main_editor) "main lib" eq_refl _ _)).
  - intros n E. injection E as <-. discriminate.
  - intros editor E. injection E as <-. reflexivity.
Defined.

(** C4 as stated fails when [maxContextFiles] is 0: min(0, 2) is 0, and the
    code, which reads 0 as unset, appends two files. *)
Lemma zero_maxContextFiles_counterexample :
  config_maxContextFiles (Examples.no_editor (Some 0)) = Some 0
  /\ Z.min 0 2 = 0
  /\ @buildAutoContext Posix.platform (Examples.provider auto [])
       (Examples.no_editor (Some 0)) "main lib"
     = Returns ("Additional relevant files:" ++ nl ++ nl
                ++ "--- File 1: src/main.ts ---" ++ nl ++ "let x = 1;" ++ nl ++ nl
                ++ "--- File 2: src/lib.ts ---" ++ nl ++ "function f() {}" ++ nl ++ nl).
Proof. split; [|split]; vm_compute; reflexivity. Qed.

(** ** Examples *)

(** C6, the file [src/main.ts] of the example project, whose [.gitignore]
    holds the one line [secret.txt]. *)
Lemma discovered_files_invariant_witness :
  In Examples.main_ts (@getAllCodeFiles Posix.platform Examples.analyzer Examples.project)
  /\ size Examples.main_ts = Z.of_nat (String.length (content Examples.main_ts))
  /\ size Examples.main_ts < 50000
  /\ @ignore_ignores Posix.platform (ignoreFilter Examples.analyzer) "src/main.ts"
     = Returns false
  /\ ignoreFilter Examples.analyzer = (default_ignores ++ ["secret.txt"])%list.
Proof.
  assert (H : In Examples.main_ts
                 (@getAllCodeFiles Posix.platform Examples.analyzer Examples.project))
    by (vm_compute; left; reflexivity).
  destruct (@discovered_files_invariant Posix.platform "/work" Examples.project
              Examples.project Examples.main_ts H)
    as (Hsize & Hcap & Hignored & _ & Hrules & Hread & _).
  split; [exact H | split; [exact Hsize | split; [exact Hcap | split; [exact Hignored|]]]].
  unfold Examples.analyzer. rewrite Hrules.
  rewrite (Hread [] "secret.txt" _ eq_refl (fun entry (Hin : In entry []) => match Hin with end)).
  reflexivity.
Defined.

(** The file that the project's ignore file lists is not discovered, and
    neither is the ignore file, which has no extension of the list. *)
Example project_discovery :
  map path (@getAllCodeFiles Posix.platform Examples.analyzer Examples.project)
  = ["src/main.ts"; "src/lib.ts"; "README.md"].
Proof. vm_compute. reflexivity. Qed.

(** C9, a selected path that the refreshed file list holds, and one that it
    does not hold: the block of the first, nothing for the second. *)
Lemma buildSelectedFilesContext_skips_stale_witness :
  In "src/main.ts" (map (fun f => path (file f)) (availableFiles Examples.mixed_provider))
  /\ ~ In "gone.ts" (map (fun f => path (file f)) (availableFiles Examples.mixed_provider))
  /\ buildSelectedFilesContext Examples.mixed_provider
     = "Selected files (2):" ++ nl ++ nl
       ++ "--- File: src/main.ts ---" ++ nl ++ "let x = 1;" ++ nl ++ nl.
Proof.
  split; [vm_compute; tauto|].
  split; [vm_compute; intros [H|[H|[H|[]]]]; discriminate H|].
  refine (eq_trans
            (proj1 (@buildSelectedFilesContext_skips_stale Posix.platform
                      Examples.mixed_provider (Examples.no_editor None))) _).
  vm_compute. reflexivity.
Defined.

(** C10, two selected paths that the refreshed file list does not hold. *)
Lemma stale_selection_keeps_header_witness :
  @buildContextFromSelection Posix.platform Examples.stale_provider
     (Examples.no_editor None) "what do these files do"
  = "Selected files (2):" ++ nl ++ nl.
Proof.
  refine (proj2 (proj2
            (@stale_selection_keeps_header Posix.platform Examples.stale_provider
               (Examples.no_editor None) "what do these files do" eq_refl _ _))).
  - discriminate.
  - intros filePath f Hpath Hfile.
    vm_compute in Hfile.
    destruct Hpath as [<-|[<-|[]]];
      destruct Hfile as [<-|[<-|[<-|[]]]]; discriminate.
Defined.

(** The two fallbacks of [buildContextFromSelection] are reached: the editor
    API raises; nothing is open and the query holds a token that is not a
    pattern, so that no file is returned and the assembled string is empty. *)
Example buildContextFromSelection_after_exception :
  @buildContextForMode Posix.platform (Examples.provider auto []) Examples.failing_host "hello"
  = Throws (HostError "activeTextEditor")
  /\ @buildContextFromSelection Posix.platform (Examples.provider auto [])
       Examples.failing_host "hello"
     = error_notice.
Proof. split; vm_compute; reflexivity. Qed.

Example buildContextFromSelection_empty_context :
  @buildContextForMode Posix.platform (Examples.provider auto [])
     (Examples.no_editor None) "what about c++ here"
  = Returns ""
  /\ @buildContextFromSelection Posix.platform (Examples.provider auto [])
       (Examples.no_editor None) "what about c++ here"
     = no_context_notice.
Proof. split; vm_compute; reflexivity. Qed.

(** The order of the example project for a query: equal scores keep the
    order of discovery. *)
Example getRelevantFiles_example :
  map (fun sf => (path (file sf), score sf))
      (@getRelevantFiles Posix.platform Examples.analyzer Examples.project "main lib" 5)
  = [("src/main.ts", 12); ("src/lib.ts", 12); ("README.md", 2)].
Proof. vm_compute. reflexivity. Qed.

(** The token [a.c] is read as a pattern: it occurs nowhere in the content
    of [notes.md], and the code counts two matches. *)
Example pattern_token_example :
  @calculateRelevanceScore Posix.platform Examples.notes_md "a.c" = Returns 4
  /\ Spec.occurrences "a.c" (content Examples.notes_md) = 0%nat
  /\ @Spec.lowercased_score Posix.platform Examples.notes_md "a.c" = 2.
Proof. split; [|split]; vm_compute; reflexivity. Qed.

(** * Further properties *)

(** ** The walk of the workspace *)

Section WalkProperties.

Context {platform : Platform}.
Variable this : CodebaseAnalyzer.

Lemma searchFiles_keeps (dir : string) (node : fsnode) (files : list CodeFile) (f : CodeFile) :
  In f files -> In f (searchFiles this dir node files).
Proof.
  intros Hin. destruct (searchFiles_adds this node dir files) as (added & E & _).
  rewrite E. apply in_or_app. now left.
Qed.

Lemma searchItems_keeps (dir : string) (items : list (string * fsnode))
    (files : list CodeFile) (f : CodeFile) :
  In f files -> In f (searchItems this (searchFiles this) dir items files).
Proof. apply (searchFiles_keeps dir (Dir items)). Qed.

(** X1: an entry that the ignore filter excludes is never looked at: in any
    directory of the walk the result is the same whatever the entry is, a
    file or a whole tree, and the same as if the entry were not there. *)
Theorem searchFiles_never_enters_ignored (dir item : string) (node other : fsnode)
    (before behind : list (string * fsnode)) (files : list CodeFile) :
  ignore_ignores (ignoreFilter this) (relative_join dir item) = Returns true ->
  searchFiles this dir (Dir (before ++ (item, node) :: behind)) files
  = searchFiles this dir (Dir (before ++ behind)) files
  /\ searchFiles this dir (Dir (before ++ (item, node) :: behind)) files
     = searchFiles this dir (Dir (before ++ (item, other) :: behind)) files.
Proof.
  intros Hig.
  assert (H : forall n,
             searchFiles this dir (Dir (before ++ (item, n) :: behind)) files
             = searchFiles this dir (Dir (before ++ behind)) files).
  { intros n. cbn [searchFiles]. revert files.
    induction before as [|[name child] before IH]; intros files.
    - cbn [app searchItems]. now rewrite Hig.
    - cbn [app searchItems].
      destruct (ignore_ignores (ignoreFilter this) (relative_join dir name)) as [[|]|e];
        [apply IH | | reflexivity].
      destruct child; try reflexivity; try apply IH.
      repeat match goal with |- context [if ?c then _ else _] => destruct c end; apply IH. }
  split; [apply H | now rewrite !H].
Qed.


(** X3: an exception of [statSync] on an entry, or of the filter on its
    path, ends the loop over its directory: the entries behind it in that
    directory are not visited, and the result is the one of the entries
    before it. *)
Theorem searchFiles_stops_at_failure (dir item : string) (node : fsnode)
    (before behind : list (string * fsnode)) (files : list CodeFile) :
  (exists e, ignore_ignores (ignoreFilter this) (relative_join dir item) = Throws e)
  \/ (ignore_ignores (ignoreFilter this) (relative_join dir item) = Returns false
      /\ node = NoStat) ->
  searchFiles this dir (Dir (before ++ (item, node) :: behind)) files
  = searchFiles this dir (Dir before) files.
Proof.
  intros Hfail. cbn [searchFiles]. revert files.
  induction before as [|[name child] before IH]; intros files.
  - cbn [app searchItems]. destruct Hfail as [[e ->]|[-> ->]]; reflexivity.
  - cbn [app searchItems].
    destruct (ignore_ignores (ignoreFilter this) (relative_join dir name)) as [[|]|e];
      [apply IH | | reflexivity].
    destruct child; try reflexivity; try apply IH.
    repeat match goal with |- context [if ?c then _ else _] => destruct c end; apply IH.
Qed.

Lemma searchItems_finds (dir : string) (items : list (string * fsnode)) :
  Forall (fun entry =>
            forall d p text files,
              undisturbed (ignoreFilter this) d (snd entry) = true ->
              visible (ignoreFilter this) d (snd entry) p text ->
              In {| path := p; content := text; size := Z.of_nat (String.length text) |}
                 (searchFiles this d (snd entry) files)) items ->
  forall files p text,
    undisturbed_items (ignoreFilter this) (undisturbed (ignoreFilter this)) dir items = true ->
    (exists item node,
        In (item, node) items
        /\ ignore_ignores (ignoreFilter this) (relative_join dir item) = Returns false
        /\ (node = File text /\ allowed_extension item = true
            /\ Z.of_nat (String.length text) < 50000 /\ p = relative_join dir item
            \/ visible (ignoreFilter this) (relative_join dir item) node p text)) ->
    In {| path := p; content := text; size := Z.of_nat (String.length text) |}
       (searchItems this (searchFiles this) dir items files).
Proof.
  induction 1 as [|[name child] rest Hchild _ IH]; intros files p text Hcalm Hfile.
  - destruct Hfile as (item & node & [] & _).
  - cbn [undisturbed_items] in Hcalm. cbn [searchItems].
    destruct Hfile as (item & node & Hin & Hig & Hcase).
    destruct Hin as [E|Hin].
    + injection E as -> ->. rewrite Hig in *.
      destruct Hcase as [(-> & Hext & Hsize & ->)|Hvis].
      * unfold allowed_extension in Hext. rewrite Hext.
        destruct (Z.ltb_spec (Z.of_nat (String.length text)) 50000) as [_|Hge]; [|lia].
        apply searchItems_keeps, in_or_app. right. now left.
      * destruct node as [t| |sub| |]; try (now inversion Hvis).
        apply andb_true_iff in Hcalm as [Hsub _].
        apply searchItems_keeps. now apply (Hchild _ p text files Hsub).
    + assert (Hrest : forall files',
                 undisturbed_items (ignoreFilter this) (undisturbed (ignoreFilter this))
                                   dir rest = true ->
                 In {| path := p; content := text; size := Z.of_nat (String.length text) |}
                    (searchItems this (searchFiles this) dir rest files')).
      { intros files' Hc. apply IH; [exact Hc|]. now exists item, node. }
      destruct (ignore_ignores (ignoreFilter this) (relative_join dir name)) as [[|]|e];
        [now apply Hrest | | discriminate Hcalm].
      destruct child as [t| |sub| |]; try discriminate Hcalm;
        apply andb_true_iff in Hcalm as [_ Hcalm];
        repeat match goal with |- context [if ?c then _ else _] => destruct c end;
        now apply Hrest.
Qed.

Lemma searchFiles_finds (node : fsnode) :
  forall dir p text files,
    undisturbed (ignoreFilter this) dir node = true ->
    visible (ignoreFilter this) dir node p text ->
    In {| path := p; content := text; size := Z.of_nat (String.length text) |}
       (searchFiles this dir node files).
Proof.
  induction node as [t| |items IH| |] using fsnode_induction;
    intros dir p text files Hcalm Hvis; try (now inversion Hvis).
  cbn [searchFiles]. cbn [undisturbed] in Hcalm.
  apply (searchItems_finds dir items IH files p text Hcalm).
  inversion Hvis as [d its item t Hin Hig Hext Hsize|d its item n q t Hin Hig Hbelow]; subst.
  - exists item, (File text). repeat split; try assumption. left. now repeat split.
  - exists item, n. repeat split; try assumption. now right.
Qed.

(** X4: when no exception disturbs the walk, discovery misses nothing: every
    readable file below the workspace root with an extension of the list and
    less than 50000 characters, which the filter excludes neither itself nor
    through a directory above it, is among the discovered files, with its
    relative path, its whole content and its length as size. *)
Theorem getAllCodeFiles_complete (node : fsnode) (p text : string) :
  workspaceRoot this <> "" ->
  undisturbed (ignoreFilter this) "" node = true ->
  visible (ignoreFilter this) "" node p text ->
  In {| path := p; content := text; size := Z.of_nat (String.length text) |}
     (getAllCodeFiles this (Some node)).
Proof.
  intros Hroot Hcalm Hvis. unfold getAllCodeFiles.
  destruct (String.eqb_spec (workspaceRoot this) "") as [E|_]; [contradiction|].
  cbn [negb]. now apply searchFiles_finds.
Qed.

End WalkProperties.

(** ** More on the score *)

Lemma toLowerCase_idempotent (s : string) :
  JS.toLowerCase (JS.toLowerCase s) = JS.toLowerCase s.
Proof. induction s as [|c s IH]; simpl; [reflexivity|]. now rewrite lower_char_idempotent, IH. Qed.

Lemma toLowerCase_append (a b : string) :
  JS.toLowerCase (a ++ b) = JS.toLowerCase a ++ JS.toLowerCase b.
Proof. induction a as [|c a IH]; simpl; [reflexivity | now rewrite IH]. Qed.

Lemma sum_bounds (g : string -> Z) (k : Z) (ws : list string) :
  (forall w, 0 <= g w <= k) ->
  0 <= Spec.sum (map g ws) <= k * Z.of_nat (List.length ws).
Proof.
  intros Hg. induction ws as [|w ws IH]; [simpl; lia|].
  cbn [map Spec.sum fold_right List.length]. fold (Spec.sum (map g ws)).
  specialize (Hg w). lia.
Qed.

Lemma split_ws_from_separator (keep : string -> bool) (b : string) :
  keep "" = false ->
  filter keep (JS.split_ws_from b "" true) = filter keep (JS.split_ws_from b "" false).
Proof.
  intros Hkeep. destruct b as [|c b]; [reflexivity|]. cbn [JS.split_ws_from].
  destruct (JS.is_space c); [|reflexivity]. cbn [filter]. now rewrite Hkeep.
Qed.

Lemma split_ws_from_space (keep : string -> bool) (a b : string) :
  keep "" = false ->
  forall cur in_sep,
    (in_sep = true -> cur = "") ->
    filter keep (JS.split_ws_from (a ++ String " " b) cur in_sep)
    = (filter keep (JS.split_ws_from a cur in_sep)
       ++ filter keep (JS.split_ws_from b "" false))%list.
Proof.
  intros Hkeep. induction a as [|c a IH]; intros cur in_sep Hcur.
  - cbn [String.append JS.split_ws_from].
    change (JS.is_space " ") with true. cbn iota.
    destruct in_sep.
    + rewrite (Hcur eq_refl). cbn [filter]. rewrite Hkeep.
      now apply split_ws_from_separator.
    + cbn [filter]. rewrite (split_ws_from_separator keep b Hkeep).
      now destruct (keep cur).
  - cbn [String.append JS.split_ws_from]. destruct (JS.is_space c).
    + destruct in_sep.
      * now apply IH.
      * cbn [filter]. rewrite (IH "" true (fun _ => eq_refl)).
        now destruct (keep cur).
    + apply IH. discriminate.
Qed.

(** The words of two queries joined by a space are the words of the first,
    then the words of the second. *)
Lemma queryWords_space (a b : string) :
  queryWords (a ++ " " ++ b) = (queryWords a ++ queryWords b)%list.
Proof.
  unfold queryWords, JS.split_ws.
  rewrite toLowerCase_append.
  change (JS.toLowerCase (" " ++ b)) with (String " " (JS.toLowerCase b)).
  apply split_ws_from_space; [reflexivity | discriminate].
Qed.

Section ScoreBounds.

Context {platform : Platform}.

(** The loop over the content adds between 0 and 5 for each word, and from
    another start it adds the same. *)
Lemma content_loop_shift (text : string) (ws : list string) (s0 s : Z) :
  forEachM (fun score word =>
              re <- RegExp_new word ;;
              let matches := Z.of_nat (RegExp.match_count re text) in
              Returns (score + Z.min matches 5))
           ws s0 = Returns s ->
  s0 <= s <= s0 + 5 * Z.of_nat (List.length ws)
  /\ forall s0',
      forEachM (fun score word =>
                  re <- RegExp_new word ;;
                  let matches := Z.of_nat (RegExp.match_count re text) in
                  Returns (score + Z.min matches 5))
               ws s0' = Returns (s0' + (s - s0)).
Proof.
  revert s0 s; induction ws as [|w ws IH]; intros s0 s.
  - cbn [forEachM]. intros [= <-]. split; [simpl; lia|].
    intros s0'. f_equal. lia.
  - cbn [forEachM]. destruct (RegExp_new w) as [re|e] eqn:Ere; cbn [bind]; [|discriminate].
    intros H. destruct (IH _ _ H) as [Hb Hshift]. split.
    + cbn [List.length]. lia.
    + intros s0'. cbn [bind].
      specialize (Hshift (s0' + Z.min (Z.of_nat (RegExp.match_count re text)) 5)).
      cbv zeta in *. rewrite Hshift. f_equal. lia.
Qed.

Lemma content_loop_app (text : string) (ws1 ws2 : list string) (s0 : Z) :
  forEachM (fun score word =>
              re <- RegExp_new word ;;
              let matches := Z.of_nat (RegExp.match_count re text) in
              Returns (score + Z.min matches 5))
           (ws1 ++ ws2) s0
  = s1 <- forEachM (fun score word =>
                      re <- RegExp_new word ;;
                      let matches := Z.of_nat (RegExp.match_count re text) in
                      Returns (score + Z.min matches 5))
                   ws1 s0 ;;
    forEachM (fun score word =>
                re <- RegExp_new word ;;
                let matches := Z.of_nat (RegExp.match_count re text) in
                Returns (score + Z.min matches 5))
             ws2 s1.
Proof.
  revert s0; induction ws1 as [|w ws1 IH]; intros s0; [reflexivity|].
  cbn [app forEachM]. destruct (RegExp_new w) as [re|e]; cbn [bind]; [apply IH | reflexivity].
Qed.

(** The score without the size bonus, when the function returns. *)
Lemma calculateRelevanceScore_parts (f : CodeFile) (query : string) (s : Z) :
  calculateRelevanceScore f query = Returns s ->
  exists c,
    forEachM (fun score word =>
                re <- RegExp_new word ;;
                let matches := Z.of_nat (RegExp.match_count re (JS.toLowerCase (content f))) in
                Returns (score + Z.min matches 5))
             (queryWords query) 0 = Returns c
    /\ s = Spec.sum (map (fun w => if JS.includes (JS.toLowerCase (path f)) w
                                   then 10 else 0) (queryWords query))
           + Spec.sum (map (fun w => if JS.includes w (JS.substring_from 1
                                          (JS.toLowerCase (path_extname (path f))))
                                     then 5 else 0) (queryWords query))
           + c + Spec.size_bonus (size f).
Proof.
  unfold calculateRelevanceScore. rewrite !fold_left_bonus.
  match goal with
  | |- context [forEachM ?body ?ws ?s0] => destruct (forEachM body ws s0) as [s'|e] eqn:E
  end; cbn [bind]; [|discriminate].
  intros [= <-]. destruct (content_loop_shift _ _ _ _ E) as [_ Hshift].
  exists (s' - (0 + Spec.sum (map (fun w => if JS.includes (JS.toLowerCase (path f)) w
                                            then 10 else 0) (queryWords query))
                + Spec.sum (map (fun w => if JS.includes w (JS.substring_from 1
                                               (JS.toLowerCase (path_extname (path f))))
                                          then 5 else 0) (queryWords query)))).
  split.
  - pose proof (Hshift 0) as H0. cbv zeta in *. rewrite H0. f_equal; lia.
  - unfold Spec.size_bonus.
    destruct (size f <? 1000); [lia|]. destruct (size f <? 5000); lia.
Qed.

(** X5: a score that [calculateRelevanceScore] returns is never negative: it
    is at least the size bonus of the file, and at most 20 for each word of
    the query (10 for the path, 5 for the extension, 5 for the content) and
    the bonus of 2. *)
Theorem calculateRelevanceScore_bounds (f : CodeFile) (query : string) (s : Z) :
  calculateRelevanceScore f query = Returns s ->
  0 <= Spec.size_bonus (size f) <= s
  /\ s <= 20 * Z.of_nat (List.length (queryWords query)) + 2.
Proof.
  intros H. destruct (calculateRelevanceScore_parts f query s H) as (c & Hc & ->).
  destruct (content_loop_shift _ _ _ _ Hc) as [Hcb _].
  pose proof (sum_bounds (fun w => if JS.includes (JS.toLowerCase (path f)) w
                                   then 10 else 0) 10 (queryWords query)) as H10.
  pose proof (sum_bounds (fun w => if JS.includes w (JS.substring_from 1
                                        (JS.toLowerCase (path_extname (path f))))
                                   then 5 else 0) 5 (queryWords query)) as H5.
  assert (0 <= Spec.size_bonus (size f) <= 2).
  { unfold Spec.size_bonus. destruct (size f <? 1000); [lia|].
    destruct (size f <? 5000); lia. }
  assert (H10' := H10 ltac:(intros w; cbv beta;
                             destruct (JS.includes (JS.toLowerCase (path f)) w); lia)).
  assert (H5' := H5 ltac:(intros w; cbv beta;
                           match goal with |- context [if ?c then _ else _] => destruct c end;
                           lia)).
  lia.
Qed.

(** X6: the score does not depend on the case of the query, and the words
    count one by one: for two queries that can be scored, the score of the
    two joined by a space is the sum of their scores, with the size bonus
    counted once. *)
Theorem calculateRelevanceScore_adds_up (f : CodeFile) (a b : string) (sa sb : Z) :
  calculateRelevanceScore f a = Returns sa ->
  calculateRelevanceScore f b = Returns sb ->
  calculateRelevanceScore f (JS.toLowerCase a) = Returns sa
  /\ calculateRelevanceScore f (a ++ " " ++ b)
     = Returns (sa + sb - Spec.size_bonus (size f)).
Proof.
  intros Ha Hb. split.
  - unfold calculateRelevanceScore, queryWords in *.
    now rewrite toLowerCase_idempotent.
  - destruct (calculateRelevanceScore_parts f a sa Ha) as (ca & Hca & ->).
    destruct (calculateRelevanceScore_parts f b sb Hb) as (cb & Hcb & ->).
    unfold calculateRelevanceScore. rewrite !fold_left_bonus, queryWords_space.
    rewrite content_loop_app.
    destruct (content_loop_shift _ _ _ _ Hca) as [_ Hsa].
    destruct (content_loop_shift _ _ _ _ Hcb) as [_ Hsb].
    rewrite Hsa. cbn [bind]. rewrite Hsb. cbn [bind].
    rewrite !map_app.
    assert (Happ : forall l1 l2, Spec.sum (l1 ++ l2) = Spec.sum l1 + Spec.sum l2).
    { induction l1 as [|x l1 IH]; intros l2; simpl; [lia|].
      fold (Spec.sum (l1 ++ l2)). fold (Spec.sum l1). rewrite IH. lia. }
    rewrite !Happ. f_equal. unfold Spec.size_bonus.
    destruct (size f <? 1000); [lia|]. destruct (size f <? 5000); lia.
Qed.

End ScoreBounds.

(** ** More on the relevant files *)

Lemma length_slice0_le {A : Type} (xs : list A) (n : Z) :
  (List.length (JS.slice0 xs n) <= List.length xs)%nat.
Proof. unfold JS.slice0. destruct (n <? 0); rewrite length_firstn; lia. Qed.

Lemma length_slice0_negative {A : Type} (xs : list A) (n : Z) :
  n < 0 ->
  Z.of_nat (List.length (JS.slice0 xs n)) = Z.max (Z.of_nat (List.length xs) + n) 0.
Proof.
  intros Hn. unfold JS.slice0. destruct (Z.ltb_spec n 0) as [_|Hge]; [|lia].
  rewrite length_firstn. lia.
Qed.

Section RelevantFilesMore.

Context {platform : Platform}.
Variable this : CodebaseAnalyzer.

Lemma getAllCodeFiles_well_discovered (fs : option fsnode) (f : CodeFile) :
  In f (getAllCodeFiles this fs) -> well_discovered (ignoreFilter this) f.
Proof.
  unfold getAllCodeFiles. destruct (negb _); [|contradiction].
  destruct fs as [node|]; [|contradiction].
  destruct (searchFiles_adds this node "" []) as (added & E & Hadded).
  rewrite E. cbn [app]. intros Hin.
  now destruct (proj1 (Forall_forall _ _) Hadded f Hin).
Qed.

Lemma In_getRelevantFiles (fs : option fsnode) (query : string) (maxFiles : Z)
    (sf : ScoredFile) :
  In sf (getRelevantFiles this fs query maxFiles) ->
  In (file sf) (getAllCodeFiles this fs)
  /\ calculateRelevanceScore (file sf) query = Returns (score sf).
Proof.
  pose proof (getRelevantFiles_cases this fs query maxFiles) as Hcases.
  destruct (mapM (scoreFile query) (getAllCodeFiles this fs)) as [scored|e] eqn:Hm;
    rewrite Hcases; [|intros []].
  destruct (mapM_scoreFile _ _ _ Hm) as [Hmap Hall].
  intros Hin. apply In_slice0 in Hin.
  apply (Permutation_in _ (sort_permutation scored)) in Hin. split.
  - rewrite <- Hmap. now apply in_map.
  - now apply (proj1 (Forall_forall _ _) Hall).
Qed.

(** X7: [getRelevantFiles] returns discovered files only, each with its
    invariant, and never more of them than were discovered; for a limit that
    is not negative it returns at most that many, and for a negative limit
    [n] it leaves out the last [-n] of the ranking. *)
Theorem getRelevantFiles_selects_discovered (fs : option fsnode) (query : string)
    (maxFiles : Z) :
  let discovered := getAllCodeFiles this fs in
  let returned := getRelevantFiles this fs query maxFiles in
  (forall sf, In sf returned ->
              In (file sf) discovered /\ well_discovered (ignoreFilter this) (file sf))
  /\ (List.length returned <= List.length discovered)%nat
  /\ (0 <= maxFiles -> Z.of_nat (List.length returned) <= maxFiles)
  /\ (maxFiles < 0 ->
      Z.of_nat (List.length returned)
      <= Z.max (Z.of_nat (List.length discovered) + maxFiles) 0).
Proof.
  intros discovered returned.
  pose proof (getRelevantFiles_cases this fs query maxFiles) as Hcases.
  fold returned discovered in Hcases.
  destruct (mapM (scoreFile query) discovered) as [scored|e] eqn:Hm.
  - destruct (mapM_scoreFile _ _ _ Hm) as [Hmap _].
    assert (Hlen : List.length (sort scored) = List.length discovered).
    { rewrite (Permutation_length (sort_permutation scored)), <- Hmap.
      now rewrite length_map. }
    rewrite Hcases. split; [|split; [|split]].
    + intros sf Hin. rewrite <- Hcases in Hin.
      apply In_getRelevantFiles in Hin as [Hfile _].
      split; [exact Hfile | now apply (getAllCodeFiles_well_discovered fs)].
    + rewrite <- Hlen. apply length_slice0_le.
    + intros Hn. now apply length_slice0.
    + intros Hn. rewrite length_slice0_negative by exact Hn. rewrite Hlen. lia.
  - rewrite Hcases. split; [intros sf []|]. cbn [List.length]. lia.
Qed.

End RelevantFilesMore.

(** ** More on the modes of the provider *)

Lemma startsWith_append (s p b : string) :
  JS.startsWith s p = true -> JS.startsWith (s ++ b) p = true.
Proof.
  revert s; induction p as [|c p IH]; intros s H.
  - now destruct (s ++ b).
  - destruct s as [|a s]; [discriminate H|]. simpl in *.
    apply andb_true_iff in H as [Hc Hp]. now rewrite Hc, (IH _ Hp).
Qed.

Lemma includes_append_r (s sub b : string) :
  JS.includes s sub = true -> JS.includes (s ++ b) sub = true.
Proof.
  induction s as [|a s IH]; cbn [JS.includes]; intros H; apply orb_true_iff in H as [H|H].
  - destruct sub; [|discriminate H]. now destruct b.
  - discriminate H.
  - change ((String a s) ++ b) with (String a (s ++ b)). cbn [JS.includes].
    change (String a (s ++ b)) with ((String a s) ++ b).
    now rewrite (startsWith_append _ _ b H).
  - change ((String a s) ++ b) with (String a (s ++ b)). cbn [JS.includes].
    rewrite (IH H). apply orb_true_r.
Qed.

Lemma includes_append_l (a s sub : string) :
  JS.includes s sub = true -> JS.includes (a ++ s) sub = true.
Proof.
  intros H. induction a as [|c a IH]; [exact H|].
  change ((String c a) ++ s) with (String c (a ++ s)). cbn [JS.includes].
  rewrite IH. apply orb_true_r.
Qed.

Lemma includes_embedded (before s after sub : string) :
  JS.includes s sub = true -> JS.includes (before ++ s ++ after) sub = true.
Proof. intros H. now apply includes_append_l, includes_append_r. Qed.

(** The phrases that make a query one about the current file. *)
Lemma isQueryAboutCurrentFile_phrases (query currentFileName : string) :
  isQueryAboutCurrentFile query currentFileName = true <->
  exists phrase,
    In phrase (JS.toLowerCase currentFileName :: "this file" :: "current file"
               :: currentFileIndicators)
    /\ JS.includes (JS.toLowerCase query) phrase = true.
Proof.
  unfold isQueryAboutCurrentFile.
  destruct (JS.includes (JS.toLowerCase query) (JS.toLowerCase currentFileName)) eqn:E1.
  { split; [intros _ | reflexivity]. eexists. split; [now left | exact E1]. }
  destruct (JS.includes (JS.toLowerCase query) "this file") eqn:E2.
  { split; [intros _ | reflexivity]. eexists. split; [right; now left | exact E2]. }
  destruct (JS.includes (JS.toLowerCase query) "current file") eqn:E3.
  { split; [intros _ | reflexivity]. eexists. split; [right; right; now left | exact E3]. }
  cbn [orb]. rewrite existsb_exists. split.
  - intros (phrase & Hin & Hinc). exists phrase. split; [right; right; right; exact Hin | exact Hinc].
  - intros (phrase & [<-|[<-|[<-|Hin]]] & Hinc); try congruence.
    now exists phrase.
Qed.

(** X8: a query is about the current file whatever the case of its letters
    and of the letters of the file name, and it stays one when text is put
    before and behind it. *)
Theorem isQueryAboutCurrentFile_embedded (query currentFileName : string) :
  isQueryAboutCurrentFile (JS.toLowerCase query) (JS.toLowerCase currentFileName)
  = isQueryAboutCurrentFile query currentFileName
  /\ (isQueryAboutCurrentFile query currentFileName = true ->
      forall before after,
        isQueryAboutCurrentFile (before ++ query ++ after) currentFileName = true).
Proof.
  split.
  - unfold isQueryAboutCurrentFile. now rewrite !toLowerCase_idempotent.
  - intros H before after. apply isQueryAboutCurrentFile_phrases in H as (phrase & Hin & Hinc).
    apply isQueryAboutCurrentFile_phrases. exists phrase. split; [exact Hin|].
    rewrite !toLowerCase_append. now apply includes_embedded.
Qed.

Section ModesMore.

Context {platform : Platform}.
Variable this : ChatProvider.
Variable vscode : VSCode.
Variable activeEditor : option TextEditor.
Hypothesis editor_read : window_activeTextEditor vscode = Returns activeEditor.

Lemma buildCurrentFileContext_shape :
  buildCurrentFileContext vscode
  = Returns match shown_editor activeEditor with
            | Some editor =>
                "Current file: " ++ document_relativePath editor ++ nl ++ nl
                ++ "Content:" ++ nl ++ document_getText editor
            | None => "No current file is open."
            end.
Proof.
  unfold buildCurrentFileContext, getCurrentFileContent, getCurrentFileName, relativePathOf,
    shown_editor.
  rewrite editor_read. cbn [bind].
  destruct activeEditor as [[text name rel]|]; [|reflexivity].
  cbn [option_map document_getText document_basename document_relativePath truthy].
  destruct text as [|c text]; [reflexivity|].
  destruct name as [|d name]; reflexivity.
Qed.

(** X9: in the mode of the current file the context does not depend on the
    query, on the workspace or on the list of available files: it is the
    label and the whole text of the active file when its text and its name
    are not empty, and the notice that no file is open otherwise, also when
    a file without text is open. *)
Theorem current_mode_context (query : string) :
  mode (contextSelection this) = current ->
  buildContextFromSelection this vscode query
  = match activeEditor with
    | Some editor =>
        if String.eqb (document_getText editor) "" || String.eqb (document_basename editor) ""
        then "No current file is open."
        else "Current file: " ++ document_relativePath editor ++ nl ++ nl
             ++ "Content:" ++ nl ++ document_getText editor
    | None => "No current file is open."
    end.
Proof.
  intros Hmode. unfold buildContextFromSelection, buildContextForMode.
  rewrite Hmode, buildCurrentFileContext_shape. cbn [bind]. unfold shown_editor.
  destruct activeEditor as [[text name rel]|]; [|reflexivity].
  cbn [document_getText document_basename document_relativePath truthy].
  destruct text as [|c text]; [reflexivity|].
  destruct name as [|d name]; [reflexivity|].
  cbn [andb String.eqb orb].
  match goal with
  | |- context [String.eqb (JS.trim ?s) ""] =>
      destruct (String.eqb_spec (JS.trim s) "") as [E|_]; [|reflexivity]
  end.
  now apply trim_first_not_space in E.
Qed.

Lemma blank_additional (query : string) :
  let relevantFiles :=
    getRelevantFiles (codebaseAnalyzer this) (fs_root vscode) query
                     (auto_limit (config_maxContextFiles vscode)) in
  JS.trim (additional_heading relevantFiles
           ++ concat_strings (map (file_block 2000)
                                  (appended_files activeEditor relevantFiles))) = ""
  <-> relevantFiles = [].
Proof.
  intros relevantFiles. destruct relevantFiles as [|f rest].
  - split; reflexivity.
  - split; [|discriminate]. intros E. exfalso. revert E.
    cbn [additional_heading]. rewrite !append_assoc. now apply trim_first_not_space.
Qed.

(** X10: when the editor can be read, [buildContextFromSelection] returns
    the notice that no context was found in one case only: in the automatic
    mode, when no active file is shown and [getRelevantFiles] returns no file
    for the query. *)
Theorem no_context_notice_only_in_auto (query : string) :
  buildContextFromSelection this vscode query = no_context_notice
  <-> mode (contextSelection this) = auto
      /\ shown_editor activeEditor = None
      /\ getRelevantFiles (codebaseAnalyzer this) (fs_root vscode) query
                          (auto_limit (config_maxContextFiles vscode)) = [].
Proof.
  unfold buildContextFromSelection, buildContextForMode.
  destruct (mode (contextSelection this)) eqn:Hmode.
  - rewrite buildCurrentFileContext_shape. cbn [bind].
    split; [|intros [H _]; discriminate H]. intros H. exfalso. revert H.
    destruct (shown_editor activeEditor) as [editor|].
    + match goal with
      | |- context [String.eqb (JS.trim ?s) ""] =>
          destruct (String.eqb_spec (JS.trim s) "") as [E|_]
      end.
      * now apply trim_first_not_space in E.
      * discriminate.
    + vm_compute. discriminate.
  - cbn [bind]. rewrite buildSelectedFilesContext_blocks.
    split; [|intros [H _]; discriminate H]. intros H. exfalso. revert H.
    destruct (selectedFiles (contextSelection this)) as [|p sel].
    + vm_compute. discriminate.
    + unfold selection_header. rewrite !append_assoc.
      match goal with
      | |- context [String.eqb (JS.trim ?s) ""] =>
          destruct (String.eqb_spec (JS.trim s) "") as [E|_]
      end.
      * now apply trim_first_not_space in E.
      * discriminate.
  - rewrite (buildAutoContext_shape this vscode activeEditor editor_read query).
    cbn [bind]. cbv zeta.
    pose proof (blank_additional query) as Hblank. cbv zeta in Hblank.
    set (relevantFiles := getRelevantFiles (codebaseAnalyzer this) (fs_root vscode) query
                            (auto_limit (config_maxContextFiles vscode))) in *.
    destruct (shown_editor activeEditor) as [editor|].
    + split; [|intros (_ & H & _); discriminate H]. intros H. exfalso. revert H.
      destruct (isQueryAboutCurrentFile query (document_basename editor));
        unfold active_file_block; rewrite !append_assoc;
        match goal with
        | |- context [String.eqb (JS.trim ?s) ""] =>
            destruct (String.eqb_spec (JS.trim s) "") as [E|_]
        end;
        try (now apply trim_first_not_space in E); discriminate.
    + match goal with
      | |- context [String.eqb (JS.trim ?s) ""] =>
          destruct (String.eqb_spec (JS.trim s) "") as [E|N]
      end.
      * split; [intros _ | reflexivity]. repeat split. now apply Hblank.
      * split.
        -- intros H. exfalso. destruct relevantFiles as [|f rest].
           ++ now apply N.
           ++ cbn [additional_heading] in H. rewrite !append_assoc in H.
              discriminate H.
        -- intros (_ & _ & Hr). exfalso. now apply N, Hblank.
  - cbn [bind].
    split; [|intros [H _]; discriminate H]. intros H. exfalso. revert H.
    unfold buildWholeCodebaseContext.
    rewrite (forEachIndexed_append appendWholeFile (file_block 1500)).
    + rewrite !append_assoc.
      match goal with
      | |- context [String.eqb (JS.trim ?s) ""] =>
          destruct (String.eqb_spec (JS.trim s) "") as [E|_]
      end.
      * now apply trim_first_not_space in E.
      * discriminate.
    + intros context f index. unfold appendWholeFile, file_block. cbn [fst snd].
      now rewrite !append_assoc.
Qed.

End ModesMore.

(** ** The client of the model service *)

Section GeminiProperties.

Variable sdk : Gemini.SDK.

(** X11: [initializeClient] raises the error of the missing key and leaves
    the client as it is when the configured key is missing, empty or blank;
    otherwise it keeps the key, takes the first model that the SDK returns
    for the names gemini-1.5-flash, gemini-1.5-pro, gemini-pro and
    models/gemini-1.5-flash in this order, and raises what the last name
    raised, with the model unchanged, when no name is accepted. *)
Theorem initializeClient_first_accepted (apiKey : option string) (this : Gemini.GeminiClient) :
  if Gemini.blank_key apiKey
  then Gemini.initializeClient sdk apiKey this
       = (this, Gemini.Raised (Gemini.Error Gemini.not_configured))
  else exists key,
      apiKey = Some key
      /\ match first_accepted sdk key Gemini.testModels with
         | Some m =>
             Gemini.initializeClient sdk apiKey this
             = ({| Gemini.genAI := Some key; Gemini.model := Some m |}, Gemini.Done tt)
         | None =>
             exists t,
               Gemini.getGenerativeModel sdk key "models/gemini-1.5-flash" = Gemini.Raised t
               /\ Gemini.initializeClient sdk apiKey this
                  = ({| Gemini.genAI := Some key; Gemini.model := Gemini.model this |},
                     Gemini.Raised t)
         end.
Proof.
  destruct (Gemini.blank_key apiKey) eqn:Hblank.
  - unfold Gemini.initializeClient. rewrite Hblank. now destruct apiKey.
  - destruct apiKey as [key|]; [|discriminate Hblank].
    exists key. split; [reflexivity|].
    unfold Gemini.initializeClient. rewrite Hblank.
    cbn [first_accepted Gemini.testModels].
    destruct (Gemini.getGenerativeModel sdk key "gemini-1.5-flash"); [reflexivity|].
    destruct (Gemini.getGenerativeModel sdk key "gemini-1.5-pro"); [reflexivity|].
    destruct (Gemini.getGenerativeModel sdk key "gemini-pro"); [reflexivity|].
    destruct (Gemini.getGenerativeModel sdk key "models/gemini-1.5-flash") as [m|last];
      [reflexivity|].
    now exists last.
Qed.

Lemma testConnection_from_spec (this : Gemini.GeminiClient) (names : list string) :
  let tested := Gemini.testConnection_from sdk this names in
  (snd tested = false -> fst tested = this)
  /\ (snd tested = true ->
      exists key name m,
        Gemini.genAI this = Some key /\ In name names /\ works sdk key name m
        /\ fst tested = {| Gemini.genAI := Some key; Gemini.model := Some m |})
  /\ (forall key name,
        Gemini.genAI this = Some key -> In name names -> worksb sdk key name = true ->
        snd tested = true).
Proof.
  induction names as [|name names IH]; cbn [Gemini.testConnection_from].
  - cbn [fst snd]. repeat split; try discriminate. intros key name _ [].
  - cbv zeta in IH. destruct IH as (IHf & IHt & IHw).
    destruct (Gemini.genAI this) as [key|] eqn:Hkey.
    + destruct (Gemini.getGenerativeModel sdk key name) as [m|t0] eqn:Hget.
      * destruct (Gemini.generateContent m Gemini.testPrompt) as [r|t'] eqn:Hgen.
        -- cbn [fst snd]. repeat split; try discriminate.
           intros _. exists key, name, m. repeat split; try (now left); try assumption.
           now exists r.
        -- repeat split.
           ++ exact IHf.
           ++ intros H. destruct (IHt H) as (k & n & m' & Hk & Hin & Hw & E).
              exists k, n, m'. repeat split; try assumption; try apply Hw. now right.
           ++ intros k n [= <-] [<-|Hin] Hw.
              ** unfold worksb in Hw. rewrite Hget, Hgen in Hw. discriminate Hw.
              ** now apply (IHw key n).
      * repeat split.
        -- exact IHf.
        -- intros H. destruct (IHt H) as (k & n & m' & Hk & Hin & Hw & E).
           exists k, n, m'. repeat split; try assumption; try apply Hw. now right.
        -- intros k n [= <-] [<-|Hin] Hw.
           ++ unfold worksb in Hw. rewrite Hget in Hw. discriminate Hw.
           ++ now apply (IHw key n).
    + repeat split.
      * exact IHf.
      * intros H. destruct (IHt H) as (k & n & m' & Hk & _). discriminate Hk.
      * intros k n Hk. discriminate Hk.
Qed.

(** X12: [testConnection] does not raise; it answers true exactly when the
    client has its SDK object and one of the four model names gives a model
    that answers the test prompt, and then the client keeps that model; when
    it answers false the client is as before. *)
Theorem testConnection_outcome (this : Gemini.GeminiClient) :
  let tested := Gemini.testConnection sdk this in
  (snd tested = false -> fst tested = this)
  /\ (snd tested = true <->
      exists key name,
        Gemini.genAI this = Some key /\ In name Gemini.testModels
        /\ worksb sdk key name = true)
  /\ (snd tested = true ->
      exists key name m,
        Gemini.genAI this = Some key /\ In name Gemini.testModels /\ works sdk key name m
        /\ fst tested = {| Gemini.genAI := Some key; Gemini.model := Some m |}).
Proof.
  pose proof (testConnection_from_spec this Gemini.testModels) as H.
  cbv zeta in *. fold (Gemini.testConnection sdk this) in H.
  destruct H as (Hf & Ht & Hw). split; [exact Hf | split; [split|exact Ht]].
  - intros E. destruct (Ht E) as (key & name & m & Hk & Hin & [Hget [r Hgen]] & _).
    exists key, name. repeat split; try assumption.
    unfold worksb. now rewrite Hget, Hgen.
  - intros (key & name & Hk & Hin & Hwb). now apply (Hw key name).
Qed.

Variable apiKey : option string.

Lemma chat_error_message_forms (t : Gemini.thrown) :
  In (Gemini.chat_error_message t) chat_error_messages
  \/ exists cause, Gemini.chat_error_message t = "Gemini API error: " ++ cause.
Proof.
  destruct t as [message|]; cbn [Gemini.chat_error_message].
  - destruct (JS.includes message "API key"); [left; now left|].
    destruct (JS.includes message "quota"); [left; right; now left|].
    destruct (JS.includes message "not found" || JS.includes message "404");
      [left; right; right; now left|].
    destruct (JS.includes message "models/"); [left; right; right; right; now left|].
    right. now exists message.
  - left. right; right; right; right. now left.
Qed.

Lemma chat_result_forms (this : Gemini.GeminiClient) (message : string)
    (codeContext : option string) :
  match snd (Gemini.chat sdk apiKey this message codeContext) with
  | Gemini.Done text => text <> "" /\ JS.trim text <> ""
  | Gemini.Raised t =>
      exists thrown_message,
        t = Gemini.Error thrown_message
        /\ (In thrown_message chat_error_messages
            \/ exists cause, thrown_message = "Gemini API error: " ++ cause)
  end.
Proof.
  unfold Gemini.chat.
  destruct (Gemini.chat_attempt sdk apiKey this message codeContext) as [this' [text|t]] eqn:E;
    cbn [snd].
  - unfold Gemini.chat_attempt in E.
    destruct (match Gemini.model this with
              | Some _ => (this, Gemini.Done tt)
              | None => Gemini.initializeClient sdk apiKey this
              end) as [this0 [[]|t]]; [|discriminate E].
    destruct (Gemini.model this0) as [m|]; [|discriminate E].
    destruct (Gemini.generateContent m _) as [response|t]; [|discriminate E].
    destruct (Gemini.response_text response) as [text0|t]; [|discriminate E].
    destruct (String.eqb_spec text0 "") as [E0|N0]; [discriminate E|].
    destruct (String.eqb_spec (JS.trim text0) "") as [E1|N1]; [discriminate E|].
    cbn [orb] in E. injection E as _ <-. now split.
  - eexists. split; [reflexivity | apply chat_error_message_forms].
Qed.

(** X13: a text that [chat] returns is never empty or white space only, and
    what [chat] throws is always an [Error] whose message is one of five
    fixed messages or quotes the message of its cause. *)
Theorem chat_outcomes (this : Gemini.GeminiClient) (message : string)
    (codeContext : option string) :
  match snd (Gemini.chat sdk apiKey this message codeContext) with
  | Gemini.Done text => text <> "" /\ JS.trim text <> ""
  | Gemini.Raised t =>
      exists thrown_message,
        t = Gemini.Error thrown_message
        /\ (In thrown_message chat_error_messages
            \/ exists cause, thrown_message = "Gemini API error: " ++ cause)
  end.
Proof. apply chat_result_forms. Qed.

End GeminiProperties.

Lemma isCodeGenerationRequest_keywords (message : string) :
  Gemini.isCodeGenerationRequest message = true <->
  exists keyword,
    In keyword Gemini.codeKeywords /\ JS.includes (JS.toLowerCase message) keyword = true.
Proof. unfold Gemini.isCodeGenerationRequest. apply existsb_exists. Qed.

(** X15: a message is a request for code whatever the case of its letters,
    and it stays one when text is put before and behind it. *)
Theorem isCodeGenerationRequest_embedded (message : string) :
  Gemini.isCodeGenerationRequest (JS.toLowerCase message)
  = Gemini.isCodeGenerationRequest message
  /\ (Gemini.isCodeGenerationRequest message = true ->
      forall before after,
        Gemini.isCodeGenerationRequest (before ++ message ++ after) = true).
Proof.
  split.
  - unfold Gemini.isCodeGenerationRequest. now rewrite toLowerCase_idempotent.
  - intros H before after.
    apply isCodeGenerationRequest_keywords in H as (keyword & Hin & Hinc).
    apply isCodeGenerationRequest_keywords. exists keyword. split; [exact Hin|].
    rewrite !toLowerCase_append. now apply includes_embedded.
Qed.

Lemma trim_empty_string : JS.trim "" = "".
Proof. reflexivity. Qed.

Lemma buildSimplePrompt_context_form (message codeContext : string) :
  JS.trim codeContext <> "" ->
  exists before after,
    Gemini.buildSimplePrompt message (Some codeContext)
    = before ++ context_section codeContext message ++ after
    /\ (Gemini.isCodeGenerationRequest message = false ->
        before = "You are a helpful coding assistant. Analyze the code and answer the question."
                 ++ nl ++ nl
        /\ after = "").
Proof.
  intros Hctx. unfold Gemini.buildSimplePrompt.
  destruct codeContext as [|c rest]; [now rewrite trim_empty_string in Hctx|].
  destruct (String.eqb_spec (JS.trim (String c rest)) "") as [E|_]; [contradiction|].
  cbn [negb]. unfold context_section.
  destruct (Gemini.isCodeGenerationRequest message).
  - eexists ("You are a helpful coding assistant. When asked to generate, modify, or add code, provide complete, working code examples. Analyze the code and answer the question." ++ nl ++ nl), _.
    split; [|discriminate]. rewrite !append_assoc. reflexivity.
  - exists ("You are a helpful coding assistant. Analyze the code and answer the question."
            ++ nl ++ nl), "".
    split; [|intros _; split; reflexivity].
    rewrite !append_assoc, append_empty_r. reflexivity.
Qed.

(** X16: for a context that is not empty or white space only, the prompt
    holds the context as it is between two fences and the question behind
    it; before this section stands the introduction and behind it nothing
    but, for a request for code, the closing instruction. *)
Theorem buildSimplePrompt_with_context (message codeContext : string) :
  JS.trim codeContext <> "" ->
  exists before after,
    Gemini.buildSimplePrompt message (Some codeContext)
    = before ++ context_section codeContext message ++ after
    /\ (Gemini.isCodeGenerationRequest message = false ->
        before = "You are a helpful coding assistant. Analyze the code and answer the question."
                 ++ nl ++ nl
        /\ after = "").
Proof. apply buildSimplePrompt_context_form. Qed.

(** ** The client that the provider holds *)

Lemma new_GeminiClient_fields (sdk : Gemini.SDK) (apiKey : option string)
    (this : Gemini.GeminiClient) :
  Gemini.new_GeminiClient sdk apiKey = Gemini.Done this ->
  exists key m,
    apiKey = Some key /\ Gemini.blank_key (Some key) = false
    /\ first_accepted sdk key Gemini.testModels = Some m
    /\ this = {| Gemini.genAI := Some key; Gemini.model := Some m |}.
Proof.
  unfold Gemini.new_GeminiClient, Gemini.initializeClient.
  destruct apiKey as [key|]; [|discriminate].
  destruct (Gemini.blank_key (Some key)) eqn:Hblank; [discriminate|].
  cbn [first_accepted Gemini.testModels]. intros H. exists key.
  destruct (Gemini.getGenerativeModel sdk key "gemini-1.5-flash") as [m1|t1].
  { exists m1. injection H as <-. now repeat split. }
  destruct (Gemini.getGenerativeModel sdk key "gemini-1.5-pro") as [m2|t2].
  { exists m2. injection H as <-. now repeat split. }
  destruct (Gemini.getGenerativeModel sdk key "gemini-pro") as [m3|t3].
  { exists m3. injection H as <-. now repeat split. }
  destruct (Gemini.getGenerativeModel sdk key "models/gemini-1.5-flash") as [m4|t4].
  { exists m4. injection H as <-. now repeat split. }
  discriminate H.
Qed.

Lemma new_GeminiClient_blank_key (sdk : Gemini.SDK) (apiKey : option string) :
  Gemini.blank_key apiKey = true ->
  Gemini.new_GeminiClient sdk apiKey = Gemini.Raised (Gemini.Error Gemini.not_configured).
Proof.
  intros Hblank. unfold Gemini.new_GeminiClient, Gemini.initializeClient.
  rewrite Hblank. now destruct apiKey.
Qed.

(** With a model in the client, [chat] does not initialize: it asks this
    model, and the client stays as it is. *)
Lemma chat_attempt_with_model (sdk : Gemini.SDK) (apiKey : option string)
    (this : Gemini.GeminiClient) (m : Gemini.Model) (message : string)
    (codeContext : option string) :
  Gemini.model this = Some m ->
  Gemini.chat_attempt sdk apiKey this message codeContext
  = (this,
     match Gemini.generateContent m (Gemini.buildSimplePrompt message codeContext) with
     | Gemini.Raised t => Gemini.Raised t
     | Gemini.Done response =>
         match Gemini.response_text response with
         | Gemini.Raised t => Gemini.Raised t
         | Gemini.Done text =>
             if String.eqb text "" || String.eqb (JS.trim text) ""
             then Gemini.Raised (Gemini.Error "Empty response from Gemini API")
             else Gemini.Done text
         end
     end).
Proof.
  intros Hmodel. unfold Gemini.chat_attempt. rewrite Hmodel. cbn beta iota. rewrite Hmodel.
  destruct (Gemini.generateContent m _) as [response|t]; [|reflexivity].
  destruct (Gemini.response_text response) as [text|t]; [|reflexivity].
  now destruct (String.eqb text "" || String.eqb (JS.trim text) "").
Qed.

Lemma chat_keeps_client (sdk : Gemini.SDK) (apiKey : option string)
    (this : Gemini.GeminiClient) (m : Gemini.Model) (message : string)
    (codeContext : option string) :
  Gemini.model this = Some m ->
  fst (Gemini.chat sdk apiKey this message codeContext) = this.
Proof.
  intros Hmodel. unfold Gemini.chat.
  rewrite (chat_attempt_with_model sdk apiKey this m message codeContext Hmodel).
  now destruct (match Gemini.generateContent m _ with
                | Gemini.Done _ => _ | Gemini.Raised _ => _ end).
Qed.

Lemma testConnection_from_keeps (sdk : Gemini.SDK) (this : Gemini.GeminiClient)
    (names : list string) (key : string) (m : Gemini.Model) :
  Gemini.genAI this = Some key -> Gemini.model this = Some m ->
  exists m',
    Gemini.genAI (fst (Gemini.testConnection_from sdk this names)) = Some key
    /\ Gemini.model (fst (Gemini.testConnection_from sdk this names)) = Some m'.
Proof.
  intros Hkey Hmodel. induction names as [|name names IH]; cbn [Gemini.testConnection_from].
  - now exists m.
  - rewrite Hkey.
    destruct (Gemini.getGenerativeModel sdk key name) as [testModel|t]; [|exact IH].
    destruct (Gemini.generateContent testModel Gemini.testPrompt); [|exact IH].
    now exists testModel.
Qed.

(** A client of the program always has its key, which is not blank, and a
    model. *)
Lemma constructed_fields (this : Gemini.GeminiClient) :
  constructed this ->
  exists key m,
    Gemini.genAI this = Some key /\ Gemini.blank_key (Some key) = false
    /\ Gemini.model this = Some m.
Proof.
  induction 1 as [sdk apiKey this Hnew
                 |sdk apiKey this message codeContext _ IH
                 |sdk this _ IH].
  - destruct (new_GeminiClient_fields sdk apiKey this Hnew) as (key & m & _ & Hblank & _ & ->).
    now exists key, m.
  - destruct IH as (key & m & Hkey & Hblank & Hmodel).
    rewrite (chat_keeps_client sdk apiKey this m message codeContext Hmodel).
    now exists key, m.
  - destruct IH as (key & m & Hkey & Hblank & Hmodel).
    destruct (testConnection_from_keeps sdk this Gemini.testModels key m Hkey Hmodel)
      as (m' & Hkey' & Hmodel').
    exists key, m'. now repeat split.
Qed.

Section ConstructedClient.

Variable sdk : Gemini.SDK.
Variable apiKey : option string.

(** X14: the constructor raises the error of the missing key when the
    configured key is missing, empty or blank, so that no client is made
    then.  A client that was made, after any calls of [chat] and
    [testConnection], has its key and a model: [chat] never initializes
    again, it leaves the client as it is and asks the model of the client,
    whatever key is configured at the time of the call.  A response whose
    text is empty or white space only makes [chat] throw the error that
    quotes "Empty response from Gemini API", and an error of the service
    whose message holds "API key" makes it throw the error of an invalid
    key. *)
Theorem chat_error_cases (this : Gemini.GeminiClient) (message : string)
    (codeContext : option string) :
  constructed this ->
  (Gemini.blank_key apiKey = true ->
   Gemini.new_GeminiClient sdk apiKey = Gemini.Raised (Gemini.Error Gemini.not_configured))
  /\ exists key m,
      Gemini.genAI this = Some key /\ Gemini.blank_key (Some key) = false
      /\ Gemini.model this = Some m
      /\ fst (Gemini.chat sdk apiKey this message codeContext) = this
      /\ (forall sdk' apiKey',
            Gemini.chat sdk' apiKey' this message codeContext
            = Gemini.chat sdk apiKey this message codeContext)
      /\ (forall response text,
            Gemini.generateContent m (Gemini.buildSimplePrompt message codeContext)
            = Gemini.Done response ->
            Gemini.response_text response = Gemini.Done text ->
            JS.trim text = "" ->
            snd (Gemini.chat sdk apiKey this message codeContext)
            = Gemini.Raised (Gemini.Error
                               "Gemini API error: Empty response from Gemini API"))
      /\ (forall cause,
            Gemini.generateContent m (Gemini.buildSimplePrompt message codeContext)
            = Gemini.Raised (Gemini.Error cause) ->
            JS.includes cause "API key" = true ->
            snd (Gemini.chat sdk apiKey this message codeContext)
            = Gemini.Raised (Gemini.Error
                               "Invalid API key. Please check your Gemini API key in settings.")).
Proof.
  intros Hthis. split; [apply new_GeminiClient_blank_key|].
  destruct (constructed_fields this Hthis) as (key & m & Hkey & Hblank & Hmodel).
  exists key, m.
  split; [exact Hkey|]. split; [exact Hblank|]. split; [exact Hmodel|].
  split; [exact (chat_keeps_client sdk apiKey this m message codeContext Hmodel)|].
  split; [|split].
  - intros sdk' apiKey'. unfold Gemini.chat.
    now rewrite !(chat_attempt_with_model _ _ this m message codeContext Hmodel).
  - intros response text Hgen Htext Htrim. unfold Gemini.chat.
    rewrite (chat_attempt_with_model sdk apiKey this m message codeContext Hmodel).
    rewrite Hgen, Htext, Htrim, orb_true_r. reflexivity.
  - intros cause Hgen Hcause. unfold Gemini.chat.
    rewrite (chat_attempt_with_model sdk apiKey this m message codeContext Hmodel).
    rewrite Hgen. cbn [snd Gemini.chat_error_message]. now rewrite Hcause.
Qed.

End ConstructedClient.

(** ** The chat session *)

Lemma buildContextFromSelection_not_blank {platform : Platform}
    (this : ChatProvider) (vscode : VSCode) (query : string) :
  JS.trim (buildContextFromSelection this vscode query) <> "".
Proof.
  unfold buildContextFromSelection.
  destruct (buildContextForMode this vscode query) as [assembled|e]; cbn [bind].
  - destruct (String.eqb_spec (JS.trim assembled) "") as [E|N]; [discriminate | exact N].
  - discriminate.
Qed.

(** X17: the prompt of a chat turn always holds the section of the context:
    the context that [buildContextFromSelection] returns is never blank, so
    [buildSimplePrompt] never takes its form without a context there. *)
Theorem chat_prompt_has_context {platform : Platform}
    (this : ChatProvider) (vscode : VSCode) (message : string) :
  let context := buildContextFromSelection this vscode message in
  exists before after,
    Gemini.buildSimplePrompt message (Some context)
    = before ++ context_section context message ++ after.
Proof.
  intros context.
  destruct (buildSimplePrompt_context_form message context
              (buildContextFromSelection_not_blank this vscode message))
    as (before & after & E & _).
  now exists before, after.
Qed.

Section SessionProperties.

Context {platform : Platform}.
Variable vscode : VSCode.
Variable sdk : Gemini.SDK.
Variable apiKey : option string.

Lemma handleChatMessage_cases (now_user now_ai : Chat.Reading) (s : Chat.Session) (message : string) :
  let s' := Chat.handleChatMessage vscode sdk apiKey now_user now_ai s message in
  let userEntry :=
    {| message_id := JS.decimal (Chat.Date_now now_user); message_text := message;
       message_isUser := true; message_timestamp := Chat.new_Date now_user |} in
  if Chat.view s
  then Chat.provider s' = Chat.provider s
       /\ Chat.view s' = true
       /\ ((exists label response,
               JS.trim response <> ""
               /\ Chat.posted s'
                  = (Chat.posted s
                     ++ [ToWebview.userMessage message; ToWebview.thinking label;
                         ToWebview.aiResponse response])%list
               /\ Chat.chatHistory s'
                  = (Chat.chatHistory s
                     ++ [userEntry;
                         {| message_id := JS.decimal (Chat.Date_now now_ai) ++ "_ai";
                            message_text := response; message_isUser := false;
                            message_timestamp := Chat.new_Date now_ai |}])%list)
           \/ (exists shown reason,
                  (shown = [] \/ exists label, shown = [ToWebview.thinking label])
                  /\ Chat.posted s'
                     = (Chat.posted s
                        ++ ToWebview.userMessage message :: shown
                        ++ [ToWebview.error reason])%list
                  /\ Chat.chatHistory s' = (Chat.chatHistory s ++ [userEntry])%list))
  else s' = s.
Proof.
  intros s' userEntry. subst s'. unfold Chat.handleChatMessage.
  destruct (Chat.view s) eqn:Hview; cbn [negb]; [|reflexivity].
  cbn [Chat.provider Chat.post Chat.push_history].
  destruct (Chat.getThinkingMessage vscode (Chat.provider s)) as [label|e].
  - pose proof (chat_result_forms sdk apiKey (Chat.geminiClient s) message
                  (Some (buildContextFromSelection (Chat.provider s) vscode message)))
      as Hchat.
    cbn [Chat.geminiClient Chat.post Chat.push_history] in *.
    destruct (Gemini.chat sdk apiKey (Chat.geminiClient s) message
                (Some (buildContextFromSelection (Chat.provider s) vscode message)))
      as [client [response|t]]; cbn [snd] in Hchat.
    + cbn. repeat split; [exact Hview|]. left. exists label, response.
      repeat split; [apply Hchat | | ]; now rewrite <- !app_assoc.
    + cbn. repeat split; [exact Hview|]. right.
      exists [ToWebview.thinking label], (Chat.thrown_message t).
      repeat split; [right; now exists label | now rewrite <- !app_assoc].
  - cbn. repeat split; [exact Hview|]. right. exists [], (Chat.exn_message e).
    repeat split; [now left | now rewrite <- !app_assoc].
Qed.

(** X18: [handleChatMessage] does nothing before the webview is resolved.
    Otherwise it always adds the user's message to the transcript and posts
    it first; then either it posts the thinking message and the response,
    which is not blank, and adds the response to the transcript, or it
    posts one error, after the thinking message or in its place, and adds
    nothing more.  The provider's selection and files are untouched. *)
Theorem handleChatMessage_turn (now_user now_ai : Chat.Reading) (s : Chat.Session) (message : string) :
  let s' := Chat.handleChatMessage vscode sdk apiKey now_user now_ai s message in
  let userEntry :=
    {| message_id := JS.decimal (Chat.Date_now now_user); message_text := message;
       message_isUser := true; message_timestamp := Chat.new_Date now_user |} in
  if Chat.view s
  then Chat.provider s' = Chat.provider s
       /\ Chat.view s' = true
       /\ ((exists label response,
               JS.trim response <> ""
               /\ Chat.posted s'
                  = (Chat.posted s
                     ++ [ToWebview.userMessage message; ToWebview.thinking label;
                         ToWebview.aiResponse response])%list
               /\ Chat.chatHistory s'
                  = (Chat.chatHistory s
                     ++ [userEntry;
                         {| message_id := JS.decimal (Chat.Date_now now_ai) ++ "_ai";
                            message_text := response; message_isUser := false;
                            message_timestamp := Chat.new_Date now_ai |}])%list)
           \/ (exists shown reason,
                  (shown = [] \/ exists label, shown = [ToWebview.thinking label])
                  /\ Chat.posted s'
                     = (Chat.posted s
                        ++ ToWebview.userMessage message :: shown
                        ++ [ToWebview.error reason])%list
                  /\ Chat.chatHistory s' = (Chat.chatHistory s ++ [userEntry])%list))
  else s' = s.
Proof. apply handleChatMessage_cases. Qed.

(** X19: a round of the chat.  From a webview that is not waiting and has a
    text that is not blank in its input, [sendMessage] posts the trimmed
    text, and until an answer comes it posts nothing more, whatever is typed;
    the provider handles the posted text with [handleChatMessage], and the
    messages it posts put the webview back to rest, whether the turn
    succeeded or failed: not waiting, the button enabled and labelled Send. *)
Theorem chat_round_trip (now_user now_ai : Chat.Reading) (s : Chat.Session) (w : Webview.State) :
  Chat.view s = true ->
  Webview.isWaitingForResponse w = false ->
  JS.trim (Webview.messageInput_value w) <> "" ->
  let message := JS.trim (Webview.messageInput_value w) in
  let sent := Webview.sendMessage w in
  let s' := Chat.handleChatMessage vscode sdk apiKey now_user now_ai s message in
  let answer := skipn (List.length (Chat.posted s)) (Chat.posted s') in
  let rested := fold_left Webview.onMessage answer sent in
  Webview.outbox sent = (Webview.outbox w ++ [FromWebview.sendMessage message])%list
  /\ (forall typed, Webview.sendMessage (Webview.typeInput sent typed)
                    = Webview.typeInput sent typed)
  /\ Webview.isWaitingForResponse rested = false
  /\ Webview.sendButton_disabled rested = false
  /\ Webview.sendButton_textContent rested = "Send"
  /\ Webview.outbox rested = Webview.outbox sent.
Proof.
  intros Hview Hidle Hinput message sent s' answer rested.
  assert (Hsent : sent
                  = {| Webview.isWaitingForResponse := true;
                       Webview.currentMode := Webview.currentMode w;
                       Webview.selectedFiles := Webview.selectedFiles w;
                       Webview.availableFiles := Webview.availableFiles w;
                       Webview.sendButton_disabled := true;
                       Webview.sendButton_textContent := "Sending...";
                       Webview.messageInput_value := "";
                       Webview.outbox :=
                         (Webview.outbox w ++ [FromWebview.sendMessage message])%list |}).
  { subst sent. unfold Webview.sendMessage. fold message. rewrite Hidle.
    destruct (String.eqb_spec message "") as [E|_]; [contradiction | reflexivity]. }
  pose proof (handleChatMessage_cases now_user now_ai s message) as H.
  cbv zeta in H. fold s' in H. rewrite Hview in H.
  split; [now rewrite Hsent|]. split.
  { intros typed. rewrite Hsent. unfold Webview.sendMessage, Webview.typeInput.
    cbn [Webview.isWaitingForResponse]. now rewrite andb_false_r. }
  destruct H as (_ & _ & [(label & response & _ & Hposted & _)
                         |(shown & reason & Hshown & Hposted & _)]);
    subst rested answer; rewrite Hposted, skipn_app, skipn_all, Nat.sub_diag;
    cbn [app skipn]; rewrite Hsent.
  - cbn. repeat split.
  - destruct Hshown as [->|[label ->]]; cbn; repeat split.
Qed.

Lemma In_refreshed (this : ChatProvider) (sf : ScoredFile) :
  In sf (availableFiles (refreshAvailableFiles this vscode)) ->
  In (file sf) (getAllCodeFiles (codebaseAnalyzer this) (fs_root vscode))
  /\ score sf = Spec.size_bonus (size (file sf)).
Proof.
  cbn [availableFiles refreshAvailableFiles]. intros Hin.
  apply In_getRelevantFiles in Hin as [Hfile Hscore]. split; [exact Hfile|].
  rewrite calculateRelevanceScore_empty_query in Hscore. now injection Hscore.
Qed.

(** X20: [refreshAvailableFiles] leaves the selection, the transcript and the
    analyzer as they are.  The new list holds at most 50 files, each a
    discovered file with its invariant, ranked by the size bonus alone; and
    when the webview is resolved the paths and sizes of the list are posted
    to it in one message. *)
Theorem refreshAvailableFiles_list (s : Chat.Session) :
  let s' := Chat.refreshAvailableFiles vscode s in
  let listed := availableFiles (Chat.provider s') in
  contextSelection (Chat.provider s') = contextSelection (Chat.provider s)
  /\ codebaseAnalyzer (Chat.provider s') = codebaseAnalyzer (Chat.provider s)
  /\ Chat.chatHistory s' = Chat.chatHistory s
  /\ (List.length listed <= 50)%nat
  /\ StronglySorted by_score listed
  /\ (forall sf, In sf listed ->
        In (file sf) (getAllCodeFiles (codebaseAnalyzer (Chat.provider s)) (fs_root vscode))
        /\ well_discovered (ignoreFilter (codebaseAnalyzer (Chat.provider s))) (file sf)
        /\ score sf = Spec.size_bonus (size (file sf)))
  /\ Chat.posted s'
     = if Chat.view s
       then (Chat.posted s
             ++ [ToWebview.updateFileList
                   (map (fun f => (path (file f), size (file f))) listed)])%list
       else Chat.posted s.
Proof.
  intros s' listed.
  assert (Hlisted : listed = getRelevantFiles (codebaseAnalyzer (Chat.provider s))
                               (fs_root vscode) "" 50).
  { subst listed s'. unfold Chat.refreshAvailableFiles. cbn [Chat.view Chat.with_provider].
    now destruct (Chat.view s). }
  split; [|split; [|split; [|split; [|split; [|split]]]]].
  - subst s'. unfold Chat.refreshAvailableFiles. cbn [Chat.view Chat.with_provider].
    now destruct (Chat.view s).
  - subst s'. unfold Chat.refreshAvailableFiles. cbn [Chat.view Chat.with_provider].
    now destruct (Chat.view s).
  - subst s'. unfold Chat.refreshAvailableFiles. cbn [Chat.view Chat.with_provider].
    now destruct (Chat.view s).
  - rewrite Hlisted.
    pose proof (length_getRelevantFiles (codebaseAnalyzer (Chat.provider s))
                  (fs_root vscode) "" 50 ltac:(lia)). lia.
  - rewrite Hlisted.
    pose proof (getRelevantFiles_cases (codebaseAnalyzer (Chat.provider s))
                  (fs_root vscode) "" 50) as Hcases.
    rewrite mapM_scoreFile_empty_query in Hcases. rewrite Hcases.
    apply StronglySorted_slice0, sort_sorted.
  - intros sf Hin. rewrite Hlisted in Hin.
    destruct (In_refreshed (Chat.provider s) sf Hin) as [Hfile Hscore].
    split; [exact Hfile | split; [|exact Hscore]].
    now apply (getAllCodeFiles_well_discovered (codebaseAnalyzer (Chat.provider s))
                 (fs_root vscode)).
  - subst listed s'. unfold Chat.refreshAvailableFiles. cbn [Chat.view Chat.with_provider].
    now destruct (Chat.view s).
Qed.

(** X21: when the webview is resolved and the editor can be read, the case
    [updateSelectedFiles] of the message handler stores the list it is given
    and posts one line of context information; in the selected mode the line
    says that no files are selected exactly when the context is the notice
    of that, and otherwise it names the number of selected paths, missing
    ones included, which is the number in the header of the context. *)
Theorem onUpdateSelectedFiles_info (s : Chat.Session) (files : list string)
    (activeEditor : option TextEditor) :
  Chat.view s = true ->
  window_activeTextEditor vscode = Returns activeEditor ->
  exists s' info,
    Chat.onUpdateSelectedFiles vscode s files = Returns s'
    /\ selectedFiles (contextSelection (Chat.provider s')) = files
    /\ mode (contextSelection (Chat.provider s')) = mode (contextSelection (Chat.provider s))
    /\ availableFiles (Chat.provider s') = availableFiles (Chat.provider s)
    /\ Chat.posted s' = (Chat.posted s ++ [ToWebview.updateContextInfo info])%list
    /\ (mode (contextSelection (Chat.provider s)) = selected ->
        match files with
        | [] => info = "Using: No files selected"
                /\ buildSelectedFilesContext (Chat.provider s') = no_selection_notice
        | _ :: _ =>
            info = "Using: " ++ JS.decimal (List.length files) ++ " selected files"
            /\ exists blocks,
                buildSelectedFilesContext (Chat.provider s')
                = "Selected files (" ++ JS.decimal (List.length files) ++ "):"
                  ++ nl ++ nl ++ blocks
        end).
Proof.
  intros Hview Hread.
  unfold Chat.onUpdateSelectedFiles, Chat.updateContextInfo, Chat.contextInfo,
    getCurrentFileName.
  cbn [Chat.view Chat.with_provider Chat.provider]. rewrite Hview, Hread. cbn [negb bind].
  eexists _, _. split; [reflexivity|].
  cbn [Chat.post Chat.provider Chat.posted contextSelection selectedFiles mode availableFiles].
  repeat split. intros Hmode. rewrite Hmode.
  destruct files as [|p files].
  - split; reflexivity.
  - split; [reflexivity|].
    rewrite buildSelectedFilesContext_blocks. cbn [contextSelection selectedFiles].
    eexists. unfold selection_header. rewrite !append_assoc. reflexivity.
Qed.

End SessionProperties.

(** ** The script of the webview *)

Lemma filter_keeps_all {A : Type} (keep : A -> bool) (l : list A) :
  (forall x, In x l -> keep x = true) -> filter keep l = l.
Proof.
  induction l as [|x l IH]; intros H; [reflexivity|]. cbn [filter].
  rewrite (H x (or_introl eq_refl)), IH; [reflexivity|].
  intros y Hy. apply H. now right.
Qed.

Lemma toggle_present (l : list string) (p : string) :
  In p l -> Webview.toggle l p = filter (fun f => negb (String.eqb f p)) l.
Proof.
  intros Hin. unfold Webview.toggle.
  assert (E : existsb (String.eqb p) l = true).
  { apply existsb_exists. exists p. split; [exact Hin | apply String.eqb_refl]. }
  now rewrite E.
Qed.

Lemma toggle_absent (l : list string) (p : string) :
  ~ In p l -> Webview.toggle l p = (l ++ [p])%list.
Proof.
  intros Hout. unfold Webview.toggle.
  destruct (existsb (String.eqb p) l) eqn:E; [|reflexivity].
  apply existsb_exists in E as (x & Hx & Heq). apply String.eqb_eq in Heq. now subst x.
Qed.

Lemma In_without (l : list string) (p q : string) :
  In q (filter (fun f => negb (String.eqb f p)) l) <-> In q l /\ q <> p.
Proof.
  rewrite filter_In. split; intros [Hin H]; (split; [exact Hin|]).
  - intros ->. now rewrite String.eqb_refl in H.
  - apply negb_true_iff. now apply String.eqb_neq.
Qed.

(** X22: [toggleFileSelection] flips the selection of the path it is given
    and of no other; it keeps a selection free of duplicates so; toggling a
    path twice gives the selection back, as the same list when the path was
    not selected and up to the order otherwise; and the new selection is what
    the script posts to the provider. *)
Theorem toggleFileSelection_flips (w : Webview.State) (filePath : string) :
  let before := Webview.selectedFiles w in
  let toggled := Webview.toggleFileSelection w filePath in
  let after := Webview.selectedFiles toggled in
  (In filePath after <-> ~ In filePath before)
  /\ (forall other, other <> filePath -> (In other after <-> In other before))
  /\ (NoDup before -> NoDup after)
  /\ Webview.outbox toggled
     = (Webview.outbox w ++ [FromWebview.updateSelectedFiles after])%list
  /\ (~ In filePath before ->
      Webview.selectedFiles (Webview.toggleFileSelection toggled filePath) = before)
  /\ (NoDup before ->
      Permutation (Webview.selectedFiles (Webview.toggleFileSelection toggled filePath))
                  before).
Proof.
  intros before toggled after.
  assert (Hafter : after = Webview.toggle before filePath) by reflexivity.
  assert (Htwice : Webview.selectedFiles (Webview.toggleFileSelection toggled filePath)
                   = Webview.toggle (Webview.toggle before filePath) filePath)
    by reflexivity.
  assert (Hback : ~ In filePath before ->
                  Webview.toggle (Webview.toggle before filePath) filePath = before).
  { intros Hout. rewrite (toggle_absent _ _ Hout), toggle_present by (apply in_or_app; right; now left).
    rewrite filter_app. cbn [filter]. rewrite String.eqb_refl. cbn [negb].
    rewrite app_nil_r. apply filter_keeps_all. intros x Hx.
    apply negb_true_iff, String.eqb_neq. intros ->. contradiction. }
  rewrite Htwice, Hafter. clear Hafter Htwice.
  destruct (in_dec string_dec filePath before) as [Hin|Hout].
  - rewrite (toggle_present _ _ Hin).
    split; [split | split; [intros other Hne; split | split; [|split; [|split]]]].
    + intros H. apply In_without in H as [_ H]. congruence.
    + intros H. contradiction.
    + intros H. now apply In_without in H.
    + intros H. now apply In_without.
    + intros Hnd. now apply NoDup_filter.
    + rewrite <- (toggle_present _ _ Hin). reflexivity.
    + intros Hout. contradiction.
    + intros Hnd.
      rewrite toggle_absent by (intros H; apply In_without in H as [_ H]; congruence).
      apply NoDup_Permutation.
      * apply NoDup_app; [now apply NoDup_filter | repeat constructor; intros [] |].
        intros x Hx [<-|[]]. apply In_without in Hx as [_ Hx]. congruence.
      * exact Hnd.
      * intros x. rewrite in_app_iff, In_without. cbn [In].
        destruct (string_dec x filePath) as [->|Hne]; [tauto|]. split.
        -- intros [[H _]|[H|[]]]; [exact H | congruence].
        -- intros H. left. now split.
  - rewrite (toggle_absent _ _ Hout).
    split; [split | split; [intros other Hne; split | split; [|split; [|split]]]].
    + intros _. exact Hout.
    + intros _. apply in_or_app. right. now left.
    + intros H. apply in_app_or in H as [H|[H|[]]]; [exact H | congruence].
    + intros H. apply in_or_app. now left.
    + intros Hnd. apply NoDup_app; [exact Hnd | repeat constructor; intros [] |].
      intros x Hx [<-|[]]. contradiction.
    + rewrite <- (toggle_absent _ _ Hout). reflexivity.
    + intros _. rewrite <- (toggle_absent _ _ Hout). now apply Hback.
    + intros _. rewrite <- (toggle_absent _ _ Hout), Hback by exact Hout.
      apply Permutation_refl.
Qed.

(** X23: [formatFileSize] prints a size below 1024 as it is, in B; from
    there to below 1024 * 1024 it prints the number of KB nearest to the
    size, a half counting up, which is at most 49 for a discovered file and
    can be 1024; and from there on the nearest number of MB. *)
Theorem formatFileSize_rounds (bytes : N) :
  ((bytes < 1024)%N -> Webview.formatFileSize bytes = Webview.decimalN bytes ++ "B")
  /\ ((1024 <= bytes < 1024 * 1024)%N ->
      exists k, Webview.formatFileSize bytes = Webview.decimalN k ++ "KB"
                /\ (1 <= k <= 1024)%N
                /\ (1024 * k <= bytes + 512 < 1024 * k + 1024)%N
                /\ ((bytes < 50000)%N -> (k <= 49)%N))
  /\ ((1024 * 1024 <= bytes)%N ->
      exists k, Webview.formatFileSize bytes = Webview.decimalN k ++ "MB"
                /\ (1 <= k)%N
                /\ (1048576 * k <= bytes + 524288 < 1048576 * k + 1048576)%N).
Proof.
  unfold Webview.formatFileSize. change (1024 * 1024)%N with 1048576%N.
  split; [|split].
  - intros H. apply N.ltb_lt in H. now rewrite H.
  - intros [Hlow Hhigh].
    destruct (N.ltb_spec bytes 1024); [lia|].
    destruct (N.ltb_spec bytes 1048576); [|lia].
    exists ((bytes + 512) / 1024)%N. split; [reflexivity|].
    pose proof (N.div_mod (bytes + 512) 1024 ltac:(lia)) as Hdiv.
    pose proof (N.mod_lt (bytes + 512) 1024 ltac:(lia)) as Hmod.
    generalize dependent ((bytes + 512) mod 1024)%N.
    generalize dependent ((bytes + 512) / 1024)%N.
    intros k r Hdiv Hmod. lia.
  - intros Hlow.
    destruct (N.ltb_spec bytes 1024); [lia|].
    destruct (N.ltb_spec bytes 1048576); [lia|].
    exists ((bytes + 524288) / 1048576)%N. split; [reflexivity|].
    pose proof (N.div_mod (bytes + 524288) 1048576 ltac:(lia)) as Hdiv.
    pose proof (N.mod_lt (bytes + 524288) 1048576 ltac:(lia)) as Hmod.
    generalize dependent ((bytes + 524288) mod 1048576)%N.
    generalize dependent ((bytes + 524288) / 1048576)%N.
    intros k r Hdiv Hmod. lia.
Qed.

(** ** Further examples *)

(** X1, the file that the ignore file of the example project lists. *)
Lemma searchFiles_never_enters_ignored_witness :
  @searchFiles Posix.platform Examples.analyzer ""
     (Dir ([(".gitignore", File "secret.txt")]
           ++ ("secret.txt", File "token")
           :: [("src", Dir MoreExamples.src_items); ("README.md", File "# Hi")])) []
  = @searchFiles Posix.platform Examples.analyzer ""
      (Dir ([(".gitignore", File "secret.txt")]
            ++ [("src", Dir MoreExamples.src_items); ("README.md", File "# Hi")])) [].
Proof.
  refine (proj1 (@searchFiles_never_enters_ignored Posix.platform Examples.analyzer
                   "" "secret.txt" (File "token") NoStat
                   [(".gitignore", File "secret.txt")]
                   [("src", Dir MoreExamples.src_items); ("README.md", File "# Hi")]
                   [] _)).
  vm_compute. reflexivity.
Defined.


(** X3, a link that cannot be resolved hides the file behind it. *)
Lemma searchFiles_stops_at_failure_witness :
  map path (@searchFiles Posix.platform Examples.analyzer ""
              (Dir MoreExamples.with_dangling_link) [])
  = ["a.ts"].
Proof.
  change (Dir MoreExamples.with_dangling_link)
    with (Dir ([("a.ts", File "let a;")] ++ ("dangling", NoStat) :: [("b.ts", File "let b;")])).
  rewrite (@searchFiles_stops_at_failure Posix.platform Examples.analyzer
             "" "dangling" NoStat [("a.ts", File "let a;")] [("b.ts", File "let b;")] []).
  - vm_compute. reflexivity.
  - right. split; [vm_compute|]; reflexivity.
Defined.

(** X4, the file [src/main.ts] of the example project. *)
Lemma getAllCodeFiles_complete_witness :
  In Examples.main_ts
     (@getAllCodeFiles Posix.platform Examples.analyzer (Some (Dir MoreExamples.project_items))).
Proof.
  refine (@getAllCodeFiles_complete Posix.platform Examples.analyzer
            (Dir MoreExamples.project_items) "src/main.ts" "let x = 1;" _ _ _).
  - discriminate.
  - vm_compute. reflexivity.
  - apply (visible_below _ "" MoreExamples.project_items "src"
             (Dir MoreExamples.src_items)).
    + right. right. now left.
    + vm_compute. reflexivity.
    + apply (visible_here _ "src" MoreExamples.src_items "main.ts" "let x = 1;").
      * now left.
      * vm_compute. reflexivity.
      * vm_compute. reflexivity.
      * vm_compute. reflexivity.
Defined.

(** X5, the score 25 of three words. *)
Lemma calculateRelevanceScore_bounds_witness :
  0 <= 2 <= 25 /\ 25 <= 20 * 3 + 2.
Proof.
  exact (@calculateRelevanceScore_bounds Posix.platform MoreExamples.parser_ts
           "parse json config" 25 ltac:(vm_compute; reflexivity)).
Defined.

(** X6, the score 25 of three words from the score 15 of two and 12 of one. *)
Lemma calculateRelevanceScore_adds_up_witness :
  @calculateRelevanceScore Posix.platform MoreExamples.parser_ts ("parse json" ++ " " ++ "config")
  = Returns (15 + 12 - 2).
Proof.
  exact (proj2 (@calculateRelevanceScore_adds_up Posix.platform MoreExamples.parser_ts
                  "parse json" "config" 15 12
                  ltac:(vm_compute; reflexivity) ltac:(vm_compute; reflexivity))).
Defined.

(** X9, the mode of the current file with an editor on [src/main.ts]. *)
Lemma current_mode_context_witness :
  @buildContextFromSelection Posix.platform (Examples.provider current [])
     (Examples.editing Examples.main_editor) "what is in README.md"
  = "Current file: src/main.ts" ++ nl ++ nl ++ "Content:" ++ nl ++ "let x = 1;".
Proof.
  exact (@current_mode_context Posix.platform (Examples.provider current [])
           (Examples.editing Examples.main_editor) (Some Examples.main_editor)
           eq_refl "what is in README.md" eq_refl).
Defined.

(** X10, no editor and a query whose token is not a pattern. *)
Lemma no_context_notice_only_in_auto_witness :
  @buildContextFromSelection Posix.platform (Examples.provider auto [])
     (Examples.no_editor None) "what about c++ here"
  = no_context_notice.
Proof.
  apply (proj2 (@no_context_notice_only_in_auto Posix.platform (Examples.provider auto [])
                  (Examples.no_editor None) None eq_refl "what about c++ here")).
  split; [reflexivity | split; [reflexivity | vm_compute; reflexivity]].
Defined.

(** X14, the client that the constructor makes with a service whose model
    answers with white space, asked after the key was removed from the
    settings. *)
Lemma chat_error_cases_witness :
  Gemini.new_GeminiClient MoreExamples.silent_sdk (Some "key")
  = Gemini.Done MoreExamples.silent_client
  /\ Gemini.chat MoreExamples.silent_sdk None MoreExamples.silent_client "hello" None
     = (MoreExamples.silent_client,
        Gemini.Raised (Gemini.Error "Gemini API error: Empty response from Gemini API")).
Proof.
  split; [reflexivity|].
  destruct (chat_error_cases MoreExamples.silent_sdk None MoreExamples.silent_client
              "hello" None
              (constructed_new MoreExamples.silent_sdk (Some "key")
                 MoreExamples.silent_client eq_refl))
    as (_ & key & m & _ & _ & Hmodel & Hfst & _ & Hempty & _).
  injection Hmodel as <-.
  rewrite (surjective_pairing (Gemini.chat _ _ _ _ _)), Hfst.
  rewrite (Hempty _ "  " eq_refl eq_refl eq_refl). reflexivity.
Defined.

(** X16, a question that is no request for code. *)
Lemma buildSimplePrompt_with_context_witness :
  exists before after,
    Gemini.buildSimplePrompt "explain x" (Some "let x = 1;")
    = before ++ context_section "let x = 1;" "explain x" ++ after
    /\ (Gemini.isCodeGenerationRequest "explain x" = false ->
        before = "You are a helpful coding assistant. Analyze the code and answer the question."
                 ++ nl ++ nl
        /\ after = "").
Proof.
  exact (buildSimplePrompt_with_context "explain x" "let x = 1;" ltac:(discriminate)).
Defined.

(** X19, a question typed with spaces around it, and a service that
    answers. *)
Lemma chat_round_trip_witness :
  Webview.outbox (Webview.sendMessage MoreExamples.typed)
  = [FromWebview.requestFileList; FromWebview.sendMessage "what does main.ts do?"]
  /\ Chat.posted (@Chat.handleChatMessage Posix.platform
                    (Examples.editing Examples.main_editor) MoreExamples.sdk (Some "key")
                    MoreExamples.asked MoreExamples.answered (MoreExamples.session auto []) "what does main.ts do?")
     = [ToWebview.userMessage "what does main.ts do?";
        ToWebview.thinking "Auto-detecting and analyzing relevant files...";
        ToWebview.aiResponse "It sets x to 1."]
  /\ Webview.isWaitingForResponse
       (fold_left Webview.onMessage
          (Chat.posted (@Chat.handleChatMessage Posix.platform
                          (Examples.editing Examples.main_editor) MoreExamples.sdk (Some "key")
                          MoreExamples.asked MoreExamples.answered (MoreExamples.session auto []) "what does main.ts do?"))
          (Webview.sendMessage MoreExamples.typed))
     = false.
Proof.
  pose proof (@chat_round_trip Posix.platform (Examples.editing Examples.main_editor)
                MoreExamples.sdk (Some "key") MoreExamples.asked MoreExamples.answered
                (MoreExamples.session auto [])
                MoreExamples.typed eq_refl eq_refl ltac:(vm_compute; discriminate)) as H.
  destruct H as (Hsent & _ & Hrest & _).
  split; [exact Hsent | split; [vm_compute; reflexivity | exact Hrest]].
Defined.

(** X21, one available path selected while [src/main.ts] is edited. *)
Lemma onUpdateSelectedFiles_info_witness :
  exists s',
    @Chat.onUpdateSelectedFiles (Examples.editing Examples.main_editor)
       (MoreExamples.session selected []) ["src/main.ts"] = Returns s'
    /\ Chat.posted s' = [ToWebview.updateContextInfo "Using: 1 selected files"].
Proof.
  destruct (@onUpdateSelectedFiles_info (Examples.editing Examples.main_editor)
              (MoreExamples.session selected []) ["src/main.ts"]
              (Some Examples.main_editor) eq_refl eq_refl)
    as (s' & info & E & _ & _ & _ & Hposted & Hinfo).
  exists s'. split; [exact E|].
  destruct (Hinfo eq_refl) as [-> _]. exact Hposted.
Defined.

(** ** The walk in parts, and a negative limit *)

Section WalkComposition.

Context {platform : Platform}.
Variable this : CodebaseAnalyzer.

(** X24: the walk of a directory goes through its entries in their order:
    when no exception disturbs the first part of the entries, the result for
    all entries is the result for the rest of them, started with the files
    that the first part gave. *)
Theorem searchFiles_in_order (dir : string) (before behind : list (string * fsnode))
    (files : list CodeFile) :
  undisturbed (ignoreFilter this) dir (Dir before) = true ->
  searchFiles this dir (Dir (before ++ behind)) files
  = searchFiles this dir (Dir behind) (searchFiles this dir (Dir before) files).
Proof.
  cbn [undisturbed searchFiles]. revert files.
  induction before as [|[name child] before IH]; intros files Hcalm; [reflexivity|].
  cbn [undisturbed_items] in Hcalm. cbn [app searchItems].
  destruct (ignore_ignores (ignoreFilter this) (relative_join dir name)) as [[|]|e];
    [now apply IH | | discriminate Hcalm].
  destruct child as [text| |sub| |]; try discriminate Hcalm;
    apply andb_true_iff in Hcalm as [_ Hcalm];
    repeat match goal with |- context [if ?c then _ else _] => destruct c end;
    now apply IH.
Qed.


End WalkComposition.

(** X24, the example project, cut behind its second entry. *)
Lemma searchFiles_in_order_witness :
  @searchFiles Posix.platform Examples.analyzer ""
     (Dir ([(".gitignore", File "secret.txt"); ("secret.txt", File "token")]
           ++ [("src", Dir MoreExamples.src_items); ("README.md", File "# Hi")])) []
  = @searchFiles Posix.platform Examples.analyzer ""
      (Dir [("src", Dir MoreExamples.src_items); ("README.md", File "# Hi")])
      (@searchFiles Posix.platform Examples.analyzer ""
         (Dir [(".gitignore", File "secret.txt"); ("secret.txt", File "token")]) []).
Proof.
  refine (@searchFiles_in_order Posix.platform Examples.analyzer ""
            [(".gitignore", File "secret.txt"); ("secret.txt", File "token")]
            [("src", Dir MoreExamples.src_items); ("README.md", File "# Hi")] [] _).
  vm_compute. reflexivity.
Defined.

